(** * Retail supply-chain optimizer: the forecasting engine of
    [ml_forecasting.py] ([DemandForecaster]) as a shallow embedding.

    Numbers.  A Python/NumPy float is modelled by [float]: a real number, the
    two infinities, or NaN.  Finite arithmetic is exact (no rounding, no
    signed zero); the special values follow IEEE-754 as NumPy applies them
    (x/0 is an infinity or NaN, never an exception).  Dates are day numbers
    (days since 1970-01-01), so [timedelta(days=1)] is [+ 1].

    Library code (scikit-learn's scaler and regressors, the metrics) is taken
    as parameters of a section; pandas' column operations that the source
    calls are written out. *)

From Stdlib Require Import String DecimalString.
From Stdlib Require Import Reals Lra Lia ZArith List Bool Arith.
From Stdlib Require Import Sorted.
Import ListNotations.

Open Scope R_scope.

(** ** Floats with NaN and infinities *)

Inductive float : Type :=
| Fin (r : R)
| PInf
| NInf
| NaN.

Definition isnan (x : float) : bool :=
  match x with NaN => true | _ => false end.

Definition notna (x : float) : bool := negb (isnan x).

Definition is_finite (x : float) : Prop :=
  match x with Fin _ => True | _ => False end.

Definition fneg (x : float) : float :=
  match x with
  | Fin r => Fin (- r)
  | PInf => NInf
  | NInf => PInf
  | NaN => NaN
  end.

(** [r * inf] for a finite [r]. *)
Definition inf_of_sign (r : R) : float :=
  if Rlt_dec 0 r then PInf else if Rlt_dec r 0 then NInf else NaN.

Definition fadd (x y : float) : float :=
  match x, y with
  | NaN, _ | _, NaN => NaN
  | Fin a, Fin b => Fin (a + b)
  | PInf, NInf | NInf, PInf => NaN
  | PInf, _ | _, PInf => PInf
  | NInf, _ | _, NInf => NInf
  end.

Definition fsub (x y : float) : float := fadd x (fneg y).

Definition fmul (x y : float) : float :=
  match x, y with
  | NaN, _ | _, NaN => NaN
  | Fin a, Fin b => Fin (a * b)
  | Fin a, PInf | PInf, Fin a => inf_of_sign a
  | Fin a, NInf | NInf, Fin a => inf_of_sign (- a)
  | PInf, PInf | NInf, NInf => PInf
  | PInf, NInf | NInf, PInf => NInf
  end.

(** NumPy division: a finite value over zero is an infinity of the sign of
    the numerator, and 0/0 is NaN. *)
Definition fdiv (x y : float) : float :=
  match x, y with
  | NaN, _ | _, NaN => NaN
  | Fin a, Fin b => if Req_dec_T b 0 then inf_of_sign a else Fin (a / b)
  | Fin _, PInf | Fin _, NInf => Fin 0
  | PInf, Fin b => if Rlt_dec b 0 then NInf else PInf
  | NInf, Fin b => if Rlt_dec b 0 then PInf else NInf
  | _, _ => NaN
  end.

Definition fsqrt (x : float) : float :=
  match x with
  | Fin a => if Rlt_dec a 0 then NaN else Fin (sqrt a)
  | PInf => PInf
  | _ => NaN
  end.

Definition fabs (x : float) : float :=
  match x with
  | Fin a => Fin (Rabs a)
  | PInf | NInf => PInf
  | NaN => NaN
  end.

(** [x < y]; every comparison with NaN is false. *)
Definition fltb (x y : float) : bool :=
  match x, y with
  | NaN, _ | _, NaN => false
  | Fin a, Fin b => if Rlt_dec a b then true else false
  | NInf, NInf => false
  | NInf, _ => true
  | Fin _, PInf => true
  | _, _ => false
  end.

Definition fgtb (x y : float) : bool := fltb y x.

(** [x >= y] as a proposition, false on NaN. *)
Definition fge (x y : float) : Prop :=
  match x, y with
  | NaN, _ | _, NaN => False
  | Fin a, Fin b => a >= b
  | PInf, _ => True
  | _, NInf => True
  | _, _ => False
  end.

Definition of_Z (z : Z) : float := Fin (IZR z).
Definition of_nat (n : nat) : float := Fin (INR n).

(** ** Python exceptions and results *)

Inductive pyerr : Type :=
| ValueError (msg : string)
| OverflowError
| KeyError (key : string)
| IndexError.

Definition result (A : Type) : Type := (pyerr + A)%type.

Definition ret {A} (a : A) : result A := inr a.
Definition raise {A} (e : pyerr) : result A := inl e.
Definition bind {A B} (m : result A) (k : A -> result B) : result B :=
  match m with
  | inl e => inl e
  | inr a => k a
  end.

Declare Scope py_scope.
Delimit Scope py_scope with py.
Notation "x <- m ;; k" := (bind m (fun x => k))
  (at level 61, m at next level, right associativity) : py_scope.

(** Truncation toward zero of a real number. *)
Definition Rtrunc (r : R) : Z :=
  if Rle_dec 0 r then Int_part r else (- Int_part (- r))%Z.

(** Python's [int(x)] on a float: NaN raises ValueError, an infinity raises
    OverflowError, a finite value is truncated toward zero. *)
Definition py_int (x : float) : result Z :=
  match x with
  | Fin r => ret (Rtrunc r)
  | NaN => raise (ValueError "cannot convert float NaN to integer")
  | _ => raise OverflowError
  end.

(** Python's [str] of an integer. *)
Definition str_of_Z (z : Z) : string := NilZero.string_of_int (Z.to_int z).

(** Python's builtin [max(a, b)] keeps [a] unless [b > a]; [min] alike. *)
Definition py_max2 (a b : float) : float := if fgtb b a then b else a.
Definition py_min2 (a b : float) : float := if fltb b a then b else a.

(** [max(xs)] / [min(xs)] on a list: ValueError on the empty list. *)
Definition py_max (xs : list float) : result float :=
  match xs with
  | [] => raise (ValueError "max() arg is an empty sequence")
  | x :: t => ret (fold_left py_max2 t x)
  end.

Definition py_min (xs : list float) : result float :=
  match xs with
  | [] => raise (ValueError "min() arg is an empty sequence")
  | x :: t => ret (fold_left py_min2 t x)
  end.

(** ** pandas / NumPy column operations *)

Definition Rsum (l : list R) : R := fold_right Rplus 0 l.

Definition fsum (l : list float) : float := fold_left fadd l (Fin 0).

(** [np.mean] of a list: sum over count, NaN on the empty list (0/0). *)
Definition np_mean (l : list float) : float :=
  fdiv (fsum l) (of_nat (length l)).

(** [Series.mean()]: NaN entries are skipped; NaN when nothing is left. *)
Definition series_mean (l : list float) : float :=
  let v := filter notna l in
  match v with
  | [] => NaN
  | _ => fdiv (fsum v) (of_nat (length v))
  end.

(** [Series.std()] (ddof = 1): NaN entries are skipped; NaN when fewer than
    two values are left. *)
Definition series_std (l : list float) : float :=
  let v := filter notna l in
  if (length v <=? 1)%nat then NaN
  else
    let avg := fdiv (fsum v) (of_nat (length v)) in
    let sq := map (fun x => let d := fsub avg x in fmul d d) v in
    fsqrt (fdiv (fsum sq) (of_nat (length v - 1))).

(** Mean and sample standard deviation of a window of finite values. *)
Definition Rmean (l : list R) : R := Rsum l / INR (length l).

Definition Rvar (l : list R) : R :=
  Rsum (map (fun x => (x - Rmean l) * (x - Rmean l)) l) / INR (length l - 1).

Definition window_mean (l : list R) : float :=
  match l with
  | [] => NaN
  | _ => Fin (Rmean l)
  end.

Definition window_std (l : list R) : float :=
  if (length l <=? 1)%nat then NaN else Fin (sqrt (Rvar l)).

(** [Series.tail(n)]: the last [n] entries (all of them when fewer). *)
Definition tail {A} (n : nat) (l : list A) : list A :=
  skipn (length l - n) l.

(** The window of [w] observations ending at, and including, position [i]. *)
Definition window_at {A} (w i : nat) (l : list A) : list A :=
  firstn w (skipn (i + 1 - w) l).

(** [Series.rolling(window=w).agg()] with the default [min_periods = w]:
    position [i] is NaN until [w] observations are available, and then
    aggregates observations [i-w+1 .. i]. *)
Definition rolling (w : nat) (agg : list R -> float) (l : list R)
  : list float :=
  map (fun i => if (w <=? i + 1)%nat then agg (window_at w i l) else NaN)
      (seq 0 (length l)).

(** [Series.shift(k)]: [k] NaN in front, the last [k] entries dropped. *)
Definition shift (k : nat) (l : list R) : list float :=
  firstn (length l) (repeat NaN k ++ map Fin l).

(** [fillna(method='bfill')] on one column. *)
Fixpoint bfill (l : list float) : list float :=
  match l with
  | [] => []
  | x :: t =>
      let t' := bfill t in
      (if isnan x then hd NaN t' else x) :: t'
  end.

(** [fillna(method='ffill')] on one column; [last] is the last valid value
    seen so far. *)
Fixpoint ffill_from (last : float) (l : list float) : list float :=
  match l with
  | [] => []
  | x :: t =>
      let y := if isnan x then last else x in
      y :: ffill_from y t
  end.

Definition ffill (l : list float) : list float := ffill_from NaN l.

(** [fillna(0)] on one value. *)
Definition fillna0 (x : float) : float := if isnan x then Fin 0 else x.

(** [df.groupby('date')[col].sum()]: one entry per distinct date, in
    ascending date order, each the sum of its group in row order. *)
Fixpoint gb_insert (d : Z) (q : R) (acc : list (Z * R)) : list (Z * R) :=
  match acc with
  | [] => [(d, q)]
  | (d', q') :: t =>
      if (d <? d')%Z then (d, q) :: acc
      else if (d =? d')%Z then (d', q' + q) :: t
      else (d', q') :: gb_insert d q t
  end.

Definition groupby_sum (rows : list (Z * R)) : list (Z * R) :=
  fold_left (fun acc r => gb_insert (fst r) (snd r) acc) rows [].

(** ** Calendar accessors of a timestamp ([.dt.dayofweek], [.dt.month],
    [.dt.quarter]) on a day number *)

Definition dayofweek (d : Z) : Z := ((d + 3) mod 7)%Z.

Definition month_of (d : Z) : Z :=
  (let z := d + 719468 in
   let era := z / 146097 in
   let doe := z - era * 146097 in
   let yoe := (doe - doe / 1460 + doe / 36524 - doe / 146096) / 365 in
   let doy := doe - (365 * yoe + yoe / 4 - yoe / 100) in
   let mp := (5 * doy + 2) / 153 in
   if mp <? 10 then mp + 3 else mp - 9)%Z.

Definition quarter_of (d : Z) : Z := ((month_of d - 1) / 3 + 1)%Z.

(** ** Inventory optimizer *)

Record InventoryParameters : Type := mkInventory {
  daily_demand : float;
  demand_std : float;
  reorder_point : float;
  safety_stock : float;
  economic_order_quantity : float;
  lead_time_days : Z;
  service_level : float
}.

(** A frame with the columns [date] and [quantity]. *)
Definition sales_frame : Type := list (Z * R).

Definition optimize_inventory (df : sales_frame)
           (holding_cost stockout_cost : float) : InventoryParameters :=
  let daily_sales := map (fun r => Fin (snd r)) (groupby_sum df) in
  let daily_demand := series_mean daily_sales in
  let demand_std := series_std daily_sales in
  let lead_time := 7%Z in
  let lead_time_demand := fmul daily_demand (of_Z lead_time) in
  let lead_time_std := fmul demand_std (fsqrt (of_Z lead_time)) in
  let safety_stock := fmul (Fin 1.645) lead_time_std in
  let reorder_point := fadd lead_time_demand safety_stock in
  let annual_demand := fmul daily_demand (of_Z 365) in
  let ordering_cost := of_Z 100 in
  let eoq :=
    fsqrt (fdiv (fmul (fmul (of_Z 2) annual_demand) ordering_cost)
                (fmul holding_cost (of_Z 365))) in
  {| daily_demand := daily_demand;
     demand_std := demand_std;
     reorder_point := reorder_point;
     safety_stock := safety_stock;
     economic_order_quantity := eoq;
     lead_time_days := lead_time;
     service_level := Fin 0.95 |}.

(** ** Frames of the forecasting engine *)

(** A raw sales record as the data provider returns it. *)
Record SalesRecord : Type := mkSale {
  saleDate : Z;
  sale_quantity : R;
  sale_totalRevenue : R
}.

(** One row of the feature frame built by [create_features]; it is also the
    row type of the frames handed to [train_model] and [forecast_demand],
    where a float column may hold NaN. *)
Record FeatureRow : Type := mkRow {
  date : Z;
  quantity : float;
  totalRevenue : float;
  quantity_lag1 : float;
  quantity_lag7 : float;
  quantity_lag30 : float;
  quantity_rolling_mean_7 : float;
  quantity_rolling_std_7 : float;
  quantity_rolling_mean_30 : float;
  day_of_week : Z;
  month : Z;
  quarter : Z
}.

Definition frame : Type := list FeatureRow.

(** ** Feature builder *)

(** [fillna(method='bfill').fillna(method='ffill')] on one column. *)
Definition fill_column (c : list float) : list float := ffill (bfill c).

Definition create_features (df : list SalesRecord) : frame :=
  let by_quantity :=
    groupby_sum (map (fun r => (saleDate r, sale_quantity r)) df) in
  let by_revenue :=
    groupby_sum (map (fun r => (saleDate r, sale_totalRevenue r)) df) in
  let dates := map fst by_quantity in
  let q := map snd by_quantity in
  (* lag features *)
  let lag1 := shift 1 q in
  let lag7 := shift 7 q in
  let lag30 := shift 30 q in
  (* rolling statistics *)
  let mean7 := rolling 7 window_mean q in
  let std7 := rolling 7 window_std q in
  let mean30 := rolling 30 window_mean q in
  (* fill NaN values, column by column; the date and calendar columns hold
     no NaN and are left as they are *)
  let c_quantity := fill_column (map Fin q) in
  let c_revenue := fill_column (map (fun r => Fin (snd r)) by_revenue) in
  let c_lag1 := fill_column lag1 in
  let c_lag7 := fill_column lag7 in
  let c_lag30 := fill_column lag30 in
  let c_mean7 := fill_column mean7 in
  let c_std7 := fill_column std7 in
  let c_mean30 := fill_column mean30 in
  map (fun i =>
         let d := nth i dates 0%Z in
         {| date := d;
            quantity := nth i c_quantity NaN;
            totalRevenue := nth i c_revenue NaN;
            quantity_lag1 := nth i c_lag1 NaN;
            quantity_lag7 := nth i c_lag7 NaN;
            quantity_lag30 := nth i c_lag30 NaN;
            quantity_rolling_mean_7 := nth i c_mean7 NaN;
            quantity_rolling_std_7 := nth i c_std7 NaN;
            quantity_rolling_mean_30 := nth i c_mean30 NaN;
            day_of_week := dayofweek d;
            month := month_of d;
            quarter := quarter_of d |})
      (seq 0 (length dates)).

(** The nine feature columns of a row, in the order of [feature_cols]. *)
Definition feature_values (r : FeatureRow) : list float :=
  [ quantity_lag1 r; quantity_lag7 r; quantity_lag30 r;
    quantity_rolling_mean_7 r; quantity_rolling_std_7 r;
    quantity_rolling_mean_30 r;
    of_Z (day_of_week r); of_Z (month r); of_Z (quarter r) ].

Definition feature_cols : list string :=
  [ "quantity_lag1"; "quantity_lag7"; "quantity_lag30";
    "quantity_rolling_mean_7"; "quantity_rolling_std_7";
    "quantity_rolling_mean_30"; "day_of_week"; "month"; "quarter" ]%string.

(** A row of the feature frame has no undefined value. *)
Definition row_defined (r : FeatureRow) : Prop :=
  isnan (quantity r) = false /\ isnan (totalRevenue r) = false /\
  Forall (fun x => isnan x = false) (feature_values r).

(** ** Model trainer *)

(** Python dicts keyed by strings, as association lists. *)
Definition dict (V : Type) : Type := list (string * V).

Fixpoint dict_get {V} (k : string) (d : dict V) : result V :=
  match d with
  | [] => raise (KeyError k)
  | (k', v) :: t => if String.eqb k k' then ret v else dict_get k t
  end.

Fixpoint dict_set {V} (k : string) (v : V) (d : dict V) : dict V :=
  match d with
  | [] => [(k, v)]
  | (k', v') :: t =>
      if String.eqb k k' then (k, v) :: t else (k', v') :: dict_set k v t
  end.

Record Metrics : Type := mkMetrics {
  r2 : float;
  mae : float;
  rmse : float
}.

(** [X = df[feature_cols].fillna(0)], one row. *)
Definition X_row (r : FeatureRow) : list float :=
  map fillna0 (feature_values r).

(** [mask = ~(X.isna().any(axis=1) | y.isna())], one row. *)
Definition mask (r : FeatureRow) : bool :=
  negb (existsb isnan (X_row r) || isnan (quantity r)).

(** [int(len(X) * 0.8)]: the float product truncated, which is the floor of
    four fifths of the length. *)
Definition train_size (n : nat) : nat := Z.to_nat (4 * Z.of_nat n / 5).

(** The rows behind [X[mask]] / [y[mask]] and the two partitions; [X] and
    [y] keep the row labels of [df], so each is carried as the rows it
    selects. *)
Definition masked_rows (df : frame) : frame := filter mask df.

Definition train_rows (df : frame) : frame :=
  firstn (train_size (length (masked_rows df))) (masked_rows df).

Definition test_rows (df : frame) : frame :=
  skipn (train_size (length (masked_rows df))) (masked_rows df).

(** The spec's reading of a usable row: no undefined feature and no
    undefined target. *)
Definition spec_usable (r : FeatureRow) : bool :=
  negb (existsb isnan (feature_values r) || isnan (quantity r)).

Section Learner.

(** scikit-learn: [StandardScaler], the two regressors and the metrics. *)
Variables Scaler Model : Type.
Variable fit_scaler : list (list float) -> Scaler.
Variable scaler_transform : Scaler -> list float -> list float.
Variable fit_gradient_boosting : list (list float) -> list float -> Model.
Variable fit_random_forest : list (list float) -> list float -> Model.
Variable predict : Model -> list float -> float.
Variable feature_importances_ : Model -> list float.
Variables r2_score mean_absolute_error mean_squared_error :
  list float -> list float -> float.

(** The forecaster object: [self.models], [self.scalers],
    [self.feature_importance]. *)
Record DemandForecaster : Type := mkForecaster {
  models : dict Model;
  scalers : dict Scaler;
  feature_importance : dict (dict float)
}.

Definition train_model (self : DemandForecaster) (df : frame)
           (model_type : string)
  : result (Model * Metrics * DemandForecaster) :=
  let X := map X_row (masked_rows df) in
  let y := map quantity (masked_rows df) in
  if (length X <? 100)%nat then
    raise (ValueError "Insufficient data for model training")
  else
    let X_train := map X_row (train_rows df) in
    let X_test := map X_row (test_rows df) in
    let y_train := map quantity (train_rows df) in
    let y_test := map quantity (test_rows df) in
    let scaler := fit_scaler X_train in
    let X_train_scaled := map (scaler_transform scaler) X_train in
    let X_test_scaled := map (scaler_transform scaler) X_test in
    let model :=
      if String.eqb model_type "gradient_boosting"
      then fit_gradient_boosting X_train_scaled y_train
      else fit_random_forest X_train_scaled y_train in
    let y_pred := map (predict model) X_test_scaled in
    let metrics :=
      {| r2 := r2_score y_test y_pred;
         mae := mean_absolute_error y_test y_pred;
         rmse := fsqrt (mean_squared_error y_test y_pred) |} in
    ret (model, metrics,
         {| models := models self;
            scalers := dict_set "demand" scaler (scalers self);
            feature_importance :=
              dict_set "demand"
                       (combine feature_cols (feature_importances_ model))
                       (feature_importance self) |}).

(** *** Forecaster

    Frames are objects on a heap and are handled through references, so
    that copying ([df.tail(30).copy()]) and appending ([pd.concat], which
    builds a new frame) are distinguished from writing into the caller's
    frame. *)

Definition ref : Type := nat.
Definition heap : Type := list frame.

(** Computations that read and allocate frames and may raise. *)
Definition HM (A : Type) : Type := heap -> result A * heap.

Definition hret {A} (a : A) : HM A := fun h => (inr a, h).
Definition hraise {A} (e : pyerr) : HM A := fun h => (inl e, h).
Definition hbind {A B} (m : HM A) (k : A -> HM B) : HM B :=
  fun h =>
    match m h with
    | (inl e, h') => (inl e, h')
    | (inr a, h') => k a h'
    end.
Definition lift {A} (m : result A) : HM A := fun h => (m, h).

Notation "x <~ m ;; k" := (hbind m (fun x => k))
  (at level 61, m at next level, right associativity).

(** Reading the frame behind a reference (a reference that was never
    allocated does not exist in Python; it is reported as a KeyError). *)
Definition frame_get (r : ref) : HM frame :=
  fun h =>
    match nth_error h r with
    | Some f => (inr f, h)
    | None => (inl (KeyError "frame"), h)
    end.

Definition frame_alloc (f : frame) : HM ref :=
  fun h => (inr (length h), h ++ [f]).

(** [df.tail(n).copy()]. *)
Definition tail_copy (n : nat) (df : ref) : HM ref :=
  f <~ frame_get df ;; frame_alloc (tail n f).

(** [pd.concat([current_data, new_row], ignore_index=True)]. *)
Definition pd_concat (cur : ref) (new_row : FeatureRow) : HM ref :=
  f <~ frame_get cur ;; frame_alloc (f ++ [new_row]).

(** [s.iloc[-k]]: IndexError when the series has fewer than [k] entries. *)
Definition iloc_neg {A} (k : nat) (s : list A) : result A :=
  if (k <=? length s)%nat then
    match nth_error s (length s - k) with
    | Some a => ret a
    | None => raise IndexError
    end
  else raise IndexError.

(** [s.max()] on the date column; [None] is NaT (empty column). *)
Definition date_max (s : list Z) : option Z :=
  match s with
  | [] => None
  | d :: t => Some (fold_left Z.max t d)
  end.

Record ForecastPoint : Type := mkPoint {
  fp_date : Z;
  predicted_quantity : float;
  confidence_interval_lower : float;
  confidence_interval_upper : float
}.

(** The body of the loop of [forecast_demand] up to the append: from the
    rows of [current_data], the forecast point of the next day and the row
    that extends the window.  (The source evaluates the lag and rolling
    expressions twice, for [features] and for [new_row]; they read the same
    frame and are evaluated once here.) *)
Definition next_day (self : DemandForecaster) (model : Model)
           (current_data : frame) : result (ForecastPoint * FeatureRow) :=
  (let dates := map date current_data in
   let q := map quantity current_data in
   let next_date := option_map (fun d => (d + 1)%Z) (date_max dates) in
   lag1 <- iloc_neg 1 q ;;
   lag7 <- (if (7 <=? length q)%nat then iloc_neg 7 q
            else ret (series_mean q)) ;;
   lag30 <- (if (30 <=? length q)%nat then iloc_neg 30 q
             else ret (series_mean q)) ;;
   let mean7 := series_mean (tail 7 q) in
   let std7 := series_std (tail 7 q) in
   let mean30 := series_mean (tail 30 q) in
   (* an empty window has raised IndexError above; NaT never gets here *)
   d <- match next_date with
        | Some d => ret d
        | None => raise IndexError
        end ;;
   let X_new := [ lag1; lag7; lag30; mean7; std7; mean30;
                  of_Z (dayofweek d); of_Z (month_of d);
                  of_Z (quarter_of d) ] in
   scaler <- dict_get "demand" (scalers self) ;;
   let X_new_scaled := scaler_transform scaler X_new in
   let predicted := py_max2 (Fin 0) (predict model X_new_scaled) in
   ret ({| fp_date := d;
           predicted_quantity := predicted;
           confidence_interval_lower := fmul predicted (Fin 0.8);
           confidence_interval_upper := fmul predicted (Fin 1.2) |},
        {| date := d;
           quantity := predicted;
           totalRevenue := NaN;
           quantity_lag1 := lag1;
           quantity_lag7 := lag7;
           quantity_lag30 := lag30;
           quantity_rolling_mean_7 := mean7;
           quantity_rolling_std_7 := std7;
           quantity_rolling_mean_30 := mean30;
           day_of_week := dayofweek d;
           month := month_of d;
           quarter := quarter_of d |}))%py.

(** One iteration: read the window, forecast the next day, and bind
    [current_data] to the frame built by [pd.concat]. *)
Definition forecast_step (self : DemandForecaster) (model : Model)
           (current_data : ref) : HM (ForecastPoint * ref) :=
  f <~ frame_get current_data ;;
  s <~ lift (next_day self model f) ;;
  cur' <~ pd_concat current_data (snd s) ;;
  hret (fst s, cur').

(** [for i in range(days_ahead)]. *)
Fixpoint forecast_loop (self : DemandForecaster) (model : Model)
         (n : nat) (current_data : ref) (forecasts : list ForecastPoint)
  : HM (list ForecastPoint) :=
  match n with
  | O => hret forecasts
  | S n' =>
      s <~ forecast_step self model current_data ;;
      forecast_loop self model n' (snd s) (forecasts ++ [fst s])
  end.

Definition forecast_demand (self : DemandForecaster) (model : Model)
           (df : ref) (days_ahead : Z) : HM (list ForecastPoint) :=
  current_data <~ tail_copy 30 df ;;
  forecast_loop self model (Z.to_nat days_ahead) current_data [].

End Learner.

Arguments mkForecaster {Scaler Model}.
Arguments models {Scaler Model}.
Arguments scalers {Scaler Model}.
Arguments feature_importance {Scaler Model}.
Arguments train_model {Scaler Model}.
Arguments next_day {Scaler Model}.
Arguments forecast_step {Scaler Model}.
Arguments forecast_loop {Scaler Model}.
Arguments forecast_demand {Scaler Model}.

(** ** Anomaly detector *)

Record AnomalyRecord : Type := mkAnomaly {
  a_date : Z;
  a_quantity : float;
  expected_quantity : float;
  deviation : float;
  a_z_score : float;
  severity : string
}.

(** One row of [daily_sales] inside [detect_anomalies]. *)
Record ScoredRow : Type := mkScored {
  s_date : Z;
  s_quantity : R;
  s_mean : float;
  s_std : float;
  z_score : float
}.

(** The row of [daily_sales] at position [i]: the date and quantity of the
    day, the rolling mean and standard deviation there, and the z-score. *)
Definition scored_at (df : sales_frame) (i : nat) : ScoredRow :=
  let daily_sales := groupby_sum df in
  let q := map snd daily_sales in
  let m := nth i (rolling 30 window_mean q) NaN in
  let s := nth i (rolling 30 window_std q) NaN in
  {| s_date := nth i (map fst daily_sales) 0%Z;
     s_quantity := nth i q 0;
     s_mean := m;
     s_std := s;
     z_score := fabs (fdiv (fsub (Fin (nth i q 0)) m) s) |}.

Definition scored_rows (df : sales_frame) : list ScoredRow :=
  map (scored_at df) (seq 0 (length (groupby_sum df))).

Definition detect_anomalies (df : sales_frame) (threshold : float)
  : list AnomalyRecord :=
  let anomalies := filter (fun row => fgtb (z_score row) threshold)
                          (scored_rows df) in
  map (fun row =>
         {| a_date := s_date row;
            a_quantity := Fin (s_quantity row);
            expected_quantity := s_mean row;
            deviation := fsub (Fin (s_quantity row)) (s_mean row);
            a_z_score := z_score row;
            severity := if fgtb (z_score row) (Fin 3)
                        then "high"%string else "medium"%string |})
      anomalies.

(** ** Recommendation generator *)

Record Recommendation : Type := mkRecommendation {
  rec_type : string;
  rec_severity : string;
  message : string;
  action : string;
  priority : Z
}.

(** The three dict literals appended by [generate_recommendations]. *)
Definition high_demand_alert (pct : Z) : Recommendation :=
  {| rec_type := "high_demand_alert";
     rec_severity := "high";
     message := "High demand period detected. Increase inventory by "
                ++ str_of_Z pct ++ "%";
     action := "Increase orders to suppliers";
     priority := 1 |}%string.

Definition low_demand_alert : Recommendation :=
  {| rec_type := "low_demand_alert";
     rec_severity := "medium";
     message := "Low demand period detected. Consider promotional activities.";
     action := "Plan promotional campaigns";
     priority := 2 |}%string.

Definition inventory_optimization (rp ss : Z) : Recommendation :=
  {| rec_type := "inventory_optimization";
     rec_severity := "info";
     message := "Optimal reorder point: " ++ str_of_Z rp ++ " units";
     action := "Maintain safety stock of " ++ str_of_Z ss ++ " units";
     priority := 3 |}%string.

Definition generate_recommendations (store_id : Z)
           (forecasts : list ForecastPoint)
           (inventory_params : InventoryParameters)
  : result (list Recommendation) :=
  (let preds := map predicted_quantity forecasts in
   (* check for high demand periods *)
   let avg_forecast := np_mean preds in
   max_forecast <- py_max preds ;;
   high <-
     (if fgtb max_forecast (fmul avg_forecast (Fin 1.5)) then
        pct <- py_int (fmul (fdiv (fsub max_forecast avg_forecast)
                                  avg_forecast) (of_Z 100)) ;;
        ret [high_demand_alert pct]
      else ret []) ;;
   (* check for low demand periods *)
   min_forecast <- py_min preds ;;
   let low :=
     if fltb min_forecast (fmul avg_forecast (Fin 0.5)) then
       [low_demand_alert]
     else [] in
   (* inventory optimization recommendation *)
   rp <- py_int (reorder_point inventory_params) ;;
   ss <- py_int (safety_stock inventory_params) ;;
   ret (high ++ low ++ [inventory_optimization rp ss]))%py.


(** Largest and smallest element of a non-empty list of reals. *)
Definition Rmax_of (l : list R) : R :=
  match l with
  | [] => 0
  | x :: t => fold_left Rmax t x
  end.

Definition Rmin_of (l : list R) : R :=
  match l with
  | [] => 0
  | x :: t => fold_left Rmin t x
  end.

(** A float that is a finite, non-negative number, and its value. *)
Definition nonneg_finite (x : float) : Prop :=
  match x with Fin r => 0 <= r | _ => False end.

Definition real_of (x : float) : R :=
  match x with Fin r => r | _ => 0 end.

(** The predicted quantities of a forecast, as reals. *)
Definition predicted_reals (forecasts : list ForecastPoint) : list R :=
  map (fun f => real_of (predicted_quantity f)) forecasts.

(** A forecast point predicting [q], with its 20% band. *)
Definition point_of (d : Z) (q : R) : ForecastPoint :=
  {| fp_date := d;
     predicted_quantity := Fin q;
     confidence_interval_lower := Fin (q * 0.8);
     confidence_interval_upper := Fin (q * 1.2) |}.

(** ** Predicates on frames *)

(** Every date of a grouped frame is below [d]. *)
Definition dates_below (d : Z) (l : list (Z * R)) : Prop :=
  Forall (fun r => (fst r < d)%Z) l.

(** The dates of a frame are strictly increasing. *)
Definition ascending (dates : list Z) : Prop := StronglySorted Z.lt dates.

(** The daily series behind [create_features]: one entry per distinct date. *)
Definition daily_quantity (df : list SalesRecord) : list (Z * R) :=
  groupby_sum (map (fun r => (saleDate r, sale_quantity r)) df).

(** A column of [n] entries none of which is NaN. *)
Definition column_defined (n : nat) (c : list float) : Prop :=
  length c = n /\ Forall (fun x => isnan x = false) c.

(** One sale of [q] units on each of the days 0 .. n-1. *)
Definition daily_sales_of (q : R) (n : nat) : list SalesRecord :=
  map (fun i => {| saleDate := Z.of_nat i; sale_quantity := q;
                   sale_totalRevenue := q |}) (seq 0 n).

(** The daily series of 29 days without sales followed by one day selling
    30 units (day numbers 0 .. 29). *)
Definition late_spike : sales_frame :=
  map (fun i => (Z.of_nat i, 0)) (seq 0 29) ++ [(29%Z, 30)].

(** A forecast point is well formed: a non-negative prediction with its
    band of 20% below and above. *)
Definition point_ok (pt : ForecastPoint) : Prop :=
  fge (predicted_quantity pt) (Fin 0) /\
  confidence_interval_lower pt = fmul (Fin 0.8) (predicted_quantity pt) /\
  confidence_interval_upper pt = fmul (Fin 1.2) (predicted_quantity pt).

(** The last date of a frame (0 for the empty frame). *)
Definition last_date (f : frame) : Z := last (map date f) 0%Z.

(** Whether a result is the insufficient-data error of [train_model]. *)
Definition insufficient_data {A} (r : result A) : Prop :=
  r = inl (ValueError "Insufficient data for model training").

(** ** Sample data *)

(** A feature row of day [i] with every float column equal to [x]. *)
Definition flat_row (x : float) (i : nat) : FeatureRow :=
  {| date := Z.of_nat i;
     quantity := x; totalRevenue := x;
     quantity_lag1 := x; quantity_lag7 := x; quantity_lag30 := x;
     quantity_rolling_mean_7 := x; quantity_rolling_std_7 := x;
     quantity_rolling_mean_30 := x;
     day_of_week := dayofweek (Z.of_nat i);
     month := month_of (Z.of_nat i);
     quarter := quarter_of (Z.of_nat i) |}.

(** [n] consecutive days starting at day 0, all columns equal to [x]. *)
Definition flat_frame (x : float) (n : nat) : frame :=
  map (flat_row x) (seq 0 n).

(** A row whose target is defined but whose lag-30 feature is not. *)
Definition lag30_missing_row (i : nat) : FeatureRow :=
  {| date := Z.of_nat i;
     quantity := Fin 1; totalRevenue := Fin 1;
     quantity_lag1 := Fin 1; quantity_lag7 := Fin 1; quantity_lag30 := NaN;
     quantity_rolling_mean_7 := Fin 1; quantity_rolling_std_7 := Fin 1;
     quantity_rolling_mean_30 := Fin 1;
     day_of_week := dayofweek (Z.of_nat i);
     month := month_of (Z.of_nat i);
     quarter := quarter_of (Z.of_nat i) |}.

(** A stand-in learner: the scaler is the identity and every model predicts
    the first feature. *)
Definition unit_forecaster : DemandForecaster unit unit :=
  {| models := []; scalers := []; feature_importance := [] |}.

(** The stand-in forecaster after training: a scaler is stored under
    "demand". *)
Definition trained_forecaster : DemandForecaster unit unit :=
  {| models := []; scalers := [("demand"%string, tt)];
     feature_importance := [] |}.

(** Inventory parameters of the constant-demand scenario. *)
Definition steady_inventory : InventoryParameters :=
  {| daily_demand := Fin 100; demand_std := Fin 0; reorder_point := Fin 700;
     safety_stock := Fin 0; economic_order_quantity := Fin (sqrt 200000);
     lead_time_days := 7; service_level := Fin 0.95 |}.

Definition first_feature (_ : unit) (x : list float) : float := hd NaN x.

Definition toy_train_model (self : DemandForecaster unit unit) (df : frame)
           (model_type : string) :=
  train_model (fun _ => tt) (fun _ x => x) (fun _ _ => tt) (fun _ _ => tt)
              first_feature (fun _ => []) (fun _ _ => NaN) (fun _ _ => NaN)
              (fun _ _ => NaN) self df model_type.

(** ** Reference views used to state what the aggregation computes *)

(** The total of the rows of [rows] dated [d], in row order. *)
Definition group_total (d : Z) (rows : list (Z * R)) : R :=
  Rsum (map snd (filter (fun r => (fst r =? d)%Z) rows)).

(** Looking a date up in a grouped frame. *)
Fixpoint assoc_get (d : Z) (acc : list (Z * R)) : option R :=
  match acc with
  | [] => None
  | (d', q) :: t => if (d =? d')%Z then Some q else assoc_get d t
  end.

(** The raw rows behind the two aggregated columns of [create_features]. *)
Definition quantity_rows (df : list SalesRecord) : list (Z * R) :=
  map (fun r => (saleDate r, sale_quantity r)) df.

Definition revenue_rows (df : list SalesRecord) : list (Z * R) :=
  map (fun r => (saleDate r, sale_totalRevenue r)) df.

(** ** The pipeline over the stores ([run_forecasting_pipeline])

    Every stage of the pipeline receives the frame that
    [get_historical_sales] returned.  Its labels are those of the query
    (saleDate, quantity, totalRevenue, ...).  [create_features] works on a
    copy, so the date column it adds stays in the copy.  A frame of sales
    rows is therefore held with its rows and, where one has been added to
    that very frame, its date column. *)

Record SalesTable : Type := mkTable {
  rows : list SalesRecord;
  date_column : option (list Z)
}.

(** The frame built from the rows of the query. *)
Definition historical_frame (data : list SalesRecord) : SalesTable :=
  {| rows := data; date_column := None |}.

(** [df.groupby('date')['quantity']], the first statement of both
    [detect_anomalies] and [optimize_inventory]: pandas looks the key up
    among the labels of the frame and raises KeyError when it is not one. *)
Definition groupby_date_quantity (df : SalesTable) : result sales_frame :=
  match date_column df with
  | Some d => ret (combine d (map sale_quantity (rows df)))
  | None => raise (KeyError "date")
  end.

(** How the body of the loop ends for one store. *)
Inductive store_outcome : Type :=
| Insufficient
| Errored (e : pyerr)
| Saved (forecasts : list ForecastPoint).

Section Pipeline.

Variables Scaler Model : Type.
Variable fit_scaler : list (list float) -> Scaler.
Variable scaler_transform : Scaler -> list float -> list float.
Variable fit_gradient_boosting : list (list float) -> list float -> Model.
Variable fit_random_forest : list (list float) -> list float -> Model.
Variable predict : Model -> list float -> float.
Variable feature_importances_ : Model -> list float.
Variables r2_score mean_absolute_error mean_squared_error :
  list float -> list float -> float.

(** The stages after training, up to the call of [save_forecasts_to_db];
    the value is the forecast list handed to it. *)
Definition forecast_and_recommend (self : DemandForecaster Scaler Model)
           (model : Model) (store_id : Z) (df : SalesTable)
           (df_features : ref) : HM (list ForecastPoint) :=
  hbind (forecast_demand scaler_transform predict self model df_features 30)
  (fun forecasts =>
  hbind (lift (bind (groupby_date_quantity df)
                    (fun s => ret (detect_anomalies s (Fin 2.5)))))
  (fun anomalies =>
  hbind (lift (bind (groupby_date_quantity df)
                    (fun s => ret (optimize_inventory s (Fin 0.1) (Fin 50)))))
  (fun inventory_params =>
  hbind (lift (generate_recommendations store_id forecasts inventory_params))
  (fun recommendations =>
  hret forecasts)))).

(** The body of the loop for one store: the [continue] on a short frame and
    the [try] block, whose [except Exception] turns an error of any stage
    into a printed message.  [train_model] has written into the forecaster
    by the time a later stage fails. *)
Definition process_store (self : DemandForecaster Scaler Model)
           (store_id : Z) (df : SalesTable) (h : heap)
  : store_outcome * DemandForecaster Scaler Model * heap :=
  if (length (rows df) <? 100)%nat then (Insufficient, self, h)
  else
    let df_features := length h in
    let h1 := h ++ [create_features (rows df)] in
    match train_model fit_scaler scaler_transform fit_gradient_boosting
                      fit_random_forest predict feature_importances_
                      r2_score mean_absolute_error mean_squared_error
                      self (create_features (rows df)) "gradient_boosting" with
    | inl e => (Errored e, self, h1)
    | inr (model, metrics, self') =>
        match forecast_and_recommend self' model store_id df df_features h1
        with
        | (inl e, h2) => (Errored e, self', h2)
        | (inr forecasts, h2) => (Saved forecasts, self', h2)
        end
    end.

(** [for store in stores]: each store with the rows of its query. *)
Fixpoint run_forecasting_pipeline (self : DemandForecaster Scaler Model)
         (stores : list (Z * list SalesRecord)) (h : heap)
  : list store_outcome * DemandForecaster Scaler Model * heap :=
  match stores with
  | [] => ([], self, h)
  | (store_id, data) :: rest =>
      match process_store self store_id (historical_frame data) h with
      | (o, self', h') =>
          match run_forecasting_pipeline self' rest h' with
          | (os, self'', h'') => (o :: os, self'', h'')
          end
      end
  end.

End Pipeline.

Arguments forecast_and_recommend {Scaler Model}.
Arguments process_store {Scaler Model}.
Arguments run_forecasting_pipeline {Scaler Model}.

(** * Properties *)

(** ** Sums, means and deviations of finite columns *)

Lemma fold_fadd_Fin (l : list R) (a : R) :
  fold_left fadd (map Fin l) (Fin a) = Fin (a + Rsum l).
Proof.
  revert a; induction l as [|x l IH]; intros a; simpl.
  - f_equal; lra.
  - rewrite IH. f_equal. lra.
Qed.

Lemma fsum_Fin (l : list R) : fsum (map Fin l) = Fin (Rsum l).
Proof. unfold fsum. rewrite fold_fadd_Fin. f_equal. lra. Qed.

Lemma filter_notna_Fin (l : list R) : filter notna (map Fin l) = map Fin l.
Proof. induction l as [|x l IH]; simpl; [reflexivity | now rewrite IH]. Qed.

Lemma Rsum_app (l1 l2 : list R) : Rsum (l1 ++ l2) = Rsum l1 + Rsum l2.
Proof. induction l1 as [|x l1 IH]; simpl; [lra | rewrite IH; lra]. Qed.

Lemma Rsum_squares_nonneg (f : R -> R) (l : list R) :
  0 <= Rsum (map (fun x => f x * f x) l).
Proof.
  induction l as [|x l IH]; simpl; [lra |].
  pose proof (Rle_0_sqr (f x)) as H. unfold Rsqr in H. lra.
Qed.

Lemma INR_pos_of_lt (n : nat) : (0 < n)%nat -> 0 < INR n.
Proof. intros H. apply lt_0_INR. exact H. Qed.

Lemma Rvar_nonneg (l : list R) : 0 <= Rvar l.
Proof.
  unfold Rvar.
  destruct (Nat.eq_dec (length l - 1) 0) as [E|E].
  - rewrite E. simpl. unfold Rdiv. rewrite Rinv_0. lra.
  - apply Rmult_le_pos.
    + apply (Rsum_squares_nonneg (fun x => x - Rmean l)).
    + left. apply Rinv_0_lt_compat. apply INR_pos_of_lt. lia.
Qed.

Lemma series_mean_Fin (l : list R) :
  series_mean (map Fin l) = window_mean l.
Proof.
  unfold series_mean, window_mean. rewrite filter_notna_Fin.
  destruct l as [|x l]; [reflexivity |].
  change (map Fin (x :: l)) with (Fin x :: map Fin l) at 1.
  cbv iota beta. rewrite fsum_Fin, length_map.
  unfold of_nat, fdiv.
  destruct (Req_dec_T (INR (length (x :: l))) 0) as [E|E].
  - exfalso. pose proof (INR_pos_of_lt (length (x :: l))) as H.
    simpl length in *. specialize (H ltac:(lia)). lra.
  - reflexivity.
Qed.

Lemma series_std_Fin (l : list R) :
  series_std (map Fin l) = window_std l.
Proof.
  unfold series_std, window_std. rewrite filter_notna_Fin, length_map.
  destruct (length l <=? 1)%nat eqn:E; [reflexivity |].
  apply Nat.leb_gt in E.
  rewrite fsum_Fin. unfold of_nat.
  assert (Hn : INR (length l) <> 0).
  { pose proof (INR_pos_of_lt (length l) ltac:(lia)). lra. }
  assert (Hn1 : INR (length l - 1) <> 0).
  { pose proof (INR_pos_of_lt (length l - 1) ltac:(lia)). lra. }
  assert (Havg : fdiv (Fin (Rsum l)) (Fin (INR (length l))) = Fin (Rmean l)).
  { unfold fdiv. destruct (Req_dec_T (INR (length l)) 0); [contradiction |].
    reflexivity. }
  cbv zeta. rewrite Havg, map_map.
  replace (map (fun x => fmul (fsub (Fin (Rmean l)) (Fin x))
                              (fsub (Fin (Rmean l)) (Fin x))) l)
    with (map Fin (map (fun x => (x - Rmean l) * (x - Rmean l)) l)).
  2:{ rewrite map_map. apply map_ext. intros a. simpl. f_equal. lra. }
  rewrite fsum_Fin. unfold fdiv.
  destruct (Req_dec_T (INR (length l - 1)) 0); [contradiction |].
  fold (Rvar l). unfold fsqrt.
  destruct (Rlt_dec (Rvar l) 0) as [Hneg|_]; [|reflexivity].
  pose proof (Rvar_nonneg l). lra.
Qed.

(** ** Grouping by date *)

Lemma gb_insert_above (d : Z) (q : R) (acc : list (Z * R)) :
  dates_below d acc -> gb_insert d q acc = acc ++ [(d, q)].
Proof.
  induction acc as [|[d' q'] t IH]; intros H; simpl; [reflexivity |].
  inversion H as [|? ? Hd Ht]; subst. simpl in Hd.
  destruct (d <? d')%Z eqn:E1; [apply Z.ltb_lt in E1; lia |].
  destruct (d =? d')%Z eqn:E2; [apply Z.eqb_eq in E2; lia |].
  now rewrite IH.
Qed.

Lemma ascending_app_inv (l1 l2 : list Z) :
  ascending (l1 ++ l2) ->
  ascending l1 /\ ascending l2 /\
  (forall a b, In a l1 -> In b l2 -> (a < b)%Z).
Proof.
  unfold ascending. induction l1 as [|x l1 IH]; simpl; intros H.
  - repeat split; [constructor | exact H | intros ? ? []].
  - inversion H as [|? ? Hs Hf]; subst.
    destruct (IH Hs) as (H1 & H2 & H3).
    rewrite Forall_app in Hf. destruct Hf as [Hf1 Hf2].
    repeat split; [constructor; assumption | assumption |].
    intros a b [<-|Ha] Hb.
    + rewrite Forall_forall in Hf2. now apply Hf2.
    + now apply H3.
Qed.

Lemma groupby_sum_fold_ascending (l acc : list (Z * R)) :
  ascending (map fst (acc ++ l)) ->
  fold_left (fun a r => gb_insert (fst r) (snd r) a) l acc = acc ++ l.
Proof.
  revert acc; induction l as [|[d q] l IH]; intros acc H; simpl.
  - now rewrite app_nil_r.
  - rewrite gb_insert_above.
    + rewrite IH; rewrite <- app_assoc; [reflexivity | exact H].
    + rewrite map_app in H. apply ascending_app_inv in H.
      destruct H as (_ & _ & H). unfold dates_below.
      rewrite Forall_forall. intros r Hr. apply H.
      * now apply in_map.
      * simpl. now left.
Qed.

Lemma groupby_sum_ascending (l : list (Z * R)) :
  ascending (map fst l) -> groupby_sum l = l.
Proof. intros H. unfold groupby_sum. now rewrite groupby_sum_fold_ascending. Qed.

(** ** Inventory optimizer *)

(** Case analysis on the sign tests inside the float operations. *)
Ltac float_cases :=
  repeat (simpl; unfold inf_of_sign, fdiv, fsqrt;
          match goal with
          | |- context [Rlt_dec ?a ?b] => destruct (Rlt_dec a b)
          | |- context [Req_dec_T ?a ?b] => destruct (Req_dec_T a b)
          end);
  simpl.

Lemma fsqrt_of_Z_7 : fsqrt (of_Z 7) = Fin (sqrt 7).
Proof.
  unfold fsqrt, of_Z. destruct (Rlt_dec 7 0) as [H|_]; [lra | reflexivity].
Qed.


Lemma optimize_inventory_demand (df : sales_frame) (h s : float) :
  daily_demand (optimize_inventory df h s)
  = window_mean (map snd (groupby_sum df)) /\
  demand_std (optimize_inventory df h s)
  = window_std (map snd (groupby_sum df)).
Proof.
  unfold optimize_inventory; simpl.
  rewrite <- (map_map snd Fin), series_mean_Fin, series_std_Fin. now split.
Qed.



Lemma window_std_cases (l : list R) :
  window_std l = NaN \/ exists s, window_std l = Fin s /\ 0 <= s.
Proof.
  unfold window_std. destruct (length l <=? 1)%nat; [now left | right].
  eexists; split; [reflexivity | apply sqrt_pos].
Qed.

Lemma window_mean_cases (l : list R) :
  (l = [] /\ window_mean l = NaN) \/ (l <> [] /\ window_mean l = Fin (Rmean l)).
Proof.
  destruct l; [left | right]; split; simpl; congruence.
Qed.


(** *** Degenerate demand *)

Lemma fadd_NaN_r (x : float) : fadd x NaN = NaN.
Proof. destruct x; reflexivity. Qed.

Lemma Rsum_repeat (c : R) (n : nat) : Rsum (repeat c n) = INR n * c.
Proof.
  induction n as [|n IH]; [simpl; lra |].
  cbn [repeat Rsum fold_right]. fold (Rsum (repeat c n)).
  rewrite IH, S_INR. lra.
Qed.

Lemma Rsum_zero (f : R -> R) (l : list R) :
  (forall x, In x l -> f x = 0) -> Rsum (map f l) = 0.
Proof.
  induction l as [|x l IH]; intros H; simpl; [reflexivity |].
  rewrite H by now left. rewrite IH; [lra |]. intros y Hy. apply H. now right.
Qed.

Lemma Rmean_repeat (c : R) (n : nat) : (0 < n)%nat -> Rmean (repeat c n) = c.
Proof.
  intros H. unfold Rmean. rewrite Rsum_repeat, repeat_length.
  pose proof (INR_pos_of_lt n H). field. lra.
Qed.

Lemma window_std_repeat (c : R) (n : nat) :
  (1 < n)%nat -> window_std (repeat c n) = Fin 0.
Proof.
  intros H. unfold window_std. rewrite repeat_length.
  destruct (n <=? 1)%nat eqn:E; [apply Nat.leb_le in E; lia |].
  f_equal. unfold Rvar. rewrite Rsum_zero.
  - unfold Rdiv. rewrite Rmult_0_l. apply sqrt_0.
  - intros x Hx. apply repeat_spec in Hx. subst x.
    rewrite Rmean_repeat by lia. lra.
Qed.

Lemma window_mean_repeat (c : R) (n : nat) :
  (0 < n)%nat -> window_mean (repeat c n) = Fin c.
Proof.
  intros H. unfold window_mean.
  destruct (repeat c n) eqn:E.
  - destruct n; [lia | discriminate].
  - rewrite <- E. now rewrite Rmean_repeat.
Qed.

Lemma map_const_seq {A} (c : A) (a n : nat) :
  map (fun _ => c) (seq a n) = repeat c n.
Proof.
  revert a; induction n as [|n IH]; intros a; simpl; [reflexivity |].
  now rewrite IH.
Qed.

Lemma ascending_seq (a n : nat) : ascending (map Z.of_nat (seq a n)).
Proof.
  unfold ascending. revert a; induction n as [|n IH]; intros a; simpl.
  - constructor.
  - constructor; [apply IH |].
    rewrite Forall_forall. intros z Hz. apply in_map_iff in Hz.
    destruct Hz as (k & <- & Hk). apply in_seq in Hk. lia.
Qed.

(** The frame of [n] consecutive days (day numbers 0, 1, ...) selling [c]
    units each. *)
Lemma groupby_constant_days (c : R) (n : nat) :
  map snd (groupby_sum (map (fun i => (Z.of_nat i, c)) (seq 0 n)))
  = repeat c n.
Proof.
  rewrite groupby_sum_ascending.
  - rewrite map_map. simpl. apply map_const_seq.
  - rewrite map_map. simpl. apply ascending_seq.
Qed.

(** A zero standard deviation gives a zero safety stock. *)
Lemma zero_std_zero_safety_stock (df : sales_frame) (h s : float) :
  demand_std (optimize_inventory df h s) = Fin 0 ->
  safety_stock (optimize_inventory df h s) = Fin 0.
Proof.
  intros H.
  change (safety_stock (optimize_inventory df h s))
    with (fmul (Fin 1.645)
               (fmul (demand_std (optimize_inventory df h s))
                     (fsqrt (of_Z 7)))).
  rewrite H, fsqrt_of_Z_7. simpl. f_equal. lra.
Qed.

(** An undefined standard deviation propagates: the safety stock and the
    reorder point are NaN. *)
Lemma undefined_std_undefined_safety_stock (df : sales_frame) (h s : float) :
  demand_std (optimize_inventory df h s) = NaN ->
  safety_stock (optimize_inventory df h s) = NaN /\
  reorder_point (optimize_inventory df h s) = NaN.
Proof.
  intros H.
  assert (Hss : safety_stock (optimize_inventory df h s) = NaN).
  { change (safety_stock (optimize_inventory df h s))
      with (fmul (Fin 1.645)
                 (fmul (demand_std (optimize_inventory df h s))
                       (fsqrt (of_Z 7)))).
    rewrite H. reflexivity. }
  split; [exact Hss |].
  change (reorder_point (optimize_inventory df h s))
    with (fadd (fmul (daily_demand (optimize_inventory df h s)) (of_Z 7))
               (safety_stock (optimize_inventory df h s))).
  rewrite Hss. apply fadd_NaN_r.
Qed.

(** The demand series of a frame with at most one distinct date has an
    undefined standard deviation. *)
Lemma short_series_std_undefined (df : sales_frame) (h s : float) :
  (length (groupby_sum df) <= 1)%nat ->
  demand_std (optimize_inventory df h s) = NaN.
Proof.
  intros H. destruct (optimize_inventory_demand df h s) as [_ ->].
  unfold window_std. rewrite length_map.
  destruct (length (groupby_sum df) <=? 1)%nat eqn:E; [reflexivity |].
  apply Nat.leb_gt in E. lia.
Qed.

(** The constant-demand scenario: 100 units a day for 400 days. *)
Lemma constant_demand_scenario :
  let df := map (fun i => (Z.of_nat i, 100)) (seq 0 400) in
  let p := optimize_inventory df (Fin 0.1) (Fin 50) in
  demand_std p = Fin 0 /\ safety_stock p = Fin 0 /\
  reorder_point p = Fin 700 /\
  economic_order_quantity p = Fin (sqrt 200000) /\
  447.2 < sqrt 200000 < 447.3.
Proof.
  intros df p.
  destruct (optimize_inventory_demand df (Fin 0.1) (Fin 50)) as [Hm Hs].
  fold p in Hm, Hs. unfold df in Hm, Hs.
  rewrite groupby_constant_days in Hm, Hs.
  rewrite window_mean_repeat in Hm by lia.
  rewrite window_std_repeat in Hs by lia.
  assert (Hss : safety_stock p = Fin 0)
    by (apply zero_std_zero_safety_stock; exact Hs).
  split; [exact Hs | split; [exact Hss | split; [| split]]].
  - change (reorder_point p)
      with (fadd (fmul (daily_demand p) (of_Z 7)) (safety_stock p)).
    rewrite Hm, Hss. simpl. f_equal. lra.
  - change (economic_order_quantity p)
      with (fsqrt (fdiv (fmul (fmul (of_Z 2) (fmul (daily_demand p) (of_Z 365)))
                              (of_Z 100))
                        (fmul (Fin 0.1) (of_Z 365)))).
    rewrite Hm.
    assert (E : 2 * (100 * 365) * 100 / (0.1 * 365) = 200000) by lra.
    float_cases; try (exfalso; lra).
    now rewrite E.
  - split.
    + rewrite <- (sqrt_square 447.2) by lra. apply sqrt_lt_1; lra.
    + rewrite <- (sqrt_square 447.3) by lra. apply sqrt_lt_1; lra.
Qed.

(** C7 (as the code has it).  The optimizer never raises.  A zero standard
    deviation gives safetyStock = 0; an undefined one (a series of at most one
    day) gives an undefined (NaN) safety stock and reorder point.  In the
    constant-demand scenario (100 units a day for 400 days, lead time 7,
    holding cost 0.1, ordering cost 100) it returns demandStd = 0,
    safetyStock = 0, reorderPoint = 700 and EOQ = sqrt 200000, about 447.2. *)
Theorem optimize_inventory_degenerate_std :
  (forall df h s,
      demand_std (optimize_inventory df h s) = Fin 0 ->
      safety_stock (optimize_inventory df h s) = Fin 0) /\
  (forall df h s,
      (length (groupby_sum df) <= 1)%nat ->
      demand_std (optimize_inventory df h s) = NaN /\
      safety_stock (optimize_inventory df h s) = NaN /\
      reorder_point (optimize_inventory df h s) = NaN) /\
  (let p := optimize_inventory (map (fun i => (Z.of_nat i, 100)) (seq 0 400))
                               (Fin 0.1) (Fin 50) in
   demand_std p = Fin 0 /\ safety_stock p = Fin 0 /\
   reorder_point p = Fin 700 /\
   economic_order_quantity p = Fin (sqrt 200000) /\
   447.2 < sqrt 200000 < 447.3).
Proof.
  split; [exact zero_std_zero_safety_stock | split].
  - intros df h s H.
    pose proof (short_series_std_undefined df h s H) as Hs.
    split; [exact Hs |]. now apply undefined_std_undefined_safety_stock.
  - exact constant_demand_scenario.
Qed.

(** C7, the claim as stated fails: on a single-day series the standard
    deviation is undefined and the safety stock returned is NaN, not 0. *)
Lemma single_day_safety_stock_not_zero :
  let p := optimize_inventory [(0%Z, 5)] (Fin 0.1) (Fin 50) in
  demand_std p = NaN /\ safety_stock p <> Fin 0.
Proof.
  intros p.
  assert (H : demand_std p = NaN)
    by (apply short_series_std_undefined; simpl; lia).
  split; [exact H |].
  apply undefined_std_undefined_safety_stock in H. destruct H as [H _].
  fold p in H. rewrite H. discriminate.
Qed.

(** ** Model trainer *)

Lemma existsb_isnan_fillna0 (l : list float) :
  existsb isnan (map fillna0 l) = false.
Proof.
  induction l as [|x l IH]; simpl; [reflexivity |].
  rewrite IH. destruct x; reflexivity.
Qed.

(** After [fillna(0)] the mask only tests the target. *)
Lemma mask_target (r : FeatureRow) : mask r = notna (quantity r).
Proof. unfold mask, X_row. now rewrite existsb_isnan_fillna0. Qed.

Lemma masked_rows_target (df : frame) :
  masked_rows df = filter (fun r => notna (quantity r)) df.
Proof. unfold masked_rows. apply filter_ext. exact mask_target. Qed.

Lemma filter_length_le {A} (p : A -> bool) (l : list A) :
  (length (filter p l) <= length l)%nat.
Proof.
  induction l as [|x l IH]; simpl; [lia |]. destruct (p x); simpl; lia.
Qed.

Lemma train_size_bounds (n : nat) :
  (5 * train_size n <= 4 * n < 5 * (train_size n + 1))%nat.
Proof.
  unfold train_size.
  pose proof (Z.div_mod (4 * Z.of_nat n) 5 ltac:(lia)) as H.
  pose proof (Z.mod_pos_bound (4 * Z.of_nat n) 5 ltac:(lia)) as B.
  assert (0 <= 4 * Z.of_nat n / 5)%Z by (apply Z.div_pos; lia).
  lia.
Qed.

Lemma train_size_le (n : nat) : (train_size n <= n)%nat.
Proof. pose proof (train_size_bounds n). lia. Qed.

Lemma ascending_filter {A} (f : A -> Z) (p : A -> bool) (l : list A) :
  ascending (map f l) -> ascending (map f (filter p l)).
Proof.
  unfold ascending. induction l as [|x l IH]; simpl; intros H; [constructor |].
  inversion H as [|? ? Hs Hf]; subst.
  destruct (p x); simpl; [|now apply IH].
  constructor; [now apply IH |].
  rewrite Forall_forall in *. intros z Hz. apply Hf.
  apply in_map_iff in Hz. destruct Hz as (y & <- & Hy).
  apply filter_In in Hy. apply in_map. tauto.
Qed.

Lemma dict_get_set {V} (k : string) (v : V) (d : dict V) :
  dict_get k (dict_set k v d) = ret v.
Proof.
  induction d as [|[k' v'] d IH]; cbn [dict_get dict_set].
  - now rewrite String.eqb_refl.
  - destruct (String.eqb k k') eqn:E; cbn [dict_get].
    + now rewrite String.eqb_refl.
    + now rewrite E.
Qed.

Section TrainerProperties.

Variables Scaler Model : Type.
Variable fit_scaler : list (list float) -> Scaler.
Variable scaler_transform : Scaler -> list float -> list float.
Variable fit_gradient_boosting : list (list float) -> list float -> Model.
Variable fit_random_forest : list (list float) -> list float -> Model.
Variable predict : Model -> list float -> float.
Variable feature_importances_ : Model -> list float.
Variables r2_score mean_absolute_error mean_squared_error :
  list float -> list float -> float.

Let train := train_model fit_scaler scaler_transform fit_gradient_boosting
                         fit_random_forest predict feature_importances_
                         r2_score mean_absolute_error mean_squared_error.

Lemma train_model_raises (self : DemandForecaster Scaler Model)
      (df : frame) (model_type : string) :
  (length (masked_rows df) < 100)%nat ->
  insufficient_data (train self df model_type).
Proof.
  intros H. unfold insufficient_data, train, train_model.
  rewrite length_map.
  destruct (length (masked_rows df) <? 100)%nat eqn:E; [reflexivity |].
  apply Nat.ltb_ge in E. lia.
Qed.

Lemma train_model_returns (self : DemandForecaster Scaler Model)
      (df : frame) (model_type : string) :
  (100 <= length (masked_rows df))%nat ->
  exists model metrics self',
    train self df model_type = inr (model, metrics, self') /\
    model = (if String.eqb model_type "gradient_boosting"
             then fit_gradient_boosting else fit_random_forest)
              (map (scaler_transform
                      (fit_scaler (map X_row (train_rows df))))
                   (map X_row (train_rows df)))
              (map quantity (train_rows df)) /\
    r2 metrics
    = r2_score (map quantity (test_rows df))
               (map (predict model)
                    (map (scaler_transform
                            (fit_scaler (map X_row (train_rows df))))
                         (map X_row (test_rows df)))) /\
    dict_get "demand" (scalers self')
    = ret (fit_scaler (map X_row (train_rows df))).
Proof.
  intros H. unfold train, train_model. rewrite length_map.
  destruct (length (masked_rows df) <? 100)%nat eqn:E;
    [apply Nat.ltb_lt in E; lia |].
  do 3 eexists. split; [reflexivity |]. cbn [r2 scalers].
  split; [destruct (String.eqb model_type "gradient_boosting"); reflexivity |].
  split; [reflexivity |].
  apply dict_get_set.
Qed.

(** C4 (as the code has it).  [train_model] raises the insufficient-data
    error exactly when fewer than 100 rows are left after the rows with an
    undefined target are removed; an undefined feature is replaced by 0
    and does not remove its row.  In particular a frame of fewer than 100
    rows always raises, no other error is raised, and a raise returns no
    model. *)
Theorem train_model_insufficient_data
        (self : DemandForecaster Scaler Model) (df : frame)
        (model_type : string) :
  (insufficient_data (train_model fit_scaler scaler_transform
                        fit_gradient_boosting fit_random_forest predict
                        feature_importances_ r2_score mean_absolute_error
                        mean_squared_error self df model_type)
   <-> (length (filter (fun r => notna (quantity r)) df) < 100)%nat)
  /\ ((length df < 100)%nat ->
      insufficient_data (train_model fit_scaler scaler_transform
                           fit_gradient_boosting fit_random_forest predict
                           feature_importances_ r2_score mean_absolute_error
                           mean_squared_error self df model_type))
  /\ (forall e,
         train_model fit_scaler scaler_transform
                     fit_gradient_boosting fit_random_forest predict
                     feature_importances_ r2_score mean_absolute_error
                     mean_squared_error self df model_type = inl e ->
         e = ValueError "Insufficient data for model training").
Proof.
  fold train. rewrite <- masked_rows_target.
  split; [split |split].
  - intros H.
    destruct (Nat.lt_ge_cases (length (masked_rows df)) 100) as [L|L];
      [exact L |].
    destruct (train_model_returns self df model_type L)
      as (m & me & s' & E & _).
    unfold insufficient_data in H. rewrite E in H. discriminate.
  - apply train_model_raises.
  - intros H. apply train_model_raises.
    pose proof (filter_length_le mask df). unfold masked_rows. lia.
  - intros e H.
    destruct (Nat.lt_ge_cases (length (masked_rows df)) 100) as [L|L].
    + pose proof (train_model_raises self df model_type L) as R.
      unfold insufficient_data in R. rewrite R in H. now injection H as <-.
    + destruct (train_model_returns self df model_type L)
        as (m & me & s' & E & _).
      rewrite E in H. discriminate.
Qed.

(** C6.  On a frame in chronological order with at least 100 usable rows,
    [train_model] trains on the first 80% of the usable rows (four fifths
    of their number, rounded down) and evaluates on the rest: the two
    partitions concatenate to the usable rows in their order, and every
    training date is earlier than every evaluation date. *)
Theorem chronological_split
        (self : DemandForecaster Scaler Model) (df : frame)
        (model_type : string) :
  ascending (map date df) ->
  (100 <= length (masked_rows df))%nat ->
  let n := length (masked_rows df) in
  train_rows df ++ test_rows df = masked_rows df
  /\ (5 * length (train_rows df) <= 4 * n
      < 5 * (length (train_rows df) + 1))%nat
  /\ length (test_rows df) = (n - length (train_rows df))%nat
  /\ (forall a b, In a (train_rows df) -> In b (test_rows df) ->
                  (date a < date b)%Z)
  /\ exists model metrics self',
      train_model fit_scaler scaler_transform fit_gradient_boosting
                  fit_random_forest predict feature_importances_ r2_score
                  mean_absolute_error mean_squared_error self df model_type
      = inr (model, metrics, self') /\
      model = (if String.eqb model_type "gradient_boosting"
               then fit_gradient_boosting else fit_random_forest)
                (map (scaler_transform
                        (fit_scaler (map X_row (train_rows df))))
                     (map X_row (train_rows df)))
                (map quantity (train_rows df)) /\
      r2 metrics
      = r2_score (map quantity (test_rows df))
                 (map (predict model)
                      (map (scaler_transform
                              (fit_scaler (map X_row (train_rows df))))
                           (map X_row (test_rows df)))).
Proof.
  intros Hasc Hlen n.
  assert (Hsplit : train_rows df ++ test_rows df = masked_rows df)
    by apply firstn_skipn.
  assert (Htrain : length (train_rows df) = train_size n).
  { unfold train_rows. rewrite length_firstn. fold n.
    apply Nat.min_l. apply train_size_le. }
  split; [exact Hsplit | split; [| split; [| split]]].
  - rewrite Htrain. apply train_size_bounds.
  - unfold test_rows. rewrite length_skipn. fold n. now rewrite Htrain.
  - intros a b Ha Hb.
    assert (Hm : ascending (map date (masked_rows df)))
      by (apply ascending_filter; exact Hasc).
    rewrite <- Hsplit, map_app in Hm.
    apply ascending_app_inv in Hm. destruct Hm as (_ & _ & Hm).
    apply Hm; now apply in_map.
  - destruct (train_model_returns self df model_type Hlen)
      as (m & me & s' & E & Hmodel & Hr2 & _).
    exists m, me, s'. repeat split; assumption.
Qed.

End TrainerProperties.

Lemma masked_rows_all (l : frame) :
  Forall (fun r => isnan (quantity r) = false) l -> masked_rows l = l.
Proof.
  rewrite masked_rows_target.
  induction 1 as [|r l Hr _ IH]; simpl; [reflexivity |].
  unfold notna at 1. rewrite Hr. simpl. now rewrite IH.
Qed.

Lemma masked_rows_flat (x : R) (n : nat) :
  masked_rows (flat_frame (Fin x) n) = flat_frame (Fin x) n.
Proof.
  apply masked_rows_all. unfold flat_frame. rewrite Forall_forall.
  intros r Hr. apply in_map_iff in Hr. now destruct Hr as (i & <- & _).
Qed.

Lemma flat_frame_dates (x : float) (n : nat) :
  map date (flat_frame x n) = map Z.of_nat (seq 0 n).
Proof. unfold flat_frame. rewrite map_map. reflexivity. Qed.

(** C4, the claim as stated fails: a frame of 100 rows whose lag-30 feature
    is undefined in every row has no row without an undefined feature, yet
    [train_model] does not raise. *)
Lemma undefined_features_do_not_raise :
  let df := map lag30_missing_row (seq 0 100) in
  (length (filter spec_usable df) < 100)%nat /\
  ~ insufficient_data (toy_train_model unit_forecaster df "gradient_boosting").
Proof.
  intros df. split.
  - assert (E : forall l, filter spec_usable (map lag30_missing_row l) = []).
    { induction l as [|i l IH]; simpl; [reflexivity | exact IH]. }
    unfold df. rewrite E. simpl. lia.
  - intros H. unfold toy_train_model, insufficient_data in H.
    assert (E : forall l, masked_rows (map lag30_missing_row l)
                          = map lag30_missing_row l).
    { intros l. apply masked_rows_all. rewrite Forall_forall.
      intros r Hr. apply in_map_iff in Hr. now destruct Hr as (i & <- & _). }
    destruct (train_model_returns unit unit (fun _ => tt) (fun _ x => x)
                (fun _ _ => tt) (fun _ _ => tt) first_feature (fun _ => [])
                (fun _ _ => NaN) (fun _ _ => NaN) (fun _ _ => NaN)
                unit_forecaster df "gradient_boosting"%string)
      as (m & me & s' & R & _).
    + unfold df. rewrite E, length_map, length_seq. lia.
    + rewrite R in H. discriminate.
Qed.

Lemma chronological_split_witness :
  ascending (map date (flat_frame (Fin 1) 100)) /\
  (100 <= length (masked_rows (flat_frame (Fin 1) 100)))%nat /\
  train_rows (flat_frame (Fin 1) 100) ++ test_rows (flat_frame (Fin 1) 100)
  = masked_rows (flat_frame (Fin 1) 100) /\
  length (train_rows (flat_frame (Fin 1) 100)) = 80%nat /\
  length (test_rows (flat_frame (Fin 1) 100)) = 20%nat.
Proof.
  assert (H1 : ascending (map date (flat_frame (Fin 1) 100)))
    by (rewrite flat_frame_dates; apply ascending_seq).
  assert (L : length (masked_rows (flat_frame (Fin 1) 100)) = 100%nat)
    by (rewrite masked_rows_flat; unfold flat_frame;
        now rewrite length_map, length_seq).
  assert (H2 : (100 <= length (masked_rows (flat_frame (Fin 1) 100)))%nat)
    by (rewrite L; apply Nat.le_refl).
  destruct (chronological_split unit unit (fun _ => tt) (fun _ x => x)
              (fun _ _ => tt) (fun _ _ => tt) first_feature (fun _ => [])
              (fun _ _ => NaN) (fun _ _ => NaN) (fun _ _ => NaN)
              unit_forecaster (flat_frame (Fin 1) 100)
              "gradient_boosting"%string H1 H2)
    as (A & B & C & _).
  rewrite L in B, C.
  split; [exact H1 | split; [exact H2 | split; [exact A | split; lia]]].
Defined.

(** ** Feature builder *)

Lemma bfill_length (l : list float) : length (bfill l) = length l.
Proof. induction l as [|x l IH]; simpl; [reflexivity | now rewrite IH]. Qed.

Lemma ffill_from_length (last : float) (l : list float) :
  length (ffill_from last l) = length l.
Proof.
  revert last; induction l as [|x l IH]; intros last; simpl;
    [reflexivity | now rewrite IH].
Qed.

Lemma fill_column_length (c : list float) :
  length (fill_column c) = length c.
Proof. unfold fill_column, ffill. now rewrite ffill_from_length, bfill_length. Qed.

(** Back-filling brings the nearest later defined value to the front. *)
Lemma bfill_head_defined (l : list float) :
  Exists (fun x => isnan x = false) l -> isnan (hd NaN (bfill l)) = false.
Proof.
  induction l as [|x l IH]; intros H; [inversion H |].
  simpl. destruct (isnan x) eqn:E; [|exact E].
  apply IH. inversion H as [? ? Hx|? ? Ht]; subst; [congruence | exact Ht].
Qed.

(** Forward-filling from a defined value leaves no NaN. *)
Lemma ffill_from_defined (last : float) (l : list float) :
  isnan last = false ->
  Forall (fun x => isnan x = false) (ffill_from last l).
Proof.
  revert last; induction l as [|x l IH]; intros last H; simpl;
    [constructor |].
  destruct (isnan x) eqn:E; constructor; auto.
Qed.

(** A column with at least one defined value has none undefined after
    back-fill and forward-fill. *)
Lemma fill_column_defined (c : list float) :
  Exists (fun x => isnan x = false) c ->
  column_defined (length c) (fill_column c).
Proof.
  intros H. split; [apply fill_column_length |].
  unfold fill_column, ffill.
  pose proof (bfill_head_defined c H) as Hh.
  destruct (bfill c) as [|y t]; [constructor |].
  simpl in Hh. simpl. rewrite Hh. constructor; [exact Hh |].
  now apply ffill_from_defined.
Qed.

Lemma bfill_undefined (n : nat) : bfill (repeat NaN n) = repeat NaN n.
Proof.
  induction n as [|n IH]; simpl; [reflexivity |]. rewrite IH.
  destruct n; reflexivity.
Qed.

Lemma ffill_undefined (n : nat) : ffill_from NaN (repeat NaN n) = repeat NaN n.
Proof. induction n as [|n IH]; simpl; [reflexivity | now rewrite IH]. Qed.

(** A column with no defined value is left as it is. *)
Lemma fill_column_undefined (n : nat) :
  fill_column (repeat NaN n) = repeat NaN n.
Proof.
  unfold fill_column, ffill. now rewrite bfill_undefined, ffill_undefined.
Qed.

Lemma shift_long (k : nat) (q : list R) :
  (k <= length q)%nat ->
  shift k q = repeat NaN k ++ map Fin (firstn (length q - k) q).
Proof.
  intros H. unfold shift.
  rewrite firstn_app, repeat_length, firstn_all2 by (rewrite repeat_length; lia).
  now rewrite firstn_map.
Qed.

Lemma shift_short (k : nat) (q : list R) :
  (length q <= k)%nat -> shift k q = repeat NaN (length q).
Proof.
  intros H. unfold shift.
  rewrite firstn_app, repeat_length.
  replace (length q - k)%nat with 0%nat by lia.
  rewrite firstn_O, app_nil_r.
  replace k with (length q + (k - length q))%nat at 1 by lia.
  rewrite repeat_app, firstn_app, repeat_length, Nat.sub_diag, firstn_O,
    app_nil_r.
  apply firstn_all2. rewrite repeat_length. lia.
Qed.

Lemma shift_length (k : nat) (q : list R) : length (shift k q) = length q.
Proof.
  unfold shift. rewrite length_firstn, length_app, length_map, repeat_length.
  lia.
Qed.

Lemma shift_has_defined (k : nat) (q : list R) :
  (k < length q)%nat -> Exists (fun x => isnan x = false) (shift k q).
Proof.
  intros H. rewrite shift_long by lia. apply Exists_app. right.
  destruct (firstn (length q - k) q) as [|x t] eqn:E.
  - apply (f_equal (@length R)) in E. rewrite length_firstn in E.
    simpl in E. lia.
  - simpl. now constructor.
Qed.

Lemma rolling_length (w : nat) (agg : list R -> float) (q : list R) :
  length (rolling w agg q) = length q.
Proof. unfold rolling. now rewrite length_map, length_seq. Qed.

Lemma window_at_length {A} (w i : nat) (l : list A) :
  (w <= i + 1)%nat -> (i < length l)%nat -> length (window_at w i l) = w.
Proof.
  intros H1 H2. unfold window_at. rewrite length_firstn, length_skipn. lia.
Qed.

Lemma rolling_nth (w : nat) (agg : list R -> float) (q : list R) (i : nat) :
  (i < length q)%nat ->
  nth i (rolling w agg q) NaN
  = if (w <=? i + 1)%nat then agg (window_at w i q) else NaN.
Proof.
  intros H. unfold rolling.
  set (f := fun i => if (w <=? i + 1)%nat then agg (window_at w i q) else NaN).
  rewrite (nth_indep _ NaN (f 0%nat))
    by (rewrite length_map, length_seq; exact H).
  rewrite map_nth, seq_nth by exact H. reflexivity.
Qed.

Lemma rolling_short (w : nat) (agg : list R -> float) (q : list R) :
  (length q < w)%nat -> rolling w agg q = repeat NaN (length q).
Proof.
  intros H. unfold rolling.
  rewrite <- (map_const_seq NaN 0 (length q)).
  apply map_ext_in. intros i Hi. apply in_seq in Hi.
  destruct (w <=? i + 1)%nat eqn:E; [apply Nat.leb_le in E; lia | reflexivity].
Qed.

Lemma rolling_has_defined (w : nat) (agg : list R -> float) (q : list R) :
  (0 < w <= length q)%nat ->
  (forall l, length l = w -> isnan (agg l) = false) ->
  Exists (fun x => isnan x = false) (rolling w agg q).
Proof.
  intros H Hagg. apply Exists_exists.
  exists (nth (w - 1) (rolling w agg q) NaN). split.
  - apply nth_In. rewrite rolling_length. lia.
  - rewrite rolling_nth by lia.
    replace (w <=? w - 1 + 1)%nat with true by (symmetry; apply Nat.leb_le; lia).
    apply Hagg. apply window_at_length; lia.
Qed.

Lemma window_mean_defined (w : nat) (l : list R) :
  (0 < w)%nat -> length l = w -> isnan (window_mean l) = false.
Proof. intros H E. destruct l; [simpl in E; lia | reflexivity]. Qed.

Lemma window_std_defined_of_length (w : nat) (l : list R) :
  (1 < w)%nat -> length l = w -> isnan (window_std l) = false.
Proof.
  intros H E. unfold window_std. rewrite E.
  destruct (w <=? 1)%nat eqn:L; [apply Nat.leb_le in L; lia | reflexivity].
Qed.

Lemma Exists_map_Fin (l : list R) :
  l <> [] -> Exists (fun x => isnan x = false) (map Fin l).
Proof. destruct l; [congruence | intros _; now constructor]. Qed.

(** The dates produced by grouping depend on the dates alone. *)
Lemma gb_insert_keys (d : Z) (q1 q2 : R) (a1 a2 : list (Z * R)) :
  map fst a1 = map fst a2 ->
  map fst (gb_insert d q1 a1) = map fst (gb_insert d q2 a2).
Proof.
  revert a2; induction a1 as [|[d1 x1] a1 IH]; intros [|[d2 x2] a2] H;
    simpl in H; try discriminate; [reflexivity |].
  injection H as <- H. simpl.
  destruct (d <? d1)%Z; [simpl; now rewrite H |].
  destruct (d =? d1)%Z; simpl; [now rewrite H |].
  f_equal. now apply IH.
Qed.

Lemma groupby_sum_keys {A} (k : A -> Z) (f g : A -> R) (l : list A) :
  map fst (groupby_sum (map (fun r => (k r, f r)) l))
  = map fst (groupby_sum (map (fun r => (k r, g r)) l)).
Proof.
  unfold groupby_sum.
  assert (H : forall a1 a2, map fst a1 = map fst a2 ->
            map fst (fold_left (fun a r => gb_insert (fst r) (snd r) a)
                               (map (fun r => (k r, f r)) l) a1)
            = map fst (fold_left (fun a r => gb_insert (fst r) (snd r) a)
                                 (map (fun r => (k r, g r)) l) a2)).
  { induction l as [|x l IH]; intros a1 a2 E; simpl; [exact E |].
    apply IH. now apply gb_insert_keys. }
  now apply H.
Qed.

Lemma map_nth_seq {A} (d : A) (n : nat) (c : list A) :
  length c = n -> map (fun i => nth i c d) (seq 0 n) = c.
Proof.
  intros <-. apply (nth_ext _ _ d d).
  - now rewrite length_map, length_seq.
  - intros i Hi. rewrite length_map, length_seq in Hi.
    set (f := fun i => nth i c d).
    rewrite (nth_indep _ d (f 0%nat)) by (now rewrite length_map, length_seq).
    rewrite map_nth, seq_nth by exact Hi. reflexivity.
Qed.

Lemma revenue_length (df : list SalesRecord) :
  length (groupby_sum (map (fun r => (saleDate r, sale_totalRevenue r)) df))
  = length (daily_quantity df).
Proof.
  unfold daily_quantity.
  rewrite <- (length_map fst), <- (length_map fst (groupby_sum (map _ df))).
  f_equal. apply groupby_sum_keys.
Qed.

(** Every column of the feature frame is the back-filled, then
    forward-filled, column computed from the daily series. *)
Lemma create_features_columns (df : list SalesRecord) :
  let q := map snd (daily_quantity df) in
  map quantity (create_features df) = fill_column (map Fin q) /\
  map quantity_lag1 (create_features df) = fill_column (shift 1 q) /\
  map quantity_lag7 (create_features df) = fill_column (shift 7 q) /\
  map quantity_lag30 (create_features df) = fill_column (shift 30 q) /\
  map quantity_rolling_mean_7 (create_features df)
  = fill_column (rolling 7 window_mean q) /\
  map quantity_rolling_std_7 (create_features df)
  = fill_column (rolling 7 window_std q) /\
  map quantity_rolling_mean_30 (create_features df)
  = fill_column (rolling 30 window_mean q) /\
  map totalRevenue (create_features df)
  = fill_column
      (map (fun r => Fin (snd r))
           (groupby_sum
              (map (fun r => (saleDate r, sale_totalRevenue r)) df))).
Proof.
  intros q. unfold create_features. fold (daily_quantity df). fold q.
  rewrite !map_map. cbn [quantity quantity_lag1 quantity_lag7 quantity_lag30
    quantity_rolling_mean_7 quantity_rolling_std_7 quantity_rolling_mean_30
    totalRevenue].
  assert (Hq : length q = length (map fst (daily_quantity df)))
    by (unfold q; now rewrite !length_map).
  rewrite <- Hq.
  repeat split; apply map_nth_seq;
    rewrite fill_column_length;
    rewrite ?shift_length, ?rolling_length, ?length_map; try reflexivity.
  rewrite revenue_length. unfold q. now rewrite length_map.
Qed.

Lemma create_features_length (df : list SalesRecord) :
  length (create_features df) = length (daily_quantity df).
Proof.
  unfold create_features. fold (daily_quantity df).
  now rewrite length_map, length_seq, length_map.
Qed.

Lemma Forall_of_column {A} (f : A -> float) (P : float -> Prop)
      (rows : list A) (c : list float) :
  map f rows = c -> Forall P c -> Forall (fun r => P (f r)) rows.
Proof.
  intros <- H. rewrite Forall_forall in *. intros r Hr. apply H.
  now apply in_map.
Qed.

Lemma Forall_repeat {A} (P : A -> Prop) (x : A) (n : nat) :
  P x -> Forall P (repeat x n).
Proof. intros H. induction n; simpl; constructor; assumption. Qed.

(** With at most 30 daily points no row has a 30th predecessor: the lag-30
    column is undefined throughout and stays so after the fill. *)
Lemma short_series_lag30_undefined (df : list SalesRecord) :
  (length (daily_quantity df) <= 30)%nat ->
  Forall (fun r => quantity_lag30 r = NaN) (create_features df).
Proof.
  intros H.
  destruct (create_features_columns df) as (_ & _ & _ & C30 & _).
  apply (Forall_of_column _ (fun x => x = NaN) _ _ C30).
  rewrite shift_short by (rewrite length_map; lia).
  rewrite fill_column_undefined. now apply Forall_repeat.
Qed.

(** With fewer than 30 daily points the rolling 30-day mean is undefined
    throughout and stays so after the fill. *)
Lemma short_series_mean30_undefined (df : list SalesRecord) :
  (length (daily_quantity df) < 30)%nat ->
  Forall (fun r => quantity_rolling_mean_30 r = NaN) (create_features df).
Proof.
  intros H.
  destruct (create_features_columns df) as (_ & _ & _ & _ & _ & _ & Cm30 & _).
  apply (Forall_of_column _ (fun x => x = NaN) _ _ Cm30).
  rewrite rolling_short by (rewrite length_map; lia).
  rewrite fill_column_undefined. now apply Forall_repeat.
Qed.

(** C5 (as the code has it).  Undefined lag and rolling values are
    back-filled and then forward-filled, column by column.  A daily series
    of at least 31 points gives feature rows with no undefined value; with
    at most 30 points the lag-30 feature is undefined in every row, and with
    fewer than 30 points (a single date in particular) so is the rolling
    30-day mean. *)
Theorem create_features_fill (df : list SalesRecord) :
  let n := length (daily_quantity df) in
  let q := map snd (daily_quantity df) in
  length (create_features df) = n
  /\ map quantity_lag30 (create_features df) = ffill (bfill (shift 30 q))
  /\ map quantity_rolling_mean_30 (create_features df)
     = ffill (bfill (rolling 30 window_mean q))
  /\ ((31 <= n)%nat -> Forall row_defined (create_features df))
  /\ ((n <= 30)%nat ->
      Forall (fun r => quantity_lag30 r = NaN) (create_features df))
  /\ ((n < 30)%nat ->
      Forall (fun r => quantity_rolling_mean_30 r = NaN)
             (create_features df)).
Proof.
  intros n q.
  destruct (create_features_columns df)
    as (Cq & C1 & C7 & C30 & Cm7 & Cs7 & Cm30 & Crev).
  fold q in Cq, C1, C7, C30, Cm7, Cs7, Cm30.
  assert (Hn : length q = n) by (unfold q, n; now rewrite length_map).
  split; [apply create_features_length | split; [exact C30 |
    split; [exact Cm30 | split; [| split]]]].
  - intros H.
    assert (D : forall c, length c = n ->
                Exists (fun x => isnan x = false) c ->
                Forall (fun x => isnan x = false) (fill_column c)).
    { intros c Hc Hex. now destruct (fill_column_defined c Hex). }
    assert (Hq : q <> []) by (intros E; rewrite E in Hn; simpl in Hn; lia).
    assert (Dq : Forall (fun r => isnan (quantity r) = false)
                        (create_features df)).
    { apply (Forall_of_column _ (fun x => isnan x = false) _ _ Cq).
      apply D; [now rewrite length_map | now apply Exists_map_Fin]. }
    assert (D1 : Forall (fun r => isnan (quantity_lag1 r) = false)
                        (create_features df)).
    { apply (Forall_of_column _ (fun x => isnan x = false) _ _ C1).
      apply D; [now rewrite shift_length | apply shift_has_defined; lia]. }
    assert (D7 : Forall (fun r => isnan (quantity_lag7 r) = false)
                        (create_features df)).
    { apply (Forall_of_column _ (fun x => isnan x = false) _ _ C7).
      apply D; [now rewrite shift_length | apply shift_has_defined; lia]. }
    assert (D30 : Forall (fun r => isnan (quantity_lag30 r) = false)
                         (create_features df)).
    { apply (Forall_of_column _ (fun x => isnan x = false) _ _ C30).
      apply D; [now rewrite shift_length | apply shift_has_defined; lia]. }
    assert (Dm7 : Forall (fun r => isnan (quantity_rolling_mean_7 r) = false)
                         (create_features df)).
    { apply (Forall_of_column _ (fun x => isnan x = false) _ _ Cm7).
      apply D; [now rewrite rolling_length |].
      apply rolling_has_defined; [lia |].
      intros l. apply window_mean_defined. lia. }
    assert (Ds7 : Forall (fun r => isnan (quantity_rolling_std_7 r) = false)
                         (create_features df)).
    { apply (Forall_of_column _ (fun x => isnan x = false) _ _ Cs7).
      apply D; [now rewrite rolling_length |].
      apply rolling_has_defined; [lia |].
      intros l. apply window_std_defined_of_length. lia. }
    assert (Dm30 : Forall (fun r => isnan (quantity_rolling_mean_30 r) = false)
                          (create_features df)).
    { apply (Forall_of_column _ (fun x => isnan x = false) _ _ Cm30).
      apply D; [now rewrite rolling_length |].
      apply rolling_has_defined; [lia |].
      intros l. apply window_mean_defined. lia. }
    assert (Drev : Forall (fun r => isnan (totalRevenue r) = false)
                          (create_features df)).
    { apply (Forall_of_column _ (fun x => isnan x = false) _ _ Crev).
      pose proof (revenue_length df) as L. fold n in L.
      apply D; [now rewrite length_map |].
      destruct (groupby_sum _) as [|x t]; [simpl in L; lia |].
      now constructor. }
    rewrite Forall_forall in *. intros r Hr. unfold row_defined, feature_values.
    repeat split; auto.
    repeat constructor; auto.
  - apply short_series_lag30_undefined.
  - apply short_series_mean30_undefined.
Qed.

Lemma daily_quantity_of_days (q : R) (n : nat) :
  daily_quantity (daily_sales_of q n)
  = map (fun i => (Z.of_nat i, q)) (seq 0 n).
Proof.
  unfold daily_quantity, daily_sales_of. rewrite map_map. simpl.
  apply groupby_sum_ascending. rewrite map_map. simpl. apply ascending_seq.
Qed.

(** C5, the claim as stated fails: a daily series of exactly 30 points keeps
    an undefined lag-30 feature in every row, and a single-date input keeps
    its lag-30 and rolling-30 features undefined instead of the day's
    quantity. *)
Lemma thirty_days_leave_lag30_undefined :
  (length (daily_quantity (daily_sales_of 1 30)) = 30%nat /\
   ~ Forall row_defined (create_features (daily_sales_of 1 30))) /\
  (forall r, In r (create_features (daily_sales_of 5 1)) ->
             quantity r = Fin 5 /\
             quantity_lag30 r <> Fin 5 /\
             quantity_rolling_mean_30 r <> Fin 5).
Proof.
  assert (L : forall q n, length (daily_quantity (daily_sales_of q n)) = n).
  { intros q n. rewrite daily_quantity_of_days.
    now rewrite length_map, length_seq. }
  split; [split; [apply L |] |].
  - intros H.
    pose proof (create_features_length (daily_sales_of 1 30)) as Hlen.
    pose proof (short_series_lag30_undefined (daily_sales_of 1 30)) as H30.
    rewrite L in Hlen, H30. specialize (H30 ltac:(lia)).
    destruct (create_features (daily_sales_of 1 30)) as [|r t];
      [discriminate |].
    inversion H as [|? ? Hr _]; subst. inversion H30 as [|? ? Hn _]; subst.
    destruct Hr as (_ & _ & Hr). unfold feature_values in Hr.
    inversion Hr as [|? ? _ Hr1]; subst. inversion Hr1 as [|? ? _ Hr2]; subst.
    inversion Hr2 as [|? ? Hx _]; subst. rewrite Hn in Hx. discriminate.
  - intros r Hr.
    pose proof (short_series_lag30_undefined (daily_sales_of 5 1)) as H30.
    pose proof (short_series_mean30_undefined (daily_sales_of 5 1)) as Hm30.
    rewrite L in H30, Hm30.
    specialize (H30 ltac:(lia)). specialize (Hm30 ltac:(lia)).
    rewrite Forall_forall in H30, Hm30.
    rewrite (H30 r Hr), (Hm30 r Hr).
    split; [| split; discriminate].
    destruct (create_features_columns (daily_sales_of 5 1)) as (Cq & _).
    assert (Hq : Forall (fun r => quantity r = Fin 5)
                        (create_features (daily_sales_of 5 1))).
    { apply (Forall_of_column _ (fun x => x = Fin 5) _ _ Cq).
      rewrite daily_quantity_of_days. unfold fill_column, ffill. simpl.
      repeat constructor. }
    rewrite Forall_forall in Hq. now apply Hq.
Qed.


(** ** Anomaly detector *)

Lemma gb_insert_dates (d : Z) (q : R) (acc : list (Z * R)) (x : Z) :
  In x (map fst (gb_insert d q acc)) -> x = d \/ In x (map fst acc).
Proof.
  induction acc as [|[d' q'] t IH]; simpl.
  - intros [<- | []]. now left.
  - destruct (d <? d')%Z; [simpl; intuition |].
    destruct (d =? d')%Z; simpl; intuition.
Qed.

Lemma gb_insert_ascending (d : Z) (q : R) (acc : list (Z * R)) :
  ascending (map fst acc) -> ascending (map fst (gb_insert d q acc)).
Proof.
  unfold ascending. induction acc as [|[d' q'] t IH]; simpl; intros H.
  - repeat constructor.
  - inversion H as [|? ? Hs Hf]; subst.
    destruct (d <? d')%Z eqn:E1.
    + apply Z.ltb_lt in E1. simpl. constructor; [exact H |].
      constructor; [exact E1 |].
      rewrite Forall_forall in *. intros x Hx. specialize (Hf x Hx). lia.
    + destruct (d =? d')%Z eqn:E2; simpl; [exact H |].
      apply Z.ltb_ge in E1. apply Z.eqb_neq in E2.
      constructor; [now apply IH |].
      rewrite Forall_forall in *. intros x Hx.
      apply gb_insert_dates in Hx. destruct Hx as [-> | Hx]; [lia | auto].
Qed.

(** Grouping yields strictly increasing, hence distinct, dates. *)
Lemma groupby_sum_is_ascending (df : list (Z * R)) :
  ascending (map fst (groupby_sum df)).
Proof.
  unfold groupby_sum.
  assert (H : forall acc, ascending (map fst acc) ->
                ascending (map fst (fold_left
                  (fun a r => gb_insert (fst r) (snd r) a) df acc))).
  { induction df as [|r df IH]; intros acc Ha; simpl; [exact Ha |].
    apply IH. now apply gb_insert_ascending. }
  apply H. constructor.
Qed.

Lemma ascending_nth_lt (l : list Z) (i j : nat) :
  ascending l -> (i < j < length l)%nat -> (nth i l 0 < nth j l 0)%Z.
Proof.
  unfold ascending. intros H. revert i j.
  induction H as [|x l Hs IH Hf]; intros i j Hij; simpl in *; [lia |].
  destruct j as [|j]; [lia |]. destruct i as [|i].
  - rewrite Forall_forall in Hf. apply Hf. apply nth_In. lia.
  - apply IH. lia.
Qed.

Lemma ascending_nth_inj (l : list Z) (i j : nat) :
  ascending l -> (i < length l)%nat -> (j < length l)%nat ->
  nth i l 0%Z = nth j l 0%Z -> i = j.
Proof.
  intros H Hi Hj E.
  destruct (Nat.lt_trichotomy i j) as [L | [L | L]]; [| exact L |].
  - pose proof (ascending_nth_lt l i j H ltac:(lia)). lia.
  - pose proof (ascending_nth_lt l j i H ltac:(lia)). lia.
Qed.

Lemma nth_error_map_seq {A} (f : nat -> A) (n i : nat) :
  nth_error (map f (seq 0 n)) i = if (i <? n)%nat then Some (f i) else None.
Proof.
  rewrite nth_error_map.
  destruct (i <? n)%nat eqn:E.
  - apply Nat.ltb_lt in E.
    rewrite (nth_error_nth' _ 0%nat) by (now rewrite length_seq).
    now rewrite seq_nth.
  - apply Nat.ltb_ge in E.
    replace (nth_error (seq 0 n) i) with (@None nat); [reflexivity |].
    symmetry. apply nth_error_None. now rewrite length_seq.
Qed.

Lemma scored_rows_nth (df : sales_frame) (i : nat) (row : ScoredRow) :
  nth_error (scored_rows df) i = Some row <->
  (i < length (groupby_sum df))%nat /\ row = scored_at df i.
Proof.
  unfold scored_rows. rewrite nth_error_map_seq.
  destruct (i <? length (groupby_sum df))%nat eqn:E.
  - apply Nat.ltb_lt in E. split.
    + intros H. injection H as <-. now split.
    + intros [_ ->]. reflexivity.
  - apply Nat.ltb_ge in E. split; [discriminate | intros [H _]; lia].
Qed.

Lemma scored_rows_In (df : sales_frame) (row : ScoredRow) :
  In row (scored_rows df) <->
  exists i, (i < length (groupby_sum df))%nat /\ row = scored_at df i.
Proof.
  split.
  - intros H. apply In_nth_error in H. destruct H as [i H].
    exists i. now apply scored_rows_nth.
  - intros (i & Hi & ->). apply (nth_error_In _ i).
    apply scored_rows_nth. now split.
Qed.

(** A date is reported exactly when the row of that date scores above the
    threshold. *)
Lemma detect_anomalies_dates (df : sales_frame) (threshold : float) (d : Z) :
  In d (map a_date (detect_anomalies df threshold)) <->
  exists i, (i < length (groupby_sum df))%nat /\
            s_date (scored_at df i) = d /\
            fgtb (z_score (scored_at df i)) threshold = true.
Proof.
  unfold detect_anomalies. rewrite map_map. cbn [a_date].
  rewrite in_map_iff. split.
  - intros (row & <- & H). apply filter_In in H. destruct H as [H Hz].
    apply scored_rows_In in H. destruct H as (i & Hi & ->).
    exists i. auto.
  - intros (i & Hi & <- & Hz). exists (scored_at df i). split; [reflexivity |].
    apply filter_In. split; [|exact Hz].
    apply scored_rows_In. now exists i.
Qed.

Lemma scored_at_stats (df : sales_frame) (i : nat) :
  let q := map snd (groupby_sum df) in
  (i < length q)%nat ->
  s_mean (scored_at df i)
  = (if (30 <=? i + 1)%nat then window_mean (window_at 30 i q) else NaN) /\
  s_std (scored_at df i)
  = (if (30 <=? i + 1)%nat then window_std (window_at 30 i q) else NaN).
Proof.
  intros q Hi. unfold scored_at. cbn [s_mean s_std]. fold q.
  now rewrite !rolling_nth by exact Hi.
Qed.

(** The rolling window of a day ends at that day: its last entry is the
    day's own quantity. *)
Lemma window_at_current {A} (w i : nat) (l : list A) :
  (0 < w <= i + 1)%nat -> (i < length l)%nat ->
  nth_error (window_at w i l) (w - 1) = nth_error l i.
Proof.
  intros H Hi. unfold window_at.
  rewrite nth_error_firstn, nth_error_skipn.
  replace (w - 1 <? w)%nat with true by (symmetry; apply Nat.ltb_lt; lia).
  f_equal. lia.
Qed.

Lemma fgtb_NaN_l (t : float) : fgtb NaN t = false.
Proof. destruct t; reflexivity. Qed.

Lemma fdiv_NaN_r (x : float) : fdiv x NaN = NaN.
Proof. destruct x; reflexivity. Qed.

(** An undefined standard deviation gives an undefined z-score. *)
Lemma z_score_undefined_std (df : sales_frame) (i : nat) :
  s_std (scored_at df i) = NaN -> z_score (scored_at df i) = NaN.
Proof.
  unfold scored_at. cbn [s_std z_score]. intros ->.
  now rewrite fdiv_NaN_r.
Qed.

Lemma Rsum_squares_zero (f : R -> R) (l : list R) :
  Rsum (map (fun x => f x * f x) l) = 0 -> forall x, In x l -> f x = 0.
Proof.
  induction l as [|y l IH]; simpl; intros H x Hx; [contradiction |].
  pose proof (Rsum_squares_nonneg f l) as Hl.
  pose proof (Rle_0_sqr (f y)) as Hy. unfold Rsqr in Hy.
  destruct Hx as [<- | Hx].
  - assert (E : f y * f y = 0) by lra.
    apply Rmult_integral in E. tauto.
  - apply IH; [lra | exact Hx].
Qed.

(** A window whose sample standard deviation is zero is constant. *)
Lemma window_std_zero_constant (l : list R) :
  window_std l = Fin 0 -> forall x, In x l -> x = Rmean l.
Proof.
  unfold window_std. destruct (length l <=? 1)%nat eqn:E; [discriminate |].
  apply Nat.leb_gt in E. intros H x Hx. injection H as H.
  apply sqrt_eq_0 in H; [|apply Rvar_nonneg].
  unfold Rvar in H.
  assert (Hn : 0 < INR (length l - 1)) by (apply INR_pos_of_lt; lia).
  assert (S0 : Rsum (map (fun x => (x - Rmean l) * (x - Rmean l)) l) = 0).
  { unfold Rdiv in H. apply Rmult_integral in H. destruct H as [H|H];
      [exact H |].
    exfalso. revert H. apply Rinv_neq_0_compat. lra. }
  pose proof (Rsum_squares_zero (fun x => x - Rmean l) l S0 x Hx) as Hd.
  simpl in Hd. lra.
Qed.

(** A zero standard deviation gives 0/0: the z-score is undefined, never
    infinite. *)
Lemma z_score_zero_std (df : sales_frame) (i : nat) :
  (i < length (groupby_sum df))%nat ->
  s_std (scored_at df i) = Fin 0 -> z_score (scored_at df i) = NaN.
Proof.
  intros Hi Hs.
  assert (Hq : (i < length (map snd (groupby_sum df)))%nat)
    by now rewrite length_map.
  destruct (scored_at_stats df i Hq) as [Hm Hs'].
  rewrite Hs in Hs'.
  destruct (30 <=? i + 1)%nat eqn:E; [|discriminate].
  apply Nat.leb_le in E. symmetry in Hs'.
  set (q := map snd (groupby_sum df)) in *.
  assert (Hcur : nth i q 0 = Rmean (window_at 30 i q)).
  { apply (window_std_zero_constant _ Hs').
    pose proof (window_at_current 30 i q ltac:(lia) Hq) as Hc.
    rewrite (nth_error_nth' q 0 Hq) in Hc.
    now apply nth_error_In in Hc. }
  assert (Hne : window_at 30 i q <> []).
  { intros En. apply (f_equal (@length R)) in En.
    rewrite window_at_length in En by lia. discriminate. }
  change (z_score (scored_at df i))
    with (fabs (fdiv (fsub (Fin (nth i q 0)) (s_mean (scored_at df i)))
                     (s_std (scored_at df i)))).
  rewrite Hs, Hm.
  destruct (window_mean_cases (window_at 30 i q)) as [[En _] | [_ ->]];
    [contradiction |].
  rewrite Hcur. simpl.
  destruct (Req_dec_T 0 0) as [_|N]; [|contradiction].
  unfold inf_of_sign.
  destruct (Rlt_dec 0 (Rmean (window_at 30 i q) + - Rmean (window_at 30 i q)));
    [lra |].
  destruct (Rlt_dec (Rmean (window_at 30 i q) + - Rmean (window_at 30 i q)) 0);
    [lra | reflexivity].
Qed.

(** Rows before the 30th have no rolling statistics. *)
Lemma early_rows_undefined (df : sales_frame) (i : nat) :
  (i < 29)%nat -> (i < length (groupby_sum df))%nat ->
  s_mean (scored_at df i) = NaN /\ s_std (scored_at df i) = NaN.
Proof.
  intros H Hi.
  assert (Hq : (i < length (map snd (groupby_sum df)))%nat)
    by now rewrite length_map.
  destruct (scored_at_stats df i Hq) as [Hm Hs]. rewrite Hm, Hs.
  destruct (30 <=? i + 1)%nat eqn:E; [apply Nat.leb_le in E; lia |].
  now split.
Qed.

(** The row of a reported date is the only row of that date. *)
Lemma reported_row (df : sales_frame) (threshold : float) (i : nat) :
  (i < length (groupby_sum df))%nat ->
  In (s_date (scored_at df i)) (map a_date (detect_anomalies df threshold)) ->
  fgtb (z_score (scored_at df i)) threshold = true.
Proof.
  intros Hi H. apply detect_anomalies_dates in H.
  destruct H as (j & Hj & Hd & Hz).
  assert (E : j = i).
  { apply (ascending_nth_inj (map fst (groupby_sum df)));
      [apply groupby_sum_is_ascending | | | exact Hd];
      now rewrite length_map. }
  now subst j.
Qed.

(** A row with a zero or undefined standard deviation is not reported. *)
Lemma degenerate_std_flag_free (df : sales_frame) (threshold : float)
      (i : nat) :
  (i < length (groupby_sum df))%nat ->
  s_std (scored_at df i) = NaN \/ s_std (scored_at df i) = Fin 0 ->
  ~ In (s_date (scored_at df i)) (map a_date (detect_anomalies df threshold)).
Proof.
  intros Hi H.
  assert (Hz : z_score (scored_at df i) = NaN).
  { destruct H as [H|H];
      [now apply z_score_undefined_std | now apply z_score_zero_std]. }
  intros Hin. apply (reported_row df threshold i Hi) in Hin.
  rewrite Hz, fgtb_NaN_l in Hin. discriminate.
Qed.

(** A z-score is undefined or a finite number, never infinite. *)
Lemma z_score_cases (df : sales_frame) (i : nat) :
  (i < length (groupby_sum df))%nat ->
  z_score (scored_at df i) = NaN \/
  exists m s, s_mean (scored_at df i) = Fin m /\
              s_std (scored_at df i) = Fin s /\ 0 < s /\
              z_score (scored_at df i)
              = Fin (Rabs ((s_quantity (scored_at df i) - m) / s)).
Proof.
  intros Hi.
  assert (Hq : (i < length (map snd (groupby_sum df)))%nat)
    by now rewrite length_map.
  destruct (scored_at_stats df i Hq) as [Hm Hs].
  set (q := map snd (groupby_sum df)) in *.
  destruct (30 <=? i + 1)%nat eqn:E.
  2:{ left. now apply z_score_undefined_std. }
  apply Nat.leb_le in E.
  destruct (window_std_cases (window_at 30 i q)) as [Hw | (s & Hw & Hpos)].
  { left. apply z_score_undefined_std. congruence. }
  destruct (Req_dec_T s 0) as [Z|NZ].
  { left. apply z_score_zero_std; [exact Hi | congruence]. }
  destruct (window_mean_cases (window_at 30 i q)) as [[En _] | [_ Em]].
  { apply (f_equal (@length R)) in En.
    rewrite window_at_length in En by lia. discriminate. }
  right. exists (Rmean (window_at 30 i q)), s.
  rewrite Hm, Hs, Hw, Em. repeat split; [lra |].
  change (z_score (scored_at df i))
    with (fabs (fdiv (fsub (Fin (nth i q 0)) (s_mean (scored_at df i)))
                     (s_std (scored_at df i)))).
  rewrite Hm, Hs, Hw, Em. cbn [s_quantity scored_at]. fold q. simpl.
  destruct (Req_dec_T s 0); [contradiction | reflexivity].
Qed.

(** C8.  A day whose rolling 30-day standard deviation is zero or undefined
    is never reported, whatever the threshold: its z-score is NaN, not an
    infinite deviation; and every reported z-score is a finite number
    obtained by dividing by a positive standard deviation. *)
Theorem degenerate_std_never_flagged (df : sales_frame) (threshold : float) :
  (forall i,
      (i < length (groupby_sum df))%nat ->
      s_std (scored_at df i) = NaN \/ s_std (scored_at df i) = Fin 0 ->
      z_score (scored_at df i) = NaN /\
      ~ In (s_date (scored_at df i))
           (map a_date (detect_anomalies df threshold)))
  /\ (forall a, In a (detect_anomalies df threshold) ->
                exists z, a_z_score a = Fin z).
Proof.
  split.
  - intros i Hi H.
    assert (Hz : z_score (scored_at df i) = NaN).
    { destruct H as [H|H];
        [now apply z_score_undefined_std | now apply z_score_zero_std]. }
    split; [exact Hz | now apply degenerate_std_flag_free].
  - intros a Ha. unfold detect_anomalies in Ha. apply in_map_iff in Ha.
    destruct Ha as (row & <- & Hrow). cbn [a_z_score].
    apply filter_In in Hrow. destruct Hrow as [Hrow Hz].
    apply scored_rows_In in Hrow. destruct Hrow as (i & Hi & ->).
    destruct (z_score_cases df i Hi) as [E | (m & s & _ & _ & _ & E)].
    + rewrite E, fgtb_NaN_l in Hz. discriminate.
    + eexists. exact E.
Qed.

(** C2 (as the code has it).  The rolling mean and standard deviation of a
    day are taken over the trailing window of 30 observations that ends at,
    and includes, that day (no later observation enters); they are undefined
    for the first 29 observations, and no date among the first 29
    chronological observations appears in the anomaly list, whatever the
    threshold. *)
Theorem detect_anomalies_trailing_window
        (df : sales_frame) (threshold : float) :
  let q := map snd (groupby_sum df) in
  let dates := map fst (groupby_sum df) in
  (forall i, (i < length q)%nat ->
     s_mean (scored_at df i)
     = (if (30 <=? i + 1)%nat then window_mean (window_at 30 i q) else NaN) /\
     s_std (scored_at df i)
     = (if (30 <=? i + 1)%nat then window_std (window_at 30 i q) else NaN) /\
     ((30 <= i + 1)%nat ->
      window_at 30 i q = firstn 30 (skipn (i - 29) q) /\
      length (window_at 30 i q) = 30%nat /\
      nth_error (window_at 30 i q) 29 = nth_error q i))
  /\ (forall i, (i < 29)%nat -> (i < length dates)%nat ->
        ~ In (nth i dates 0%Z) (map a_date (detect_anomalies df threshold))).
Proof.
  intros q dates. split.
  - intros i Hi. destruct (scored_at_stats df i Hi) as [Hm Hs].
    split; [exact Hm | split; [exact Hs |]].
    intros H. split; [| split].
    + unfold window_at. do 2 f_equal. lia.
    + apply window_at_length; lia.
    + apply (window_at_current 30 i q); lia.
  - intros i H Hi Hin. unfold dates in Hi. rewrite length_map in Hi.
    destruct (early_rows_undefined df i H Hi) as [_ Hs].
    destruct (degenerate_std_flag_free df threshold i Hi (or_introl Hs)).
    exact Hin.
Qed.

Lemma sqrt_30_bounds : 0 < sqrt 30 < 6.
Proof.
  split; [apply sqrt_lt_R0; lra |].
  rewrite <- (sqrt_square 6) by lra. apply sqrt_lt_1; lra.
Qed.

Lemma late_spike_grouped : groupby_sum late_spike = late_spike.
Proof.
  apply groupby_sum_ascending.
  change (map fst late_spike) with (map Z.of_nat (seq 0 30)).
  apply ascending_seq.
Qed.

Lemma late_spike_window :
  window_at 30 29 (map snd late_spike) = repeat 0 29 ++ [30].
Proof. reflexivity. Qed.

Lemma late_spike_mean : Rmean (repeat 0 29 ++ [30]) = 1.
Proof.
  unfold Rmean. rewrite Rsum_app, Rsum_repeat, length_app, repeat_length.
  replace (INR (29 + length [30])) with 30
    by (rewrite INR_IZR_INZ; reflexivity).
  replace (INR 29) with 29 by (rewrite INR_IZR_INZ; reflexivity).
  simpl. lra.
Qed.

Lemma late_spike_var : Rvar (repeat 0 29 ++ [30]) = 30.
Proof.
  unfold Rvar. rewrite late_spike_mean, map_app, map_repeat, Rsum_app,
    Rsum_repeat, length_app, repeat_length.
  replace (INR (29 + length [30] - 1)) with 29
    by (rewrite INR_IZR_INZ; reflexivity).
  replace (INR 29) with 29 by (rewrite INR_IZR_INZ; reflexivity).
  simpl. lra.
Qed.

(** C2, the claim as stated fails: the 30th chronological observation
    already has rolling statistics (its own value included) and is reported
    when it deviates: 29 days without sales followed by a day selling 30
    units score 29 / sqrt 30 > 2.5 on that 30th day. *)
Lemma thirtieth_observation_flagged :
  nth_error (map fst (groupby_sum late_spike)) 29 = Some 29%Z /\
  In 29%Z (map a_date (detect_anomalies late_spike (Fin 2.5))).
Proof.
  split; [rewrite late_spike_grouped; reflexivity |].
  apply detect_anomalies_dates. exists 29%nat.
  assert (Hq : (29 < length (map snd (groupby_sum late_spike)))%nat)
    by (rewrite late_spike_grouped; simpl; lia).
  destruct (scored_at_stats late_spike 29 Hq) as [Hm Hs].
  rewrite late_spike_grouped in Hm, Hs.
  change (30 <=? 29 + 1)%nat with true in Hm, Hs.
  rewrite late_spike_window in Hm, Hs.
  unfold window_mean in Hm. change (repeat 0 29 ++ [30]) with
    (0 :: repeat 0 28 ++ [30]) in Hm at 1. cbv iota in Hm.
  rewrite late_spike_mean in Hm.
  unfold window_std in Hs. rewrite length_app, repeat_length in Hs.
  change (29 + length [30] <=? 1)%nat with false in Hs.
  rewrite late_spike_var in Hs.
  split; [rewrite late_spike_grouped; simpl; lia |].
  split; [unfold scored_at; cbn [s_date]; now rewrite late_spike_grouped |].
  change (z_score (scored_at late_spike 29))
    with (fabs (fdiv (fsub (Fin (nth 29 (map snd (groupby_sum late_spike)) 0))
                           (s_mean (scored_at late_spike 29)))
                     (s_std (scored_at late_spike 29)))).
  rewrite Hm, Hs, late_spike_grouped.
  change (nth 29 (map snd late_spike) 0) with 30.
  pose proof sqrt_30_bounds as [Hp Hlt].
  unfold fgtb. simpl.
  destruct (Req_dec_T (sqrt 30) 0) as [Z|_]; [lra |]. simpl.
  destruct (Rlt_dec 2.5 (Rabs ((30 + - (1)) / sqrt 30))) as [_|N];
    [reflexivity | exfalso; apply N].
  rewrite Rabs_right.
  - apply Rmult_lt_reg_r with (sqrt 30); [exact Hp |].
    unfold Rdiv. rewrite Rmult_assoc, Rinv_l by lra. lra.
  - apply Rle_ge. apply Rmult_le_pos; [lra |].
    left. now apply Rinv_0_lt_compat.
Qed.

(** ** Recommendation generator *)

Lemma py_max2_Fin (a b : R) : py_max2 (Fin a) (Fin b) = Fin (Rmax a b).
Proof.
  unfold py_max2, fgtb, fltb, Rmax.
  destruct (Rlt_dec a b), (Rle_dec a b);
    try reflexivity; try lra; f_equal; lra.
Qed.

Lemma py_min2_Fin (a b : R) : py_min2 (Fin a) (Fin b) = Fin (Rmin a b).
Proof.
  unfold py_min2, fltb, Rmin.
  destruct (Rlt_dec b a), (Rle_dec a b);
    try reflexivity; try lra; f_equal; lra.
Qed.

Lemma fold_py_max2_Fin (t : list R) (x : R) :
  fold_left py_max2 (map Fin t) (Fin x) = Fin (fold_left Rmax t x).
Proof.
  revert x; induction t as [|y t IH]; intros x; simpl; [reflexivity |].
  now rewrite py_max2_Fin, IH.
Qed.

Lemma fold_py_min2_Fin (t : list R) (x : R) :
  fold_left py_min2 (map Fin t) (Fin x) = Fin (fold_left Rmin t x).
Proof.
  revert x; induction t as [|y t IH]; intros x; simpl; [reflexivity |].
  now rewrite py_min2_Fin, IH.
Qed.

Lemma py_max_Fin (l : list R) :
  l <> [] -> py_max (map Fin l) = ret (Fin (Rmax_of l)).
Proof.
  destruct l as [|x t]; [congruence | intros _]. simpl.
  now rewrite fold_py_max2_Fin.
Qed.

Lemma py_min_Fin (l : list R) :
  l <> [] -> py_min (map Fin l) = ret (Fin (Rmin_of l)).
Proof.
  destruct l as [|x t]; [congruence | intros _]. simpl.
  now rewrite fold_py_min2_Fin.
Qed.

Lemma np_mean_Fin (l : list R) :
  l <> [] -> np_mean (map Fin l) = Fin (Rmean l).
Proof.
  intros H. unfold np_mean. rewrite fsum_Fin, length_map. unfold of_nat, fdiv.
  destruct (Req_dec_T (INR (length l)) 0) as [E|_]; [|reflexivity].
  exfalso. destruct l; [congruence |].
  pose proof (INR_pos_of_lt (length (r :: l)) ltac:(simpl; lia)). lra.
Qed.

Lemma fold_Rmax_le_sum (t : list R) (x : R) :
  0 <= x -> Forall (fun y => 0 <= y) t -> fold_left Rmax t x <= x + Rsum t.
Proof.
  revert x; induction t as [|y t IH]; intros x Hx Ht; simpl; [lra |].
  inversion Ht as [|? ? Hy Ht']; subst.
  assert (0 <= Rmax x y) by (unfold Rmax; destruct (Rle_dec x y); lra).
  specialize (IH (Rmax x y) H Ht').
  assert (Rmax x y <= x + y) by (unfold Rmax; destruct (Rle_dec x y); lra).
  lra.
Qed.

Lemma Rmax_of_le_sum (l : list R) :
  Forall (fun y => 0 <= y) l -> Rmax_of l <= Rsum l.
Proof.
  destruct l as [|x t]; simpl; [lra |]. intros H.
  inversion H; subst. now apply fold_Rmax_le_sum.
Qed.

Lemma predictions_finite (forecasts : list ForecastPoint) :
  Forall (fun f => nonneg_finite (predicted_quantity f)) forecasts ->
  map predicted_quantity forecasts = map Fin (predicted_reals forecasts) /\
  Forall (fun y => 0 <= y) (predicted_reals forecasts).
Proof.
  unfold predicted_reals.
  induction 1 as [|f l Hf _ [IH1 IH2]]; simpl; [split; constructor |].
  destruct (predicted_quantity f) as [r| | |] eqn:E; simpl in Hf;
    try contradiction.
  rewrite IH1. split; [reflexivity |]. constructor; assumption.
Qed.

(** What [generate_recommendations] returns on finite inputs. *)
Lemma generate_recommendations_finite (store_id : Z)
      (forecasts : list ForecastPoint) (inv : InventoryParameters)
      (rp ss : R) :
  forecasts <> [] ->
  Forall (fun f => nonneg_finite (predicted_quantity f)) forecasts ->
  reorder_point inv = Fin rp -> safety_stock inv = Fin ss ->
  let q := predicted_reals forecasts in
  generate_recommendations store_id forecasts inv
  = inr ((if Rlt_dec (Rmean q * 1.5) (Rmax_of q)
          then [high_demand_alert
                  (Rtrunc ((Rmax_of q + - Rmean q) / Rmean q * 100))]
          else [])
         ++ (if Rlt_dec (Rmin_of q) (Rmean q * 0.5)
             then [low_demand_alert] else [])
         ++ [inventory_optimization (Rtrunc rp) (Rtrunc ss)]).
Proof.
  intros Hne Hall Hrp Hss q.
  destruct (predictions_finite forecasts Hall) as [Hp Hpos]. fold q in Hp, Hpos.
  assert (Hq : q <> []).
  { unfold q, predicted_reals. destruct forecasts; [congruence | discriminate]. }
  unfold generate_recommendations.
  rewrite Hp, Hrp, Hss, (np_mean_Fin q Hq), (py_max_Fin q Hq),
    (py_min_Fin q Hq).
  cbn [bind ret py_int fmul fgtb fltb].
  destruct (Rlt_dec (Rmin_of q) (Rmean q * 0.5)) as [Hlo|Hlo];
    (destruct (Rlt_dec (Rmean q * 1.5) (Rmax_of q)) as [Hhi|Hhi];
     [|reflexivity]).
  all: cbn [bind ret].
  all: cut (Rmean q <> 0);
    [ intros Hm; cbn [fsub fneg fadd fdiv];
      destruct (Req_dec_T (Rmean q) 0) as [Z|_]; [contradiction |];
      reflexivity | ].
  all: pose proof (Rmax_of_le_sum q Hpos) as Hle.
  all: assert (Hn : 0 < INR (length q))
    by (apply INR_pos_of_lt; destruct q; [congruence | simpl; lia]).
  all: assert (Hmean : Rmean q * INR (length q) = Rsum q)
    by (unfold Rmean; field; lra).
  all: assert (0 <= Rmean q)
    by (unfold Rmean; apply Rmult_le_pos;
        [clear -Hpos; induction Hpos; simpl; lra
        | left; now apply Rinv_0_lt_compat]).
  all: intros Z; rewrite Z in *; lra.
Qed.




(** ** Forecaster *)

Lemma fmul_comm (x y : float) : fmul x y = fmul y x.
Proof. destruct x, y; simpl; try reflexivity. f_equal. lra. Qed.

Lemma py_max2_zero_nonneg (x : float) : fge (py_max2 (Fin 0) x) (Fin 0).
Proof.
  unfold py_max2, fgtb. destruct x as [r| | |]; simpl; try lra; try exact I.
  destruct (Rlt_dec 0 r); simpl; lra.
Qed.

Lemma iloc_neg_ok {A} (k : nat) (s : list A) :
  (0 < k <= length s)%nat -> exists a, iloc_neg k s = ret a.
Proof.
  intros H. unfold iloc_neg.
  replace (k <=? length s)%nat with true by (symmetry; apply Nat.leb_le; lia).
  destruct (nth_error s (length s - k)) as [a|] eqn:E; [now exists a |].
  apply nth_error_None in E. lia.
Qed.

Lemma iloc_neg_or_mean (k : nat) (q : list float) :
  (0 < k)%nat ->
  exists a, (if (k <=? length q)%nat then iloc_neg k q
             else ret (series_mean q)) = ret a.
Proof.
  intros H. destruct (k <=? length q)%nat eqn:E.
  - apply Nat.leb_le in E. apply iloc_neg_ok. lia.
  - now eexists.
Qed.

Lemma date_max_app (l : list Z) (d : Z) :
  date_max l = Some d -> date_max (l ++ [(d + 1)%Z]) = Some (d + 1)%Z.
Proof.
  destruct l as [|x t]; [discriminate |]. simpl. intros H. injection H as H.
  rewrite fold_left_app. simpl. rewrite H. f_equal. lia.
Qed.

Lemma date_max_nonempty (l : list Z) : l <> [] -> exists d, date_max l = Some d.
Proof. destruct l; [congruence | intros _; now eexists]. Qed.

Lemma fold_max_ascending (t : list Z) (x : Z) :
  ascending (x :: t) -> fold_left Z.max t x = last (x :: t) 0%Z.
Proof.
  unfold ascending. revert x; induction t as [|y t IH]; intros x H;
    [reflexivity |].
  inversion H as [|? ? Hs Hf]; subst. inversion Hf as [|? ? Hxy _]; subst.
  cbn [fold_left]. replace (Z.max x y) with y by lia.
  rewrite IH by exact Hs. reflexivity.
Qed.

Lemma date_max_ascending (l : list Z) :
  ascending l -> l <> [] -> date_max l = Some (last l 0%Z).
Proof.
  destruct l as [|x t]; [congruence |]. intros H _. simpl date_max.
  now rewrite fold_max_ascending.
Qed.

Lemma ascending_skipn (k : nat) (l : list Z) :
  ascending l -> ascending (skipn k l).
Proof.
  intros H. rewrite <- (firstn_skipn k l) in H.
  now apply ascending_app_inv in H.
Qed.

Lemma last_skipn {A} (k : nat) (l : list A) (d : A) :
  (k < length l)%nat -> last (skipn k l) d = last l d.
Proof.
  revert k; induction l as [|x l IH]; intros k H; [simpl in H; lia |].
  destruct k as [|k]; [reflexivity |].
  simpl in H. cbn [skipn]. rewrite IH by lia.
  destruct l; [simpl in H; lia | reflexivity].
Qed.

Lemma tail_nonempty {A} (n : nat) (l : list A) :
  (0 < n)%nat -> l <> [] -> tail n l <> [].
Proof.
  intros Hn Hl E. apply (f_equal (@length A)) in E.
  unfold tail in E. rewrite length_skipn in E.
  assert (0 < length l)%nat by (destruct l; [congruence | simpl; lia]).
  change (length (@nil A)) with 0%nat in E. lia.
Qed.

(** The window copied by [forecast_demand] ends at the last date of an
    ascending frame. *)
Lemma tail_date_max (f : frame) :
  ascending (map date f) -> f <> [] ->
  date_max (map date (tail 30 f)) = Some (last_date f).
Proof.
  intros H Hf. unfold tail, last_date.
  rewrite <- skipn_map.
  assert (Hlen : (length f - 30 < length (map date f))%nat).
  { rewrite length_map. destruct f; [congruence | simpl; lia]. }
  rewrite date_max_ascending.
  - now rewrite last_skipn.
  - now apply ascending_skipn.
  - intros E. apply (f_equal (@length Z)) in E.
    rewrite length_skipn in E. change (length (@nil Z)) with 0%nat in E.
    rewrite length_map in *. lia.
Qed.

Section ForecasterProperties.

Variables Scaler Model : Type.
Variable scaler_transform : Scaler -> list float -> list float.
Variable predict : Model -> list float -> float.

Let step := forecast_step scaler_transform predict.
Let loop := forecast_loop scaler_transform predict.
Let forecast := forecast_demand scaler_transform predict.

(** On a non-empty window, with a fitted scaler, the next day is forecast:
    its date is the day after the latest date of the window. *)
Lemma next_day_ok (self : DemandForecaster Scaler Model) (model : Model)
      (f : frame) (sc : Scaler) (d : Z) :
  f <> [] ->
  dict_get "demand" (scalers self) = ret sc ->
  date_max (map date f) = Some d ->
  exists pt row,
    next_day scaler_transform predict self model f = inr (pt, row) /\
    fp_date pt = (d + 1)%Z /\ date row = (d + 1)%Z /\ point_ok pt.
Proof.
  intros Hf Hsc Hd. unfold next_day. rewrite Hd, Hsc.
  assert (Hq : (0 < length (map quantity f))%nat).
  { rewrite length_map. destruct f; [congruence | simpl; lia]. }
  destruct (iloc_neg_ok 1 (map quantity f) ltac:(lia)) as [l1 ->].
  destruct (iloc_neg_or_mean 7 (map quantity f) ltac:(lia)) as [l7 ->].
  destruct (iloc_neg_or_mean 30 (map quantity f) ltac:(lia)) as [l30 ->].
  cbn [bind ret option_map].
  do 2 eexists. split; [reflexivity |]. cbn [fp_date date].
  split; [reflexivity | split; [reflexivity |]].
  unfold point_ok. cbn [predicted_quantity confidence_interval_lower
                        confidence_interval_upper].
  split; [apply py_max2_zero_nonneg | split; apply fmul_comm].
Qed.

(** A successful step allocates the extended window and leaves every
    existing frame in place. *)
Lemma forecast_step_ok (self : DemandForecaster Scaler Model) (model : Model)
      (h : heap) (cur : ref) (f : frame) (pt : ForecastPoint)
      (row : FeatureRow) :
  nth_error h cur = Some f ->
  next_day scaler_transform predict self model f = inr (pt, row) ->
  step self model cur h = (inr (pt, length h), h ++ [f ++ [row]]).
Proof.
  intros Hf Hn. unfold step, forecast_step, hbind, frame_get, lift, pd_concat,
    frame_alloc, hret.
  rewrite Hf. cbv beta iota. rewrite Hn. cbv beta iota. cbn [snd fst].
  unfold hbind, frame_get. rewrite Hf. reflexivity.
Qed.

(** A step that raises leaves the heap as it is. *)
Lemma forecast_step_raises (self : DemandForecaster Scaler Model)
      (model : Model) (h : heap) (cur : ref) :
  (nth_error h cur = None \/
   exists f e, nth_error h cur = Some f /\
               next_day scaler_transform predict self model f = inl e) ->
  exists e, step self model cur h = (inl e, h).
Proof.
  unfold step, forecast_step, hbind, frame_get, lift.
  intros [H | (f & e & Hf & Hn)].
  - rewrite H. now eexists.
  - rewrite Hf, Hn. now eexists.
Qed.

Lemma forecast_step_cases (self : DemandForecaster Scaler Model)
      (model : Model) (h : heap) (cur : ref) :
  (exists e, step self model cur h = (inl e, h)) \/
  (exists f pt row,
      nth_error h cur = Some f /\
      next_day scaler_transform predict self model f = inr (pt, row) /\
      step self model cur h = (inr (pt, length h), h ++ [f ++ [row]])).
Proof.
  destruct (nth_error h cur) as [f|] eqn:Hf.
  - destruct (next_day scaler_transform predict self model f)
      as [e | [pt row]] eqn:Hn.
    + left. apply forecast_step_raises. right. now exists f, e.
    + right. exists f, pt, row. split; [reflexivity | split; [exact Hn |]].
      now apply forecast_step_ok.
  - left. apply forecast_step_raises. now left.
Qed.

Lemma nth_error_fresh (h : heap) (f : frame) :
  nth_error (h ++ [f]) (length h) = Some f.
Proof. rewrite nth_error_app2, Nat.sub_diag by lia. reflexivity. Qed.

(** The loop only allocates: the final heap extends the initial one. *)
Lemma forecast_loop_extends (self : DemandForecaster Scaler Model)
      (model : Model) (n : nat) :
  forall (h : heap) (cur : ref) (acc : list ForecastPoint),
  exists ext, snd (loop self model n cur acc h) = h ++ ext.
Proof.
  induction n as [|n IH]; intros h cur acc.
  - exists []. simpl. now rewrite app_nil_r.
  - unfold loop. cbn [forecast_loop]. unfold hbind. fold step. fold loop.
    destruct (forecast_step_cases self model h cur)
      as [[e ->] | (f & pt & row & _ & _ & ->)].
    + exists []. simpl. now rewrite app_nil_r.
    + cbn [fst snd].
      destruct (IH (h ++ [f ++ [row]]) (length h) (acc ++ [pt])) as [ext ->].
      exists ([f ++ [row]] ++ ext). now rewrite app_assoc.
Qed.

(** The forecast depends on the rows of the window only, not on where the
    window lives on the heap. *)
Lemma forecast_loop_content (self : DemandForecaster Scaler Model)
      (model : Model) (n : nat) :
  forall (h1 h2 : heap) (c1 c2 : ref) (acc : list ForecastPoint),
    nth_error h1 c1 = nth_error h2 c2 ->
    fst (loop self model n c1 acc h1) = fst (loop self model n c2 acc h2).
Proof.
  induction n as [|n IH]; intros h1 h2 c1 c2 acc H; [reflexivity |].
  unfold loop. cbn [forecast_loop]. unfold hbind. fold step. fold loop.
  destruct (forecast_step_cases self model h1 c1)
    as [[e1 E1] | (f1 & pt1 & row1 & Hf1 & Hn1 & E1)];
    destruct (forecast_step_cases self model h2 c2)
      as [[e2 E2] | (f2 & pt2 & row2 & Hf2 & Hn2 & E2)].
  - rewrite E1, E2. cbn [fst].
    revert E1 E2. unfold step, forecast_step, hbind, frame_get, lift. rewrite H.
    destruct (nth_error h2 c2) as [f|]; [|congruence].
    destruct (next_day scaler_transform predict self model f) as [e|s];
      [congruence |].
    unfold pd_concat, hbind, frame_get, frame_alloc, hret. rewrite H.
    destruct (nth_error h2 c2); discriminate.
  - exfalso. revert E1. rewrite (forecast_step_ok self model h1 c1 f2 pt2 row2);
      [discriminate | congruence | exact Hn2].
  - exfalso. revert E2. rewrite (forecast_step_ok self model h2 c2 f1 pt1 row1);
      [discriminate | congruence | exact Hn1].
  - assert (f1 = f2) by congruence. subst f2.
    rewrite Hn1 in Hn2. injection Hn2 as <- <-.
    rewrite E1, E2. cbn [fst snd]. apply IH.
    now rewrite !nth_error_fresh.
Qed.

(** The points appended by [n] iterations from a window whose latest date
    is [d]. *)
Lemma forecast_loop_points (self : DemandForecaster Scaler Model)
      (model : Model) (sc : Scaler) (n : nat) :
  dict_get "demand" (scalers self) = ret sc ->
  forall (h : heap) (cur : ref) (f : frame) (d : Z)
         (acc : list ForecastPoint),
    nth_error h cur = Some f -> f <> [] ->
    date_max (map date f) = Some d ->
    exists pts,
      fst (loop self model n cur acc h) = inr (acc ++ pts) /\
      map fp_date pts
      = map (fun i => (d + 1 + Z.of_nat i)%Z) (seq 0 n) /\
      Forall point_ok pts.
Proof.
  intros Hsc. induction n as [|n IH]; intros h cur f d acc Hf Hne Hd.
  - exists []. simpl. rewrite app_nil_r. repeat split. constructor.
  - destruct (next_day_ok self model f sc d Hne Hsc Hd)
      as (pt & row & Hn & Hpd & Hrd & Hok).
    unfold loop. cbn [forecast_loop]. unfold hbind. fold step. fold loop.
    rewrite (forecast_step_ok self model h cur f pt row Hf Hn). cbn [fst snd].
    destruct (IH (h ++ [f ++ [row]]) (length h) (f ++ [row]) (d + 1)%Z
                 (acc ++ [pt]))
      as (pts & E & Hdates & Hall).
    + apply nth_error_fresh.
    + destruct f; discriminate.
    + rewrite map_app. cbn [map]. rewrite Hrd. now apply date_max_app.
    + exists (pt :: pts). rewrite E, <- app_assoc. split; [reflexivity |].
      split; [| constructor; assumption].
      cbn [map seq]. rewrite Hpd, Hdates. f_equal; [lia |].
      rewrite <- seq_shift, map_map. apply map_ext. intros i. lia.
Qed.

Lemma forecast_demand_allocated (self : DemandForecaster Scaler Model)
      (model : Model) (h : heap) (df : ref) (f : frame) (days_ahead : Z) :
  nth_error h df = Some f ->
  forecast self model df days_ahead h
  = loop self model (Z.to_nat days_ahead) (length h) [] (h ++ [tail 30 f]).
Proof.
  intros Hf. unfold forecast, forecast_demand, tail_copy.
  unfold hbind at 1. unfold hbind, frame_get, frame_alloc. rewrite Hf.
  reflexivity.
Qed.

Lemma forecast_demand_dangling (self : DemandForecaster Scaler Model)
      (model : Model) (h : heap) (df : ref) (days_ahead : Z) :
  nth_error h df = None ->
  forecast self model df days_ahead h = (inl (KeyError "frame"), h).
Proof.
  intros Hf. unfold forecast, forecast_demand, tail_copy.
  unfold hbind at 1. unfold hbind, frame_get, frame_alloc. rewrite Hf.
  reflexivity.
Qed.

End ForecasterProperties.

Section ForecastDemand.

Variables Scaler Model : Type.
Variable scaler_transform : Scaler -> list float -> list float.
Variable predict : Model -> list float -> float.


(** C10.  [forecast_demand] never writes into its input: whatever the heap,
    the frame and the horizon (and also when it raises), the heap after the
    call is the heap before it followed by the frames the call allocated,
    so every frame that existed, the input among them, is unchanged; and
    forecasting again from the same input returns the same result. *)
Theorem forecast_demand_preserves_input
        (self : DemandForecaster Scaler Model) (model : Model)
        (h : heap) (df : ref) (days_ahead : Z) :
  let out := forecast_demand scaler_transform predict self model df
                             days_ahead h in
  (exists allocated, snd out = h ++ allocated)
  /\ (forall r f, nth_error h r = Some f -> nth_error (snd out) r = Some f)
  /\ fst (forecast_demand scaler_transform predict self model df days_ahead
                          (snd out))
     = fst out.
Proof.
  intros out. subst out.
  destruct (nth_error h df) as [f|] eqn:Hf.
  - rewrite (forecast_demand_allocated Scaler Model scaler_transform predict
               self model h df f days_ahead Hf).
    destruct (forecast_loop_extends Scaler Model scaler_transform predict
                self model (Z.to_nat days_ahead) (h ++ [tail 30 f]) (length h)
                []) as [ext E].
    rewrite E, <- app_assoc.
    assert (Hkeep : forall r g, nth_error h r = Some g ->
                      nth_error (h ++ [tail 30 f] ++ ext) r = Some g).
    { intros r g Hr. rewrite nth_error_app1; [exact Hr |].
      apply nth_error_Some. congruence. }
    split; [now eexists | split; [exact Hkeep |]].
    pose proof (forecast_demand_allocated Scaler Model scaler_transform
                  predict self model (h ++ [tail 30 f] ++ ext) df f
                  days_ahead (Hkeep df f Hf)) as X.
    etransitivity; [apply (f_equal fst); exact X |].
    apply forecast_loop_content. now rewrite !nth_error_fresh.
  - rewrite (forecast_demand_dangling Scaler Model scaler_transform predict
               self model h df days_ahead Hf).
    cbn [fst snd]. split; [exists []; now rewrite app_nil_r |].
    split; [auto |].
    now rewrite (forecast_demand_dangling Scaler Model scaler_transform
                   predict self model h df days_ahead Hf).
Qed.

End ForecastDemand.



(** ** The pieces fit together *)

(** The calendar accessors on known days: 1970-01-01 was a Thursday,
    2023-12-31 a Sunday, 2024-01-01 a Monday, and 2024 has a 29 February. *)
Example calendar_epoch :
  dayofweek 0 = 3%Z /\ month_of 0 = 1%Z /\ quarter_of 0 = 1%Z.
Proof. repeat split. Qed.

Example calendar_year_end :
  dayofweek 19722 = 6%Z /\ month_of 19722 = 12%Z /\ quarter_of 19722 = 4%Z /\
  dayofweek 19723 = 0%Z /\ month_of 19723 = 1%Z /\ quarter_of 19723 = 1%Z.
Proof. repeat split. Qed.

Example calendar_leap_day :
  month_of 19782 = 2%Z /\ month_of 19783 = 3%Z /\ quarter_of 19783 = 1%Z.
Proof. repeat split. Qed.

(** The feature frame is in chronological order with one row per date, so it
    meets what the trainer's split and the forecaster assume. *)
Lemma create_features_ascending (df : list SalesRecord) :
  ascending (map date (create_features df)).
Proof.
  unfold create_features. fold (daily_quantity df).
  rewrite map_map. cbn [date].
  rewrite (map_nth_seq 0%Z _ (map fst (daily_quantity df)) eq_refl).
  apply groupby_sum_is_ascending.
Qed.

(** Training stores the scaler that forecasting looks up. *)
Lemma toy_training_stores_scaler :
  exists model metrics self',
    toy_train_model unit_forecaster (flat_frame (Fin 1) 100)
                    "gradient_boosting"
    = inr (model, metrics, self') /\
    dict_get "demand" (scalers self') = ret tt.
Proof.
  destruct (train_model_returns unit unit (fun _ => tt) (fun _ x => x)
              (fun _ _ => tt) (fun _ _ => tt) first_feature (fun _ => [])
              (fun _ _ => NaN) (fun _ _ => NaN) (fun _ _ => NaN)
              unit_forecaster (flat_frame (Fin 1) 100)
              "gradient_boosting"%string)
    as (m & me & s' & E & _ & _ & Hs).
  - rewrite masked_rows_flat. unfold flat_frame.
    rewrite length_map, length_seq. lia.
  - exists m, me, s'. split; [exact E |]. rewrite Hs. now destruct (_ : unit).
Qed.

(** A month of constant sales has a zero rolling deviation on its 30th day
    and is not reported. *)
Lemma constant_month_not_flagged (threshold : float) :
  let df := map (fun i => (Z.of_nat i, 50)) (seq 0 30) in
  s_std (scored_at df 29) = Fin 0 /\ detect_anomalies df threshold = [].
Proof.
  intros df.
  assert (G : groupby_sum df = df).
  { apply groupby_sum_ascending. unfold df. rewrite map_map. simpl map.
    apply (ascending_seq 0 30). }
  assert (Hq : map snd df = repeat 50 30)
    by (unfold df; rewrite map_map; apply (map_const_seq 50 0 30)).
  assert (Hs : s_std (scored_at df 29) = Fin 0).
  { destruct (scored_at_stats df 29) as [_ Hs].
    - rewrite G, Hq, repeat_length. lia.
    - rewrite Hs, G, Hq. change (30 <=? 29 + 1)%nat with true.
      change (window_at 30 29 (repeat 50 30)) with (repeat 50 30).
      apply window_std_repeat. lia. }
  split; [exact Hs |].
  destruct (detect_anomalies df threshold) as [|a l] eqn:E; [reflexivity |].
  exfalso.
  assert (Hin : In (a_date a) (map a_date (detect_anomalies df threshold)))
    by (rewrite E; now left).
  apply detect_anomalies_dates in Hin. destruct Hin as (i & Hi & _ & Hz).
  destruct (Nat.lt_ge_cases i 29) as [L|L].
  - destruct (early_rows_undefined df i L Hi) as [_ Hu].
    rewrite (z_score_undefined_std df i Hu), fgtb_NaN_l in Hz. discriminate.
  - assert (i = 29)%nat by (rewrite G in Hi; unfold df in Hi;
                            rewrite length_map, length_seq in Hi; lia).
    subst i.
    rewrite (z_score_zero_std df 29 Hi Hs), fgtb_NaN_l in Hz. discriminate.
Qed.


(** * Further properties of the engine *)

(** ** Daily aggregation *)

Lemma assoc_get_below (d : Z) (acc : list (Z * R)) :
  Forall (fun r => (d < fst r)%Z) acc -> assoc_get d acc = None.
Proof.
  induction 1 as [|[d' q'] t Hd _ IH]; simpl; [reflexivity |].
  simpl in Hd. destruct (d =? d')%Z eqn:E; [apply Z.eqb_eq in E; lia | exact IH].
Qed.

(** Inserting a row adds its quantity to the entry of its date and leaves
    the other dates alone. *)
Lemma gb_insert_get (d : Z) (q : R) (acc : list (Z * R)) (x : Z) :
  ascending (map fst acc) ->
  assoc_get x (gb_insert d q acc)
  = if (x =? d)%Z
    then Some (match assoc_get d acc with Some s => s + q | None => q end)
    else assoc_get x acc.
Proof.
  unfold ascending. induction acc as [|[d' q'] t IH]; intros H.
  - simpl. destruct (x =? d)%Z; reflexivity.
  - inversion H as [|? ? Hs Hf]; subst.
    cbn [gb_insert]. destruct (d <? d')%Z eqn:E1.
    + apply Z.ltb_lt in E1. cbn [assoc_get].
      destruct (x =? d)%Z eqn:Ex; [|reflexivity].
      destruct (d =? d')%Z eqn:E2; [apply Z.eqb_eq in E2; lia |].
      rewrite assoc_get_below; [reflexivity |].
      rewrite Forall_forall in *. intros r Hr.
      specialize (Hf (fst r) (in_map fst _ _ Hr)). lia.
    + destruct (d =? d')%Z eqn:E2.
      * apply Z.eqb_eq in E2. subst d'. cbn [assoc_get].
        rewrite Z.eqb_refl. destruct (x =? d)%Z; reflexivity.
      * cbn [assoc_get]. rewrite E2. destruct (x =? d')%Z eqn:Ex'.
        -- apply Z.eqb_eq in Ex'. subst d'.
           destruct (x =? d)%Z eqn:Ex; [|reflexivity].
           apply Z.eqb_eq in Ex. apply Z.eqb_neq in E2. lia.
        -- now apply IH.
Qed.

Lemma group_total_cons (d : Z) (r : Z * R) (rows : list (Z * R)) :
  group_total d (rows ++ [r])
  = if (fst r =? d)%Z then group_total d rows + snd r else group_total d rows.
Proof.
  unfold group_total. rewrite filter_app, map_app, Rsum_app. simpl.
  destruct (fst r =? d)%Z; simpl; lra.
Qed.

(** The entry of a date is the total of the rows of that date; a date
    without rows has no entry. *)
Lemma groupby_sum_get_fold (rows done acc : list (Z * R)) :
  ascending (map fst acc) ->
  (forall x, assoc_get x acc
             = if existsb (fun r => (fst r =? x)%Z) done
               then Some (group_total x done) else None) ->
  let out := fold_left (fun a r => gb_insert (fst r) (snd r) a) rows acc in
  ascending (map fst out) /\
  forall x, assoc_get x out
            = if existsb (fun r => (fst r =? x)%Z) (done ++ rows)
              then Some (group_total x (done ++ rows)) else None.
Proof.
  revert done acc. induction rows as [|r rows IH]; intros done acc Ha Hacc.
  - simpl. rewrite app_nil_r. now split.
  - cbn [fold_left].
    replace (done ++ r :: rows) with ((done ++ [r]) ++ rows)
      by (now rewrite <- app_assoc).
    apply IH; [now apply gb_insert_ascending |].
    intros x. rewrite gb_insert_get by exact Ha.
    rewrite existsb_app, group_total_cons. cbn [existsb]. rewrite orb_false_r.
    rewrite (Z.eqb_sym (fst r) x).
    destruct (x =? fst r)%Z eqn:E.
    + apply Z.eqb_eq in E. subst x. rewrite orb_true_r.
      rewrite Hacc. destruct (existsb _ done) eqn:Ed; [reflexivity |].
      f_equal. unfold group_total.
      replace (filter (fun r0 => (fst r0 =? fst r)%Z) done) with (@nil (Z * R));
        [simpl; lra |].
      symmetry. clear -Ed. induction done as [|y l IHl]; [reflexivity |].
      simpl in *. apply orb_false_elim in Ed. destruct Ed as [E1 E2].
      rewrite E1. now apply IHl.
    + rewrite orb_false_r. apply Hacc.
Qed.

Lemma groupby_sum_get (rows : list (Z * R)) (x : Z) :
  assoc_get x (groupby_sum rows)
  = if existsb (fun r => (fst r =? x)%Z) rows
    then Some (group_total x rows) else None.
Proof.
  destruct (groupby_sum_get_fold rows [] []) as [_ H];
    [constructor | reflexivity | apply H].
Qed.

Lemma assoc_get_In (acc : list (Z * R)) (d : Z) (s : R) :
  ascending (map fst acc) ->
  In (d, s) acc -> assoc_get d acc = Some s.
Proof.
  unfold ascending. induction acc as [|[d' q'] t IH]; intros H Hin;
    [contradiction |].
  inversion H as [|? ? Hs Hf]; subst. cbn [assoc_get].
  destruct Hin as [E | Hin].
  - injection E as -> ->. now rewrite Z.eqb_refl.
  - destruct (d =? d')%Z eqn:E; [|now apply IH].
    apply Z.eqb_eq in E. subst d'. rewrite Forall_forall in Hf.
    specialize (Hf d (in_map fst _ _ Hin)). simpl in Hf. lia.
Qed.

Lemma groupby_sum_entry (rows : list (Z * R)) (d : Z) (s : R) :
  In (d, s) (groupby_sum rows) ->
  s = group_total d rows /\ In d (map fst rows).
Proof.
  intros H. apply assoc_get_In in H; [|apply groupby_sum_is_ascending].
  rewrite groupby_sum_get in H.
  destruct (existsb _ rows) eqn:E; [|discriminate].
  injection H as <-. split; [reflexivity |].
  apply existsb_exists in E. destruct E as (r & Hr & Er).
  apply Z.eqb_eq in Er. subst d. now apply in_map.
Qed.

Lemma groupby_sum_dates (rows : list (Z * R)) (d : Z) :
  In d (map fst (groupby_sum rows)) <-> In d (map fst rows).
Proof.
  split.
  - intros H. apply in_map_iff in H. destruct H as ([d' s] & <- & H).
    now apply groupby_sum_entry in H.
  - intros H.
    assert (E : existsb (fun r => (fst r =? d)%Z) rows = true).
    { apply in_map_iff in H. destruct H as (r & <- & Hr).
      apply existsb_exists. exists r. split; [exact Hr | apply Z.eqb_refl]. }
    pose proof (groupby_sum_get rows d) as G. rewrite E in G.
    clear -G. induction (groupby_sum rows) as [|[d' q'] t IH];
      [discriminate |].
    cbn [assoc_get] in G. simpl.
    destruct (d =? d')%Z eqn:Ed; [apply Z.eqb_eq in Ed; now left |].
    right. now apply IH.
Qed.

Lemma bfill_all_defined (l : list float) :
  Forall (fun x => isnan x = false) l -> bfill l = l.
Proof.
  induction 1 as [|x l Hx _ IH]; simpl; [reflexivity |]. now rewrite Hx, IH.
Qed.

Lemma ffill_from_all_defined (last : float) (l : list float) :
  Forall (fun x => isnan x = false) l -> ffill_from last l = l.
Proof.
  intros H. revert last. induction H as [|x l Hx _ IH]; intros last; simpl;
    [reflexivity |].
  now rewrite Hx, IH.
Qed.

Lemma Forall_defined_Fin (l : list R) :
  Forall (fun x => isnan x = false) (map Fin l).
Proof. induction l; simpl; constructor; auto. Qed.

(** A column without NaN is left as it is by the fill. *)
Lemma fill_column_all_defined (l : list float) :
  Forall (fun x => isnan x = false) l -> fill_column l = l.
Proof.
  intros H. unfold fill_column, ffill.
  now rewrite (bfill_all_defined l H), ffill_from_all_defined.
Qed.

Lemma nth_pair_In (acc : list (Z * R)) (i : nat) :
  (i < length acc)%nat ->
  In (nth i (map fst acc) 0%Z, nth i (map snd acc) 0) acc.
Proof.
  revert i; induction acc as [|[d q] t IH]; intros i H; [simpl in H; lia |].
  destruct i as [|i]; simpl; [now left | right].
  apply IH. simpl in H. lia.
Qed.

(** What the daily aggregation of [create_features] computes: one row per
    distinct sale date, in ascending date order, holding the total quantity
    and the total revenue of the sales of that date. *)
Theorem create_features_daily_totals (df : list SalesRecord) :
  ascending (map date (create_features df)) /\
  (forall d, In d (map date (create_features df)) <-> In d (map saleDate df))
  /\ Forall (fun r =>
               quantity r = Fin (group_total (date r) (quantity_rows df)) /\
               totalRevenue r = Fin (group_total (date r) (revenue_rows df)))
            (create_features df).
Proof.
  assert (Hdates : map date (create_features df)
                   = map fst (daily_quantity df)).
  { unfold create_features. fold (daily_quantity df).
    rewrite map_map. cbn [date]. now apply map_nth_seq. }
  split; [apply create_features_ascending | split].
  - intros d. rewrite Hdates. unfold daily_quantity.
    rewrite groupby_sum_dates, map_map. reflexivity.
  - rewrite Forall_forall. intros r Hr.
    unfold create_features in Hr. fold (daily_quantity df) in Hr.
    apply in_map_iff in Hr. destruct Hr as (i & <- & Hi).
    apply in_seq in Hi. rewrite length_map in Hi. cbn [date quantity totalRevenue].
    rewrite !fill_column_all_defined
      by (try apply Forall_defined_Fin;
          rewrite <- (map_map snd Fin); apply Forall_defined_Fin).
    split.
    + rewrite (nth_indep _ NaN (Fin 0)) by (rewrite !length_map; lia).
      rewrite map_nth. f_equal.
      apply (groupby_sum_entry (quantity_rows df)).
      apply (nth_pair_In (daily_quantity df) i). lia.
    + rewrite <- (map_map snd Fin).
      rewrite (nth_indep _ NaN (Fin 0))
        by (rewrite !length_map, revenue_length; lia).
      rewrite map_nth. f_equal.
      apply (groupby_sum_entry (revenue_rows df)).
      unfold daily_quantity.
      rewrite (groupby_sum_keys saleDate sale_quantity sale_totalRevenue df).
      apply (nth_pair_In (groupby_sum (revenue_rows df)) i).
      unfold revenue_rows. rewrite revenue_length. lia.
Qed.

(** ** Lag and rolling features after the fill *)

Lemma bfill_leading (k : nat) (l : list float) :
  bfill (repeat NaN k ++ l) = repeat (hd NaN (bfill l)) k ++ bfill l.
Proof.
  induction k as [|k IH]; [reflexivity |].
  cbn [repeat app bfill isnan]. rewrite IH.
  destruct k; reflexivity.
Qed.

(** Leading NaN are replaced by the first defined value of the column. *)
Lemma fill_column_leading (k : nat) (l : list float) :
  l <> [] -> Forall (fun x => isnan x = false) l ->
  fill_column (repeat NaN k ++ l) = repeat (hd NaN l) k ++ l.
Proof.
  intros Hne Hl. unfold fill_column, ffill.
  rewrite bfill_leading, (bfill_all_defined l Hl).
  apply ffill_from_all_defined. apply Forall_app. split; [|exact Hl].
  apply Forall_repeat. destruct l; [congruence |]. now inversion Hl.
Qed.

Lemma lag_column_nth (k : nat) (q : list R) (i : nat) :
  (k < length q)%nat -> (i < length q)%nat ->
  nth i (fill_column (shift k q)) NaN = Fin (nth (i - k) q 0).
Proof.
  intros Hk Hi. rewrite shift_long by lia.
  assert (Hne : firstn (length q - k) q <> []).
  { intros E. apply (f_equal (@length R)) in E.
    rewrite length_firstn in E. simpl in E. lia. }
  rewrite fill_column_leading;
    [| destruct (firstn (length q - k) q); [congruence | discriminate]
     | apply Forall_defined_Fin].
  destruct (Nat.lt_ge_cases i k) as [L|L].
  - rewrite app_nth1 by (rewrite repeat_length; lia).
    rewrite nth_repeat_lt by lia.
    replace (i - k)%nat with 0%nat by lia.
    destruct q as [|x q]; [simpl in Hi; lia |].
    destruct (length (x :: q) - k)%nat eqn:E; [lia | reflexivity].
  - rewrite app_nth2 by (rewrite repeat_length; lia).
    rewrite repeat_length.
    rewrite (nth_indep _ NaN (Fin 0))
      by (rewrite length_map, length_firstn; lia).
    rewrite map_nth, nth_firstn.
    replace (i - k <? length q - k)%nat with true
      by (symmetry; apply Nat.ltb_lt; lia).
    reflexivity.
Qed.

Lemma rolling_split (w : nat) (agg : list R -> float) (q : list R) :
  (1 <= w <= length q)%nat ->
  rolling w agg q
  = repeat NaN (w - 1)
    ++ map (fun i => agg (window_at w i q))
           (seq (w - 1) (length q - (w - 1))).
Proof.
  intros H. unfold rolling.
  replace (length q) with ((w - 1) + (length q - (w - 1)))%nat at 1 by lia.
  rewrite seq_app, map_app. f_equal.
  - rewrite <- (map_const_seq NaN 0 (w - 1)). apply map_ext_in.
    intros i Hi. apply in_seq in Hi.
    destruct (w <=? i + 1)%nat eqn:E; [apply Nat.leb_le in E; lia | reflexivity].
  - apply map_ext_in. intros i Hi. apply in_seq in Hi.
    destruct (w <=? i + 1)%nat eqn:E; [reflexivity | apply Nat.leb_gt in E; lia].
Qed.

Lemma rolling_column_nth (w : nat) (agg : list R -> float) (q : list R)
      (i : nat) :
  (1 <= w <= length q)%nat ->
  (forall l, length l = w -> isnan (agg l) = false) ->
  (i < length q)%nat ->
  nth i (fill_column (rolling w agg q)) NaN
  = agg (window_at w (Nat.max i (w - 1)) q).
Proof.
  intros Hw Hagg Hi. rewrite rolling_split by exact Hw.
  set (f := fun i => agg (window_at w i q)).
  assert (Hlen : length (map f (seq (w - 1) (length q - (w - 1))))
                 = (length q - (w - 1))%nat)
    by now rewrite length_map, length_seq.
  assert (Hdef : Forall (fun x => isnan x = false)
                        (map f (seq (w - 1) (length q - (w - 1))))).
  { rewrite Forall_forall. intros x Hx. apply in_map_iff in Hx.
    destruct Hx as (j & <- & Hj). apply in_seq in Hj.
    apply Hagg. apply window_at_length; lia. }
  assert (Hnth : forall j, (j < length q - (w - 1))%nat ->
                   nth j (map f (seq (w - 1) (length q - (w - 1)))) NaN
                   = f (w - 1 + j)%nat).
  { intros j Hj.
    rewrite (nth_indep _ NaN (f 0%nat)) by (rewrite Hlen; exact Hj).
    now rewrite map_nth, seq_nth. }
  rewrite fill_column_leading;
    [| intros E; rewrite E in Hlen; simpl in Hlen; lia | exact Hdef].
  destruct (Nat.lt_ge_cases i (w - 1)) as [L|L].
  - rewrite app_nth1 by (rewrite repeat_length; lia).
    rewrite nth_repeat_lt by lia.
    replace (Nat.max i (w - 1)) with (w - 1 + 0)%nat by lia.
    change (agg (window_at w (w - 1 + 0) q)) with (f (w - 1 + 0)%nat).
    rewrite <- (Hnth 0%nat) by lia.
    destruct (map f (seq (w - 1) (length q - (w - 1)))) eqn:E;
      [simpl in Hlen; lia | reflexivity].
  - rewrite app_nth2 by (rewrite repeat_length; lia).
    rewrite repeat_length, Hnth by lia. unfold f. do 2 f_equal. lia.
Qed.

(** After the fill, the lag-k feature of row [i] is the quantity of row
    [i - k]; the first [k] rows, which have no such predecessor, carry the
    quantity of the first day. *)
Theorem create_features_lag_fill (df : list SalesRecord) (i : nat) :
  let q := map snd (daily_quantity df) in
  (i < length q)%nat ->
  ((1 < length q)%nat ->
   nth i (map quantity_lag1 (create_features df)) NaN
   = Fin (nth (i - 1) q 0)) /\
  ((7 < length q)%nat ->
   nth i (map quantity_lag7 (create_features df)) NaN
   = Fin (nth (i - 7) q 0)) /\
  ((30 < length q)%nat ->
   nth i (map quantity_lag30 (create_features df)) NaN
   = Fin (nth (i - 30) q 0)).
Proof.
  intros q Hi.
  destruct (create_features_columns df) as (_ & C1 & C7 & C30 & _).
  fold q in C1, C7, C30. rewrite C1, C7, C30.
  repeat split; intros H; now apply lag_column_nth.
Qed.

(** After the fill, the rolling statistics of row [i] are those of the
    window that ends at row [i]; the rows before the first full window carry
    the statistics of the first full window, which reaches past them. *)
Theorem create_features_rolling_fill (df : list SalesRecord) (i : nat) :
  let q := map snd (daily_quantity df) in
  (i < length q)%nat ->
  ((7 <= length q)%nat ->
   nth i (map quantity_rolling_mean_7 (create_features df)) NaN
   = Fin (Rmean (window_at 7 (Nat.max i 6) q)) /\
   nth i (map quantity_rolling_std_7 (create_features df)) NaN
   = Fin (sqrt (Rvar (window_at 7 (Nat.max i 6) q)))) /\
  ((30 <= length q)%nat ->
   nth i (map quantity_rolling_mean_30 (create_features df)) NaN
   = Fin (Rmean (window_at 30 (Nat.max i 29) q))).
Proof.
  intros q Hi.
  destruct (create_features_columns df)
    as (_ & _ & _ & _ & Cm7 & Cs7 & Cm30 & _).
  fold q in Cm7, Cs7, Cm30. rewrite Cm7, Cs7, Cm30.
  assert (Hmean : forall w j, (0 < w <= j + 1)%nat -> (j < length q)%nat ->
                    window_mean (window_at w j q)
                    = Fin (Rmean (window_at w j q))).
  { intros w j Hw Hj.
    destruct (window_mean_cases (window_at w j q)) as [[E _] | [_ E]];
      [|exact E].
    apply (f_equal (@length R)) in E.
    rewrite window_at_length in E by lia. simpl in E. lia. }
  split; [intros H; split | intros H].
  - rewrite (rolling_column_nth 7 window_mean q i) by
      (try lia; intros l; apply window_mean_defined; lia).
    apply Hmean; lia.
  - rewrite (rolling_column_nth 7 window_std q i) by
      (try lia; intros l; apply window_std_defined_of_length; lia).
    unfold window_std. rewrite window_at_length by lia. reflexivity.
  - rewrite (rolling_column_nth 30 window_mean q i) by
      (try lia; intros l; apply window_mean_defined; lia).
    apply Hmean; lia.
Qed.

Lemma daily_sales_of_quantities (x : R) (n : nat) :
  map snd (daily_quantity (daily_sales_of x n)) = repeat x n.
Proof.
  rewrite daily_quantity_of_days, map_map. simpl. apply map_const_seq.
Qed.

Lemma create_features_lag_fill_witness :
  (0 < length (map snd (daily_quantity (daily_sales_of 5 3))))%nat /\
  nth 0 (map quantity_lag1 (create_features (daily_sales_of 5 3))) NaN
  = Fin 5.
Proof.
  assert (L : length (map snd (daily_quantity (daily_sales_of 5 3))) = 3%nat)
    by (rewrite daily_sales_of_quantities; reflexivity).
  assert (H : (0 < length (map snd (daily_quantity (daily_sales_of 5 3))))%nat)
    by (rewrite L; lia).
  split; [exact H |].
  destruct (create_features_lag_fill (daily_sales_of 5 3) 0 H) as (H1 & _).
  rewrite H1 by (rewrite L; lia).
  rewrite daily_sales_of_quantities. reflexivity.
Defined.

Lemma create_features_rolling_fill_witness :
  (0 < length (map snd (daily_quantity (daily_sales_of 5 7))))%nat /\
  nth 0 (map quantity_rolling_mean_7 (create_features (daily_sales_of 5 7)))
      NaN
  = Fin 5.
Proof.
  assert (L : length (map snd (daily_quantity (daily_sales_of 5 7))) = 7%nat)
    by (rewrite daily_sales_of_quantities; reflexivity).
  assert (H : (0 < length (map snd (daily_quantity (daily_sales_of 5 7))))%nat)
    by (rewrite L; lia).
  split; [exact H |].
  destruct (create_features_rolling_fill (daily_sales_of 5 7) 0 H)
    as ([H1 _] & _); [rewrite L; lia |].
  rewrite H1, daily_sales_of_quantities.
  change (window_at 7 (Nat.max 0 6) (repeat 5 7)) with (repeat 5 7).
  rewrite Rmean_repeat by lia. reflexivity.
Defined.

(** ** Anomaly records *)

Lemma fgtb_Fin_monotone (z : float) (t1 t2 : R) :
  t1 <= t2 -> fgtb z (Fin t2) = true -> fgtb z (Fin t1) = true.
Proof.
  unfold fgtb, fltb. destruct z as [v| | |]; intros H; try discriminate;
    try reflexivity.
  destruct (Rlt_dec t2 v); [|discriminate]. intros _.
  destruct (Rlt_dec t1 v); [reflexivity | lra].
Qed.

(** Raising the threshold can only remove anomaly records. *)
Theorem detect_anomalies_threshold_monotone
        (df : sales_frame) (t1 t2 : R) :
  t1 <= t2 ->
  incl (detect_anomalies df (Fin t2)) (detect_anomalies df (Fin t1)).
Proof.
  intros H a Ha. unfold detect_anomalies in *.
  apply in_map_iff in Ha. destruct Ha as (row & <- & Hrow).
  apply in_map_iff. exists row. split; [reflexivity |].
  apply filter_In in Hrow. destruct Hrow as [Hin Hz].
  apply filter_In. split; [exact Hin |].
  now apply (fgtb_Fin_monotone _ t1 t2).
Qed.

Lemma filter_early_rows (df : sales_frame) (threshold : float) (k : nat) :
  (k <= 29)%nat -> (k <= length (groupby_sum df))%nat ->
  filter (fun row => fgtb (z_score row) threshold)
         (map (scored_at df) (seq 0 k)) = [].
Proof.
  intros Hk Hn.
  assert (H : forall l, Forall (fun i => i < 29 /\ i < length (groupby_sum df))%nat l ->
                filter (fun row => fgtb (z_score row) threshold)
                       (map (scored_at df) l) = []).
  { induction 1 as [|i l [Hi1 Hi2] _ IH]; [reflexivity |]. cbn [map filter].
    destruct (early_rows_undefined df i Hi1 Hi2) as [_ Hs].
    now rewrite (z_score_undefined_std df i Hs), fgtb_NaN_l. }
  apply H. rewrite Forall_forall. intros i Hi. apply in_seq in Hi. lia.
Qed.

(** Every anomaly record describes one day from the 30th on: its date and
    quantity, the rolling mean as expected quantity, their difference as
    deviation, a finite z-score above the threshold, and severity "high"
    exactly when the z-score exceeds 3.  The records come in ascending date
    order, at most one per day from the 30th on. *)
Theorem anomaly_records_sound (df : sales_frame) (threshold : float) :
  let q := map snd (groupby_sum df) in
  let dates := map fst (groupby_sum df) in
  (forall a, In a (detect_anomalies df threshold) ->
     exists i m s,
       (29 <= i < length q)%nat /\ 0 < s /\
       window_mean (window_at 30 i q) = Fin m /\
       window_std (window_at 30 i q) = Fin s /\
       a_date a = nth i dates 0%Z /\
       a_quantity a = Fin (nth i q 0) /\
       expected_quantity a = Fin m /\
       deviation a = Fin (nth i q 0 - m) /\
       a_z_score a = Fin (Rabs ((nth i q 0 - m) / s)) /\
       fgtb (a_z_score a) threshold = true /\
       severity a = (if Rlt_dec 3 (Rabs ((nth i q 0 - m) / s))
                     then "high" else "medium")%string)
  /\ ascending (map a_date (detect_anomalies df threshold))
  /\ (length (detect_anomalies df threshold) <= length q - 29)%nat.
Proof.
  intros q dates. split; [| split].
  - intros a Ha. unfold detect_anomalies in Ha. apply in_map_iff in Ha.
    destruct Ha as (row & <- & Hrow).
    apply filter_In in Hrow. destruct Hrow as [Hrow Hz].
    apply scored_rows_In in Hrow. destruct Hrow as (i & Hi & ->).
    assert (Hq : (i < length q)%nat) by (unfold q; now rewrite length_map).
    destruct (z_score_cases df i Hi) as [E | (m & s & Hm & Hs & Hpos & E)];
      [rewrite E, fgtb_NaN_l in Hz; discriminate |].
    destruct (Nat.lt_ge_cases i 29) as [L|L].
    { destruct (early_rows_undefined df i L Hi) as [_ Hu]. congruence. }
    destruct (scored_at_stats df i Hq) as [Hm' Hs']. fold q in Hm', Hs'.
    replace (30 <=? i + 1)%nat with true in Hm', Hs'
      by (symmetry; apply Nat.leb_le; lia).
    exists i, m, s. cbn [a_date a_quantity expected_quantity deviation
                          a_z_score severity].
    change (s_quantity (scored_at df i)) with (nth i q 0) in *.
    rewrite E, Hm.
    split; [lia | split; [exact Hpos |]].
    split; [congruence | split; [congruence |]].
    split; [reflexivity | split; [reflexivity | split; [reflexivity |]]].
    split; [simpl; f_equal; lra | split; [reflexivity |]].
    split; [rewrite <- E; exact Hz |].
    unfold fgtb, fltb. now destruct (Rlt_dec 3 _).
  - unfold detect_anomalies. rewrite map_map. cbn [a_date].
    apply (ascending_filter s_date). unfold scored_rows.
    rewrite map_map. cbn [s_date scored_at].
    rewrite (map_nth_seq 0%Z _ (map fst (groupby_sum df)))
      by (now rewrite length_map).
    apply groupby_sum_is_ascending.
  - unfold detect_anomalies. rewrite length_map. unfold scored_rows, q.
    rewrite length_map.
    destruct (Nat.le_gt_cases 29 (length (groupby_sum df))) as [L|L].
    + replace (length (groupby_sum df))
        with (29 + (length (groupby_sum df) - 29))%nat at 1 by lia.
      rewrite seq_app, map_app, filter_app, filter_early_rows by lia.
      cbn [app]. etransitivity; [apply filter_length_le |].
      now rewrite length_map, length_seq.
    + rewrite filter_early_rows by lia. simpl. lia.
Qed.

Lemma detect_anomalies_threshold_monotone_witness :
  2.5 <= 3 /\
  incl (detect_anomalies late_spike (Fin 3))
       (detect_anomalies late_spike (Fin 2.5)).
Proof.
  assert (H : 2.5 <= 3) by lra.
  split; [exact H |].
  exact (detect_anomalies_threshold_monotone late_spike 2.5 3 H).
Defined.

Lemma spike_window_mean (b s : R) :
  Rmean (repeat b 29 ++ [s]) = b + (s - b) / 30.
Proof.
  unfold Rmean. rewrite Rsum_app, Rsum_repeat, length_app, repeat_length.
  replace (INR (29 + length [s])) with 30
    by (rewrite INR_IZR_INZ; reflexivity).
  replace (INR 29) with 29 by (rewrite INR_IZR_INZ; reflexivity).
  simpl. field.
Qed.

Lemma spike_window_var (b s : R) :
  Rvar (repeat b 29 ++ [s]) = (s - b) * (s - b) / 30.
Proof.
  unfold Rvar. rewrite spike_window_mean, map_app, map_repeat, Rsum_app,
    Rsum_repeat, length_app, repeat_length.
  replace (INR (29 + length [s] - 1)) with 29
    by (rewrite INR_IZR_INZ; reflexivity).
  replace (INR 29) with 29 by (rewrite INR_IZR_INZ; reflexivity).
  simpl. field.
Qed.

Lemma sqrt_30_square : sqrt 30 * sqrt 30 = 30.
Proof. apply sqrt_sqrt. lra. Qed.

(** The z-score of a day that alone departs from a flat month. *)
Lemma spike_z_value (b s : R) :
  s <> b ->
  0 < sqrt ((s - b) * (s - b) / 30) /\
  Rabs ((s - (b + (s - b) / 30)) / sqrt ((s - b) * (s - b) / 30))
  = 29 / sqrt 30.
Proof.
  intros Hne. pose proof sqrt_30_bounds as [Hp _].
  pose proof sqrt_30_square as Hsq.
  assert (Hstd : sqrt ((s - b) * (s - b) / 30) = Rabs (s - b) / sqrt 30).
  { rewrite sqrt_div_alt by lra. f_equal.
    change ((s - b) * (s - b)) with (Rsqr (s - b)). apply sqrt_Rsqr_abs. }
  rewrite Hstd.
  assert (Ha : 0 < Rabs (s - b)) by (apply Rabs_pos_lt; lra).
  split; [apply Rdiv_lt_0_compat; assumption |].
  assert (H29 : 29 * sqrt 30 / 30 = 29 / sqrt 30).
  { apply Rmult_eq_reg_r with (sqrt 30); [|lra].
    replace (29 / sqrt 30 * sqrt 30) with 29 by (field; lra).
    replace (29 * sqrt 30 / 30 * sqrt 30)
      with (29 * (sqrt 30 * sqrt 30) / 30) by field.
    rewrite Hsq. field. }
  assert (H29pos : 0 < 29 * sqrt 30 / 30) by lra.
  destruct (Rcase_abs (s - b)) as [Hneg | Hpos].
  - rewrite (Rabs_left (s - b)) by exact Hneg.
    assert (E : (s - (b + (s - b) / 30)) / (- (s - b) / sqrt 30)
                = - (29 * sqrt 30 / 30)) by (field; split; lra).
    rewrite E, Rabs_left by lra. lra.
  - rewrite (Rabs_right (s - b)) by exact Hpos.
    assert (Hpos' : 0 < s - b) by lra.
    assert (E : (s - (b + (s - b) / 30)) / ((s - b) / sqrt 30)
                = 29 * sqrt 30 / 30) by (field; split; lra).
    rewrite E, Rabs_right by lra. lra.
Qed.

Lemma z_29_above_3 : 3 < 29 / sqrt 30.
Proof.
  pose proof sqrt_30_bounds as [Hp Hlt].
  apply Rmult_lt_reg_r with (sqrt 30); [exact Hp |].
  unfold Rdiv. rewrite Rmult_assoc, Rinv_l by lra. lra.
Qed.

(** A day that alone departs from 29 equal preceding days scores exactly
    29 / sqrt 30 (about 5.29), whatever the size of the departure: it is
    reported, with severity "high", under every threshold below that
    value. *)
Theorem lone_spike_flagged (df : sales_frame) (threshold b s : R) (i : nat) :
  let q := map snd (groupby_sum df) in
  (i < length q)%nat -> (29 <= i)%nat ->
  window_at 30 i q = repeat b 29 ++ [s] ->
  s <> b ->
  threshold < 29 / sqrt 30 ->
  exists a,
    In a (detect_anomalies df (Fin threshold)) /\
    a_date a = nth i (map fst (groupby_sum df)) 0%Z /\
    a_quantity a = Fin s /\
    a_z_score a = Fin (29 / sqrt 30) /\
    severity a = "high"%string.
Proof.
  intros q Hi H29 Hw Hne Ht.
  assert (Hn : (i < length (groupby_sum df))%nat)
    by (unfold q in Hi; now rewrite length_map in Hi).
  assert (Hcur : nth i q 0 = s).
  { pose proof (window_at_current 30 i q ltac:(lia) Hi) as Hc.
    rewrite Hw, (nth_error_nth' q 0 Hi) in Hc.
    change (nth_error (repeat b 29 ++ [s]) (30 - 1)) with (Some s) in Hc.
    now injection Hc. }
  destruct (scored_at_stats df i Hi) as [Hm Hs]. fold q in Hm, Hs.
  replace (30 <=? i + 1)%nat with true in Hm, Hs
    by (symmetry; apply Nat.leb_le; lia).
  rewrite Hw in Hm, Hs.
  unfold window_mean in Hm.
  change (repeat b 29 ++ [s]) with (b :: repeat b 28 ++ [s]) in Hm at 1.
  cbv iota in Hm. rewrite spike_window_mean in Hm.
  unfold window_std in Hs. rewrite length_app, repeat_length in Hs.
  change (29 + length [s] <=? 1)%nat with false in Hs.
  rewrite spike_window_var in Hs.
  destruct (spike_z_value b s Hne) as [Hpos Hz].
  assert (Ez : z_score (scored_at df i) = Fin (29 / sqrt 30)).
  { change (z_score (scored_at df i))
      with (fabs (fdiv (fsub (Fin (nth i q 0)) (s_mean (scored_at df i)))
                       (s_std (scored_at df i)))).
    rewrite Hm, Hs, Hcur. simpl.
    destruct (Req_dec_T (sqrt ((s - b) * (s - b) / 30)) 0) as [Z|_]; [lra |].
    simpl. f_equal. exact Hz. }
  exists {| a_date := s_date (scored_at df i);
            a_quantity := Fin (s_quantity (scored_at df i));
            expected_quantity := s_mean (scored_at df i);
            deviation := fsub (Fin (s_quantity (scored_at df i)))
                              (s_mean (scored_at df i));
            a_z_score := z_score (scored_at df i);
            severity := if fgtb (z_score (scored_at df i)) (Fin 3)
                        then "high"%string else "medium"%string |}.
  cbn [a_date a_quantity a_z_score severity].
  split; [| split; [reflexivity | split; [| split; [exact Ez |]]]].
  - unfold detect_anomalies. apply in_map_iff.
    exists (scored_at df i). split; [reflexivity |].
    apply filter_In. split; [apply scored_rows_In; now exists i |].
    rewrite Ez. unfold fgtb, fltb.
    destruct (Rlt_dec threshold (29 / sqrt 30)); [reflexivity | contradiction].
  - f_equal. exact Hcur.
  - rewrite Ez. unfold fgtb, fltb. pose proof z_29_above_3.
    destruct (Rlt_dec 3 (29 / sqrt 30)); [reflexivity | contradiction].
Qed.

Lemma lone_spike_flagged_witness :
  (29 < length (map snd (groupby_sum late_spike)))%nat /\
  (29 <= 29)%nat /\
  window_at 30 29 (map snd (groupby_sum late_spike)) = repeat 0 29 ++ [30] /\
  30 <> 0 /\
  2.5 < 29 / sqrt 30 /\
  exists a,
    In a (detect_anomalies late_spike (Fin 2.5)) /\
    a_date a = nth 29 (map fst (groupby_sum late_spike)) 0%Z /\
    a_quantity a = Fin 30 /\
    a_z_score a = Fin (29 / sqrt 30) /\
    severity a = "high"%string.
Proof.
  assert (H1 : (29 < length (map snd (groupby_sum late_spike)))%nat)
    by (rewrite late_spike_grouped; simpl; lia).
  assert (H2 : (29 <= 29)%nat) by lia.
  assert (H3 : window_at 30 29 (map snd (groupby_sum late_spike))
               = repeat 0 29 ++ [30])
    by (rewrite late_spike_grouped; reflexivity).
  assert (H4 : 30 <> 0) by lra.
  assert (H5 : 2.5 < 29 / sqrt 30) by (pose proof z_29_above_3; lra).
  split; [exact H1 | split; [exact H2 | split; [exact H3 | split;
    [exact H4 | split; [exact H5 |]]]]].
  exact (lone_spike_flagged late_spike 2.5 0 30 29 H1 H2 H3 H4 H5).
Defined.

(** ** Inventory optimizer: the order quantity *)

Lemma optimize_inventory_eoq (df : sales_frame) (h s : float) :
  economic_order_quantity (optimize_inventory df h s)
  = fsqrt (fdiv (fmul (fmul (of_Z 2)
                            (fmul (daily_demand (optimize_inventory df h s))
                                  (of_Z 365)))
                      (of_Z 100))
                (fmul h (of_Z 365))).
Proof. reflexivity. Qed.

Lemma optimize_inventory_mean (df : sales_frame) (h s : float) :
  groupby_sum df <> [] ->
  daily_demand (optimize_inventory df h s)
  = Fin (Rmean (map snd (groupby_sum df))).
Proof.
  intros H. destruct (optimize_inventory_demand df h s) as [-> _].
  destruct (window_mean_cases (map snd (groupby_sum df))) as [[E _] | [_ E]];
    [| exact E].
  destruct (groupby_sum df); [congruence | discriminate].
Qed.

(** With a positive holding cost the two factors 365 cancel: the order
    quantity is the square root of 200 times the mean daily demand over the
    holding cost, so the holding cost acts as a cost per unit and day. *)
Theorem eoq_annualisation_cancels (df : sales_frame) (h : R) (s : float) :
  0 < h -> groupby_sum df <> [] ->
  economic_order_quantity (optimize_inventory df (Fin h) s)
  = fsqrt (Fin (200 * Rmean (map snd (groupby_sum df)) / h)).
Proof.
  intros Hh Hne. rewrite optimize_inventory_eoq, optimize_inventory_mean
    by exact Hne.
  cbn [fmul of_Z fdiv].
  destruct (Req_dec_T (h * 365) 0) as [Z|_]; [lra |].
  do 2 f_equal. field. lra.
Qed.

Lemma eoq_annualisation_cancels_witness :
  0 < 0.1 /\ groupby_sum [(0%Z, 5)] <> [] /\
  economic_order_quantity (optimize_inventory [(0%Z, 5)] (Fin 0.1) (Fin 50))
  = fsqrt (Fin (200 * Rmean (map snd (groupby_sum [(0%Z, 5)])) / 0.1)).
Proof.
  assert (H1 : 0 < 0.1) by lra.
  assert (H2 : groupby_sum [(0%Z, 5)] <> []) by discriminate.
  split; [exact H1 | split; [exact H2 |]].
  exact (eoq_annualisation_cancels [(0%Z, 5)] 0.1 (Fin 50) H1 H2).
Defined.

(** A holding cost that is not positive raises nothing: with a zero holding
    cost the order quantity is infinite for a positive mean demand and NaN
    for a zero mean demand; with a negative holding cost and a positive mean
    demand it is NaN. *)
Theorem eoq_degenerate_holding_cost (df : sales_frame) (s : float) :
  groupby_sum df <> [] ->
  let m := Rmean (map snd (groupby_sum df)) in
  (0 < m ->
   economic_order_quantity (optimize_inventory df (Fin 0) s) = PInf) /\
  (m = 0 ->
   economic_order_quantity (optimize_inventory df (Fin 0) s) = NaN) /\
  (forall h, h < 0 -> 0 < m ->
   economic_order_quantity (optimize_inventory df (Fin h) s) = NaN).
Proof.
  intros Hne m.
  assert (E : forall h, economic_order_quantity (optimize_inventory df (Fin h) s)
              = fsqrt (fdiv (Fin (2 * (m * 365) * 100)) (Fin (h * 365)))).
  { intros h. rewrite optimize_inventory_eoq, optimize_inventory_mean
      by exact Hne. reflexivity. }
  split; [| split].
  - intros Hm. rewrite E. float_cases; try reflexivity; exfalso; lra.
  - intros Hm. rewrite E, Hm. float_cases; try reflexivity; exfalso; lra.
  - intros h Hh Hm. rewrite E.
    assert (Hneg : 2 * (m * 365) * 100 / (h * 365) < 0).
    { replace (2 * (m * 365) * 100 / (h * 365)) with (- (200 * m / (- h)))
        by (field; lra).
      assert (0 < 200 * m / - h) by (apply Rdiv_lt_0_compat; lra). lra. }
    float_cases; try reflexivity; exfalso; lra.
Qed.

Lemma eoq_degenerate_holding_cost_witness :
  groupby_sum [(0%Z, 5)] <> [] /\
  economic_order_quantity (optimize_inventory [(0%Z, 5)] (Fin 0) (Fin 50))
  = PInf.
Proof.
  assert (H : groupby_sum [(0%Z, 5)] <> []) by discriminate.
  split; [exact H |].
  apply (eoq_degenerate_holding_cost [(0%Z, 5)] (Fin 50) H).
  unfold Rmean. simpl. lra.
Defined.

(** An empty frame raises nothing: every numeric output is NaN, whatever
    the costs. *)
Theorem optimize_inventory_empty (h s : float) :
  let p := optimize_inventory [] h s in
  daily_demand p = NaN /\ demand_std p = NaN /\ reorder_point p = NaN /\
  safety_stock p = NaN /\ economic_order_quantity p = NaN /\
  lead_time_days p = 7%Z.
Proof.
  intros p. repeat split.
Qed.

(** ** Model trainer: partition sizes and stored state *)

Lemma dict_get_set_other {V} (k k' : string) (v : V) (d : dict V) :
  k' <> k -> dict_get k' (dict_set k v d) = dict_get k' d.
Proof.
  intros Hne.
  assert (E : String.eqb k' k = false) by now apply String.eqb_neq.
  induction d as [|[k0 v0] d IH]; cbn [dict_get dict_set].
  - now rewrite E.
  - destruct (String.eqb k k0) eqn:E0; cbn [dict_get].
    + apply String.eqb_eq in E0. subst k0. now rewrite E.
    + destruct (String.eqb k' k0); [reflexivity | exact IH].
Qed.

(** Whenever training goes ahead, at least 80 rows are used for fitting and
    at least 20 are held out for the evaluation. *)
Theorem train_test_sizes (df : frame) :
  (100 <= length (masked_rows df))%nat ->
  (80 <= length (train_rows df))%nat /\
  (20 <= length (test_rows df))%nat /\
  (length (train_rows df) + length (test_rows df)
   = length (masked_rows df))%nat /\
  (length (test_rows df) <= length (train_rows df))%nat.
Proof.
  intros H.
  assert (Htrain : length (train_rows df)
                   = train_size (length (masked_rows df))).
  { unfold train_rows. rewrite length_firstn.
    apply Nat.min_l. apply train_size_le. }
  assert (Htest : length (test_rows df)
                  = (length (masked_rows df)
                     - train_size (length (masked_rows df)))%nat).
  { unfold test_rows. now rewrite length_skipn. }
  pose proof (train_size_bounds (length (masked_rows df))) as B.
  rewrite Htrain, Htest. lia.
Qed.

Lemma train_test_sizes_witness :
  (100 <= length (masked_rows (flat_frame (Fin 1) 100)))%nat /\
  (80 <= length (train_rows (flat_frame (Fin 1) 100)))%nat /\
  (20 <= length (test_rows (flat_frame (Fin 1) 100)))%nat.
Proof.
  assert (H : (100 <= length (masked_rows (flat_frame (Fin 1) 100)))%nat).
  { rewrite masked_rows_flat. unfold flat_frame.
    rewrite length_map, length_seq. apply Nat.le_refl. }
  destruct (train_test_sizes (flat_frame (Fin 1) 100) H) as (A & B & _).
  split; [exact H | split; [exact A | exact B]].
Defined.

Section TrainerState.

Variables Scaler Model : Type.
Variable fit_scaler : list (list float) -> Scaler.
Variable scaler_transform : Scaler -> list float -> list float.
Variable fit_gradient_boosting : list (list float) -> list float -> Model.
Variable fit_random_forest : list (list float) -> list float -> Model.
Variable predict : Model -> list float -> float.
Variable feature_importances_ : Model -> list float.
Variables r2_score mean_absolute_error mean_squared_error :
  list float -> list float -> float.

(** A successful training stores, under the key "demand", the scaler fitted
    on the training rows alone and the importances paired with the feature
    names, replacing what was stored there; every other key of the two
    dicts, and [self.models], stay as they were.  Any model type other than
    "gradient_boosting" selects the random forest. *)
Theorem train_model_stores_state
        (self : DemandForecaster Scaler Model) (df : frame)
        (model_type : string) :
  (100 <= length (masked_rows df))%nat ->
  exists model metrics self',
    train_model fit_scaler scaler_transform fit_gradient_boosting
                fit_random_forest predict feature_importances_ r2_score
                mean_absolute_error mean_squared_error self df model_type
    = inr (model, metrics, self') /\
    dict_get "demand" (scalers self')
    = ret (fit_scaler (map X_row (train_rows df))) /\
    dict_get "demand" (feature_importance self')
    = ret (combine feature_cols (feature_importances_ model)) /\
    (forall k, k <> "demand"%string ->
               dict_get k (scalers self') = dict_get k (scalers self) /\
               dict_get k (feature_importance self')
               = dict_get k (feature_importance self)) /\
    models self' = models self /\
    (model_type <> "gradient_boosting"%string ->
     model = fit_random_forest
               (map (scaler_transform
                       (fit_scaler (map X_row (train_rows df))))
                    (map X_row (train_rows df)))
               (map quantity (train_rows df))).
Proof.
  intros H. unfold train_model. rewrite length_map.
  destruct (length (masked_rows df) <? 100)%nat eqn:E;
    [apply Nat.ltb_lt in E; lia |].
  do 3 eexists. split; [reflexivity |].
  cbn [scalers feature_importance models].
  split; [apply dict_get_set | split; [apply dict_get_set | split; [| split]]].
  - intros k Hk. split; now apply dict_get_set_other.
  - reflexivity.
  - intros Hm. apply String.eqb_neq in Hm. now rewrite Hm.
Qed.

End TrainerState.

Lemma train_model_stores_state_witness :
  (100 <= length (masked_rows (flat_frame (Fin 1) 100)))%nat /\
  exists model metrics self',
    toy_train_model unit_forecaster (flat_frame (Fin 1) 100) "random_forest"
    = inr (model, metrics, self') /\
    dict_get "demand" (scalers self') = ret tt /\
    models self' = [].
Proof.
  assert (H : (100 <= length (masked_rows (flat_frame (Fin 1) 100)))%nat).
  { rewrite masked_rows_flat. unfold flat_frame.
    rewrite length_map, length_seq. apply Nat.le_refl. }
  split; [exact H |].
  destruct (train_model_stores_state unit unit (fun _ => tt) (fun _ x => x)
              (fun _ _ => tt) (fun _ _ => tt) first_feature (fun _ => [])
              (fun _ _ => NaN) (fun _ _ => NaN) (fun _ _ => NaN)
              unit_forecaster (flat_frame (Fin 1) 100)
              "random_forest"%string H)
    as (m & me & s' & E & Hs & _ & _ & Hm & _).
  exists m, me, s'. split; [exact E | split; [exact Hs | exact Hm]].
Defined.

(** ** Forecaster: edge cases and the recursive window *)

Lemma iloc_neg_last {A} (l : list A) (x : A) :
  iloc_neg 1 (l ++ [x]) = ret x.
Proof.
  unfold iloc_neg. rewrite length_app. cbn [length].
  replace (1 <=? length l + 1)%nat with true
    by (symmetry; apply Nat.leb_le; lia).
  replace (length l + 1 - 1)%nat with (length l) by lia.
  rewrite nth_error_app2, Nat.sub_diag by lia. reflexivity.
Qed.

Section ForecasterEdges.

Variables Scaler Model : Type.
Variable scaler_transform : Scaler -> list float -> list float.
Variable predict : Model -> list float -> float.

(** What a successful [next_day] was computed from. *)
Lemma next_day_inv (self : DemandForecaster Scaler Model) (model : Model)
      (f : frame) (pt : ForecastPoint) (row : FeatureRow) :
  next_day scaler_transform predict self model f = inr (pt, row) ->
  exists lag1 d,
    iloc_neg 1 (map quantity f) = ret lag1 /\
    date_max (map date f) = Some d /\
    fp_date pt = (d + 1)%Z /\ date row = (d + 1)%Z /\
    quantity row = predicted_quantity pt /\
    quantity_lag1 row = lag1 /\
    point_ok pt.
Proof.
  unfold next_day. intros H.
  destruct (iloc_neg 1 (map quantity f)) as [e|lag1]; [discriminate |].
  cbn [bind] in H.
  destruct (if (7 <=? length (map quantity f))%nat
            then iloc_neg 7 (map quantity f)
            else ret (series_mean (map quantity f))) as [e|lag7];
    [discriminate |].
  cbn [bind] in H.
  destruct (if (30 <=? length (map quantity f))%nat
            then iloc_neg 30 (map quantity f)
            else ret (series_mean (map quantity f))) as [e|lag30];
    [discriminate |].
  cbn [bind] in H.
  destruct (date_max (map date f)) as [d|]; [|discriminate].
  cbn [option_map bind ret] in H.
  destruct (dict_get "demand" (scalers self)) as [e|sc]; [discriminate |].
  cbn [bind ret] in H. injection H as <- <-.
  exists lag1, d. cbn [fp_date date quantity quantity_lag1 predicted_quantity].
  repeat split; try reflexivity.
  - apply py_max2_zero_nonneg.
  - apply fmul_comm.
  - apply fmul_comm.
Qed.

(** Each prediction is fed back: the row appended to the window carries the
    prediction as its quantity, so the forecast of the following day reads
    it as its lag-1 feature and is dated one day later. *)
Theorem prediction_feeds_next_lag
        (self : DemandForecaster Scaler Model) (model : Model)
        (f : frame) (pt pt' : ForecastPoint) (row row' : FeatureRow) :
  next_day scaler_transform predict self model f = inr (pt, row) ->
  next_day scaler_transform predict self model (f ++ [row])
  = inr (pt', row') ->
  quantity row = predicted_quantity pt /\
  quantity_lag1 row' = predicted_quantity pt /\
  fp_date pt' = (fp_date pt + 1)%Z.
Proof.
  intros H1 H2.
  apply next_day_inv in H1.
  destruct H1 as (l1 & d & _ & Hd & Hpd & Hrd & Hq & _ & _).
  apply next_day_inv in H2.
  destruct H2 as (l1' & d' & Hl' & Hd' & Hpd' & _ & _ & Hlag' & _).
  rewrite map_app in Hl', Hd'. cbn [map] in Hl', Hd'.
  rewrite iloc_neg_last in Hl'. injection Hl' as <-.
  rewrite Hrd, (date_max_app _ d Hd) in Hd'. injection Hd' as <-.
  split; [exact Hq | split; [congruence | lia]].
Qed.

(** A horizon of zero or fewer days returns the empty forecast without
    looking at the rows or at the scaler: only the window copy is made. *)
Theorem forecast_demand_no_days
        (self : DemandForecaster Scaler Model) (model : Model)
        (h : heap) (df : ref) (f : frame) (days_ahead : Z) :
  nth_error h df = Some f -> (days_ahead <= 0)%Z ->
  forecast_demand scaler_transform predict self model df days_ahead h
  = (inr [], h ++ [tail 30 f]).
Proof.
  intros Hf Hd.
  rewrite (forecast_demand_allocated Scaler Model scaler_transform predict
             self model h df f days_ahead Hf).
  replace (Z.to_nat days_ahead) with 0%nat by lia. reflexivity.
Qed.

(** Forecasting at least one day from a frame without rows raises
    IndexError (the read of the last quantity), after the empty window copy
    was made. *)
Theorem forecast_demand_empty_frame
        (self : DemandForecaster Scaler Model) (model : Model)
        (h : heap) (df : ref) (days_ahead : Z) :
  nth_error h df = Some [] -> (1 <= days_ahead)%Z ->
  forecast_demand scaler_transform predict self model df days_ahead h
  = (inl IndexError, h ++ [[]]).
Proof.
  intros Hf Hd.
  rewrite (forecast_demand_allocated Scaler Model scaler_transform predict
             self model h df [] days_ahead Hf).
  destruct (Z.to_nat days_ahead) as [|n] eqn:E; [lia |].
  change (tail 30 (@nil FeatureRow)) with (@nil FeatureRow).
  cbn [forecast_loop]. unfold hbind at 1. unfold forecast_step.
  unfold hbind at 1. unfold frame_get. rewrite nth_error_fresh.
  reflexivity.
Qed.

(** Forecasting at least one day before any training (no scaler under
    "demand") raises KeyError for that key, after the window copy was
    made. *)
Theorem forecast_demand_untrained
        (self : DemandForecaster Scaler Model) (model : Model)
        (h : heap) (df : ref) (f : frame) (days_ahead : Z) :
  nth_error h df = Some f -> f <> [] -> (1 <= days_ahead)%Z ->
  dict_get "demand" (scalers self) = raise (KeyError "demand") ->
  forecast_demand scaler_transform predict self model df days_ahead h
  = (inl (KeyError "demand"), h ++ [tail 30 f]).
Proof.
  intros Hf Hne Hd Hsc.
  rewrite (forecast_demand_allocated Scaler Model scaler_transform predict
             self model h df f days_ahead Hf).
  destruct (Z.to_nat days_ahead) as [|n] eqn:E; [lia |].
  cbn [forecast_loop]. unfold hbind at 1. unfold forecast_step.
  unfold hbind at 1. unfold frame_get. rewrite nth_error_fresh.
  unfold hbind at 1. unfold lift.
  assert (Hn : next_day scaler_transform predict self model (tail 30 f)
               = inl (KeyError "demand")).
  { assert (Ht : tail 30 f <> []) by (apply tail_nonempty; [lia | exact Hne]).
    unfold next_day. rewrite Hsc.
    assert (Hq : (0 < length (map quantity (tail 30 f)))%nat).
    { rewrite length_map. destruct (tail 30 f); [congruence | simpl; lia]. }
    destruct (iloc_neg_ok 1 (map quantity (tail 30 f)) ltac:(lia)) as [l1 ->].
    destruct (iloc_neg_or_mean 7 (map quantity (tail 30 f)) ltac:(lia))
      as [l7 ->].
    destruct (iloc_neg_or_mean 30 (map quantity (tail 30 f)) ltac:(lia))
      as [l30 ->].
    destruct (date_max_nonempty (map date (tail 30 f))) as [d ->].
    - destruct (tail 30 f); [congruence | discriminate].
    - reflexivity. }
  rewrite Hn. reflexivity.
Qed.

(** Only the last 30 rows of the frame matter: two frames with the same
    last 30 rows give the same forecast (or the same error). *)
Theorem forecast_demand_last_30_rows
        (self : DemandForecaster Scaler Model) (model : Model)
        (h1 h2 : heap) (df1 df2 : ref) (f1 f2 : frame) (days_ahead : Z) :
  nth_error h1 df1 = Some f1 -> nth_error h2 df2 = Some f2 ->
  tail 30 f1 = tail 30 f2 ->
  fst (forecast_demand scaler_transform predict self model df1 days_ahead h1)
  = fst (forecast_demand scaler_transform predict self model df2 days_ahead
                         h2).
Proof.
  intros H1 H2 Ht.
  rewrite (forecast_demand_allocated Scaler Model scaler_transform predict
             self model h1 df1 f1 days_ahead H1).
  rewrite (forecast_demand_allocated Scaler Model scaler_transform predict
             self model h2 df2 f2 days_ahead H2).
  apply forecast_loop_content. now rewrite !nth_error_fresh, Ht.
Qed.

End ForecasterEdges.

Section ForecastPrefix.

Variables Scaler Model : Type.
Variable scaler_transform : Scaler -> list float -> list float.
Variable predict : Model -> list float -> float.

Lemma forecast_loop_appends (self : DemandForecaster Scaler Model)
      (model : Model) (n : nat) :
  forall (h : heap) (cur : ref) (acc l : list ForecastPoint),
    fst (forecast_loop scaler_transform predict self model n cur acc h)
    = inr l ->
    exists pts, l = acc ++ pts /\ length pts = n.
Proof.
  induction n as [|n IH]; intros h cur acc l H.
  - simpl in H. injection H as <-. exists []. now rewrite app_nil_r.
  - cbn [forecast_loop] in H. unfold hbind in H.
    destruct (forecast_step_cases Scaler Model scaler_transform predict
                self model h cur)
      as [[e E] | (f & pt & row & _ & _ & E)];
      rewrite E in H; [discriminate |].
    cbn [fst snd] in H. apply IH in H. destruct H as (pts & -> & Hlen).
    exists (pt :: pts). rewrite <- app_assoc. split; [reflexivity |].
    simpl. now rewrite Hlen.
Qed.

Lemma forecast_loop_prefix (self : DemandForecaster Scaler Model)
      (model : Model) (n k : nat) :
  forall (h : heap) (cur : ref) (acc l : list ForecastPoint),
    fst (forecast_loop scaler_transform predict self model (n + k) cur acc h)
    = inr l ->
    fst (forecast_loop scaler_transform predict self model n cur acc h)
    = inr (firstn (length acc + n) l).
Proof.
  induction n as [|n IH]; intros h cur acc l H.
  - apply forecast_loop_appends in H. destruct H as (pts & -> & _).
    simpl. rewrite Nat.add_0_r, firstn_app, Nat.sub_diag, firstn_O, app_nil_r.
    now rewrite firstn_all.
  - cbn [Nat.add forecast_loop] in *. unfold hbind in *.
    destruct (forecast_step_cases Scaler Model scaler_transform predict
                self model h cur)
      as [[e E] | (f & pt & row & _ & _ & E)];
      rewrite E in *; [discriminate |].
    cbn [fst snd] in *. apply IH in H. rewrite H.
    rewrite length_app. cbn [length]. do 2 f_equal. lia.
Qed.

(** A shorter horizon gives a prefix of the longer forecast: the first
    [d1] points of a forecast over [d2 >= d1] days are the forecast over
    [d1] days. *)
Theorem forecast_demand_prefix
        (self : DemandForecaster Scaler Model) (model : Model)
        (h : heap) (df : ref) (d1 d2 : Z) (l2 : list ForecastPoint) :
  (d1 <= d2)%Z ->
  fst (forecast_demand scaler_transform predict self model df d2 h)
  = inr l2 ->
  fst (forecast_demand scaler_transform predict self model df d1 h)
  = inr (firstn (Z.to_nat d1) l2).
Proof.
  intros Hd H.
  destruct (nth_error h df) as [f|] eqn:Hf.
  - rewrite (forecast_demand_allocated Scaler Model scaler_transform predict
               self model h df f d2 Hf) in H.
    rewrite (forecast_demand_allocated Scaler Model scaler_transform predict
               self model h df f d1 Hf).
    replace (Z.to_nat d2)
      with (Z.to_nat d1 + (Z.to_nat d2 - Z.to_nat d1))%nat in H by lia.
    apply forecast_loop_prefix in H. exact H.
  - rewrite (forecast_demand_dangling Scaler Model scaler_transform predict
               self model h df _ Hf) in H. discriminate.
Qed.

End ForecastPrefix.

Lemma forecast_demand_prefix_witness :
  (1 <= 2)%Z /\
  exists l2,
    fst (forecast_demand (fun _ x => x) first_feature trained_forecaster tt
                         0%nat 2 [flat_frame (Fin 1) 3]) = inr l2 /\
    fst (forecast_demand (fun _ x => x) first_feature trained_forecaster tt
                         0%nat 1 [flat_frame (Fin 1) 3])
    = inr (firstn 1 l2).
Proof.
  assert (H : (1 <= 2)%Z) by lia.
  split; [exact H |].
  destruct (forecast_loop_points unit unit (fun _ x => x) first_feature
              trained_forecaster tt tt 2 eq_refl
              ([flat_frame (Fin 1) 3] ++ [tail 30 (flat_frame (Fin 1) 3)])
              1%nat (tail 30 (flat_frame (Fin 1) 3)) 2%Z [] eq_refl)
    as (l2 & E & _); [discriminate | reflexivity |].
  exists l2.
  assert (E2 : fst (forecast_demand (fun _ x => x) first_feature
                      trained_forecaster tt 0%nat 2 [flat_frame (Fin 1) 3])
               = inr l2).
  { rewrite (forecast_demand_allocated unit unit (fun _ x => x)
               first_feature trained_forecaster tt [flat_frame (Fin 1) 3]
               0%nat (flat_frame (Fin 1) 3) 2 eq_refl).
    exact E. }
  split; [exact E2 |].
  exact (forecast_demand_prefix unit unit (fun _ x => x) first_feature
           trained_forecaster tt [flat_frame (Fin 1) 3] 0%nat 1 2 l2 H E2).
Defined.

Lemma prediction_feeds_next_lag_witness :
  exists pt row pt' row',
    next_day (fun _ x => x) first_feature trained_forecaster tt
             (flat_frame (Fin 1) 3) = inr (pt, row) /\
    next_day (fun _ x => x) first_feature trained_forecaster tt
             (flat_frame (Fin 1) 3 ++ [row]) = inr (pt', row') /\
    quantity row = predicted_quantity pt /\
    quantity_lag1 row' = predicted_quantity pt /\
    fp_date pt' = (fp_date pt + 1)%Z.
Proof.
  destruct (next_day_ok unit unit (fun _ x => x) first_feature
              trained_forecaster tt (flat_frame (Fin 1) 3) tt 2%Z)
    as (pt & row & E1 & _ & Hrd & _);
    [discriminate | reflexivity | reflexivity |].
  destruct (next_day_ok unit unit (fun _ x => x) first_feature
              trained_forecaster tt (flat_frame (Fin 1) 3 ++ [row]) tt 3%Z)
    as (pt' & row' & E2 & _);
    [discriminate | reflexivity
     | rewrite map_app; cbn [map]; rewrite Hrd; reflexivity |].
  exists pt, row, pt', row'.
  split; [exact E1 | split; [exact E2 |]].
  exact (prediction_feeds_next_lag unit unit (fun _ x => x) first_feature
           trained_forecaster tt (flat_frame (Fin 1) 3) pt pt' row row'
           E1 E2).
Defined.

Lemma forecast_demand_no_days_witness :
  nth_error [flat_frame (Fin 1) 3] 0 = Some (flat_frame (Fin 1) 3) /\
  (0 <= 0)%Z /\
  forecast_demand (fun _ x => x) first_feature unit_forecaster tt 0%nat 0
                  [flat_frame (Fin 1) 3]
  = (inr [], [flat_frame (Fin 1) 3] ++ [tail 30 (flat_frame (Fin 1) 3)]).
Proof.
  assert (H1 : nth_error [flat_frame (Fin 1) 3] 0
               = Some (flat_frame (Fin 1) 3)) by reflexivity.
  assert (H2 : (0 <= 0)%Z) by lia.
  split; [exact H1 | split; [exact H2 |]].
  exact (forecast_demand_no_days unit unit (fun _ x => x) first_feature
           unit_forecaster tt [flat_frame (Fin 1) 3] 0%nat
           (flat_frame (Fin 1) 3) 0 H1 H2).
Defined.

Lemma forecast_demand_empty_frame_witness :
  nth_error [@nil FeatureRow] 0 = Some [] /\ (1 <= 1)%Z /\
  forecast_demand (fun _ x => x) first_feature trained_forecaster tt 0%nat 1
                  [[]]
  = (inl IndexError, [[]] ++ [[]]).
Proof.
  assert (H1 : nth_error [@nil FeatureRow] 0 = Some []) by reflexivity.
  assert (H2 : (1 <= 1)%Z) by lia.
  split; [exact H1 | split; [exact H2 |]].
  exact (forecast_demand_empty_frame unit unit (fun _ x => x) first_feature
           trained_forecaster tt [[]] 0%nat 1 H1 H2).
Defined.

Lemma forecast_demand_untrained_witness :
  nth_error [flat_frame (Fin 1) 3] 0 = Some (flat_frame (Fin 1) 3) /\
  flat_frame (Fin 1) 3 <> [] /\ (1 <= 30)%Z /\
  dict_get "demand" (scalers unit_forecaster) = raise (KeyError "demand") /\
  forecast_demand (fun _ x => x) first_feature unit_forecaster tt 0%nat 30
                  [flat_frame (Fin 1) 3]
  = (inl (KeyError "demand"),
     [flat_frame (Fin 1) 3] ++ [tail 30 (flat_frame (Fin 1) 3)]).
Proof.
  assert (H1 : nth_error [flat_frame (Fin 1) 3] 0
               = Some (flat_frame (Fin 1) 3)) by reflexivity.
  assert (H2 : flat_frame (Fin 1) 3 <> []) by discriminate.
  assert (H3 : (1 <= 30)%Z) by lia.
  assert (H4 : dict_get "demand" (scalers unit_forecaster)
               = raise (KeyError "demand")) by reflexivity.
  split; [exact H1 | split; [exact H2 | split; [exact H3 | split;
    [exact H4 |]]]].
  exact (forecast_demand_untrained unit unit (fun _ x => x) first_feature
           unit_forecaster tt [flat_frame (Fin 1) 3] 0%nat
           (flat_frame (Fin 1) 3) 30 H1 H2 H3 H4).
Defined.

Lemma forecast_demand_last_30_rows_witness :
  nth_error [flat_row (Fin 9) 0 :: map (flat_row (Fin 1)) (seq 1 30)] 0
  = Some (flat_row (Fin 9) 0 :: map (flat_row (Fin 1)) (seq 1 30)) /\
  nth_error [map (flat_row (Fin 1)) (seq 1 30)] 0
  = Some (map (flat_row (Fin 1)) (seq 1 30)) /\
  tail 30 (flat_row (Fin 9) 0 :: map (flat_row (Fin 1)) (seq 1 30))
  = tail 30 (map (flat_row (Fin 1)) (seq 1 30)) /\
  fst (forecast_demand (fun _ x => x) first_feature trained_forecaster tt
         0%nat 7
         [flat_row (Fin 9) 0 :: map (flat_row (Fin 1)) (seq 1 30)])
  = fst (forecast_demand (fun _ x => x) first_feature trained_forecaster tt
           0%nat 7 [map (flat_row (Fin 1)) (seq 1 30)]).
Proof.
  assert (H1 : nth_error
                 [flat_row (Fin 9) 0 :: map (flat_row (Fin 1)) (seq 1 30)] 0
               = Some (flat_row (Fin 9) 0
                       :: map (flat_row (Fin 1)) (seq 1 30)))
    by reflexivity.
  assert (H2 : nth_error [map (flat_row (Fin 1)) (seq 1 30)] 0
               = Some (map (flat_row (Fin 1)) (seq 1 30))) by reflexivity.
  assert (H3 : tail 30 (flat_row (Fin 9) 0
                        :: map (flat_row (Fin 1)) (seq 1 30))
               = tail 30 (map (flat_row (Fin 1)) (seq 1 30)))
    by reflexivity.
  split; [exact H1 | split; [exact H2 | split; [exact H3 |]]].
  exact (forecast_demand_last_30_rows unit unit (fun _ x => x) first_feature
           trained_forecaster tt _ _ 0%nat 0%nat _ _ 7 H1 H2 H3).
Defined.

(** ** Recommendation generator: what the alerts say *)


Lemma fold_Rmax_repeat (c : R) (n : nat) : fold_left Rmax (repeat c n) c = c.
Proof.
  induction n as [|n IH]; simpl; [reflexivity |].
  replace (Rmax c c) with c by (unfold Rmax; destruct (Rle_dec c c); lra).
  exact IH.
Qed.

Lemma fold_Rmin_repeat (c : R) (n : nat) : fold_left Rmin (repeat c n) c = c.
Proof.
  induction n as [|n IH]; simpl; [reflexivity |].
  replace (Rmin c c) with c by (unfold Rmin; destruct (Rle_dec c c); lra).
  exact IH.
Qed.

Lemma predicted_reals_flat (forecasts : list ForecastPoint) (c : R) :
  Forall (fun f => predicted_quantity f = Fin c) forecasts ->
  predicted_reals forecasts = repeat c (length forecasts).
Proof.
  unfold predicted_reals.
  induction 1 as [|f l Hf _ IH]; simpl; [reflexivity |].
  now rewrite Hf, IH.
Qed.


(** A flat forecast raises no alert: the only recommendation returned is
    the inventory one, carrying the truncated reorder point and safety
    stock. *)
Theorem flat_forecast_no_alert (store_id : Z)
        (forecasts : list ForecastPoint) (inv : InventoryParameters)
        (c rp ss : R) :
  forecasts <> [] -> 0 <= c ->
  Forall (fun f => predicted_quantity f = Fin c) forecasts ->
  reorder_point inv = Fin rp -> safety_stock inv = Fin ss ->
  generate_recommendations store_id forecasts inv
  = inr [inventory_optimization (Rtrunc rp) (Rtrunc ss)].
Proof.
  intros Hne Hc Hall Hrp Hss.
  assert (Hnn : Forall (fun f => nonneg_finite (predicted_quantity f))
                       forecasts).
  { rewrite Forall_forall in *. intros f Hf. rewrite (Hall f Hf). exact Hc. }
  rewrite (generate_recommendations_finite store_id forecasts inv rp ss
             Hne Hnn Hrp Hss).
  rewrite (predicted_reals_flat forecasts c Hall).
  assert (Hlen : (0 < length forecasts)%nat)
    by (destruct forecasts; [congruence | simpl; lia]).
  rewrite Rmean_repeat by exact Hlen.
  assert (Hmax : Rmax_of (repeat c (length forecasts)) = c).
  { destruct (length forecasts) as [|n]; [lia |]. apply fold_Rmax_repeat. }
  assert (Hmin : Rmin_of (repeat c (length forecasts)) = c).
  { destruct (length forecasts) as [|n]; [lia |]. apply fold_Rmin_repeat. }
  rewrite Hmax, Hmin.
  destruct (Rlt_dec (c * 1.5) c); [lra |].
  destruct (Rlt_dec c (c * 0.5)); [lra |]. reflexivity.
Qed.


Lemma flat_forecast_no_alert_witness :
  [point_of 0 3; point_of 1 3] <> [] /\ 0 <= 3 /\
  Forall (fun f => predicted_quantity f = Fin 3)
         [point_of 0 3; point_of 1 3] /\
  reorder_point steady_inventory = Fin 700 /\
  safety_stock steady_inventory = Fin 0 /\
  generate_recommendations 1 [point_of 0 3; point_of 1 3] steady_inventory
  = inr [inventory_optimization (Rtrunc 700) (Rtrunc 0)].
Proof.
  assert (H1 : [point_of 0 3; point_of 1 3] <> []) by discriminate.
  assert (H2 : 0 <= 3) by lra.
  assert (H3 : Forall (fun f => predicted_quantity f = Fin 3)
                      [point_of 0 3; point_of 1 3])
    by (repeat constructor).
  assert (H4 : reorder_point steady_inventory = Fin 700) by reflexivity.
  assert (H5 : safety_stock steady_inventory = Fin 0) by reflexivity.
  split; [exact H1 | split; [exact H2 | split; [exact H3 | split;
    [exact H4 | split; [exact H5 |]]]]].
  exact (flat_forecast_no_alert 1 [point_of 0 3; point_of 1 3]
           steady_inventory 3 700 0 H1 H2 H3 H4 H5).
Defined.

(** On finite, non-negative forecasts the two alerts never raise: what is
    left to evaluate are the two integer conversions of the inventory
    parameters. *)
Lemma generate_recommendations_alerts (store_id : Z)
      (forecasts : list ForecastPoint) (inv : InventoryParameters) :
  forecasts <> [] ->
  Forall (fun f => nonneg_finite (predicted_quantity f)) forecasts ->
  exists high low,
    generate_recommendations store_id forecasts inv
    = bind (py_int (reorder_point inv))
           (fun rp => bind (py_int (safety_stock inv))
                           (fun ss => ret (high ++ low
                                           ++ [inventory_optimization rp ss]))).
Proof.
  intros Hne Hall.
  destruct (predictions_finite forecasts Hall) as [Hp Hpos].
  set (q := predicted_reals forecasts) in *.
  assert (Hq : q <> []).
  { unfold q, predicted_reals. destruct forecasts; [congruence | discriminate]. }
  unfold generate_recommendations.
  rewrite Hp, (np_mean_Fin q Hq), (py_max_Fin q Hq), (py_min_Fin q Hq).
  cbn [bind ret fmul fgtb fltb].
  destruct (Rlt_dec (Rmin_of q) (Rmean q * 0.5)) as [Hlo|Hlo];
    (destruct (Rlt_dec (Rmean q * 1.5) (Rmax_of q)) as [Hhi|Hhi];
     [| cbn [bind ret]; do 2 eexists;
        destruct (py_int (reorder_point inv)); [reflexivity |];
        cbn [bind]; destruct (py_int (safety_stock inv)); reflexivity]).
  all: cut (Rmean q <> 0);
    [ intros Hm; cbn [fsub fneg fadd fdiv];
      destruct (Req_dec_T (Rmean q) 0) as [Z|_]; [contradiction |];
      cbn [fmul of_Z py_int bind ret]; do 2 eexists;
      destruct (py_int (reorder_point inv)); [reflexivity |];
      cbn [bind]; destruct (py_int (safety_stock inv)); reflexivity | ].
  all: pose proof (Rmax_of_le_sum q Hpos) as Hle.
  all: assert (Hn : 0 < INR (length q))
    by (apply INR_pos_of_lt; destruct q; [congruence | simpl; lia]).
  all: assert (Hmean : Rmean q * INR (length q) = Rsum q)
    by (unfold Rmean; field; lra).
  all: assert (0 <= Rmean q)
    by (unfold Rmean; apply Rmult_le_pos;
        [clear -Hpos; induction Hpos; simpl; lra
        | left; now apply Rinv_0_lt_compat]).
  all: intros Z; rewrite Z in *; lra.
Qed.

(** For forecast points with finite, non-negative predictions the generator
    raises exactly when the forecast list is empty (the maximum of an empty
    list) or the reorder point or the safety stock is not a finite number
    (the conversion to an integer). *)
Theorem generate_recommendations_raises_iff (store_id : Z)
        (forecasts : list ForecastPoint) (inv : InventoryParameters) :
  Forall (fun f => nonneg_finite (predicted_quantity f)) forecasts ->
  (exists e, generate_recommendations store_id forecasts inv = inl e) <->
  forecasts = [] \/ ~ is_finite (reorder_point inv)
  \/ ~ is_finite (safety_stock inv).
Proof.
  intros Hall. destruct forecasts as [|f l].
  - split; [intros _; now left | intros _].
    eexists. reflexivity.
  - destruct (generate_recommendations_alerts store_id (f :: l) inv
                ltac:(discriminate) Hall) as [high [low ->]].
    destruct (reorder_point inv) as [rp| | |];
      destruct (safety_stock inv) as [ss| | |]; cbn [py_int bind ret raise];
      (split;
       [ intros [e He]; try discriminate;
         right; simpl; tauto
       | intros [H | [H | H]]; try discriminate;
         try (exfalso; apply H; exact I);
         eexists; reflexivity ]).
Qed.

Lemma generate_recommendations_raises_iff_witness :
  Forall (fun f => nonneg_finite (predicted_quantity f)) [] /\
  exists e, generate_recommendations 1 [] steady_inventory = inl e.
Proof.
  assert (H : Forall (fun f : ForecastPoint =>
                        nonneg_finite (predicted_quantity f)) [])
    by constructor.
  split; [exact H |].
  apply (generate_recommendations_raises_iff 1 [] steady_inventory H).
  now left.
Defined.

(** ** The pipeline over the stores: what reaches the database *)

Lemma gb_insert_length (d : Z) (q : R) (acc : list (Z * R)) :
  (length (gb_insert d q acc) <= S (length acc))%nat.
Proof.
  induction acc as [|[d' q'] t IH]; simpl; [lia |].
  destruct (d <? d')%Z; [simpl; lia |].
  destruct (d =? d')%Z; simpl; lia.
Qed.

Lemma groupby_sum_length (l : list (Z * R)) :
  (length (groupby_sum l) <= length l)%nat.
Proof.
  unfold groupby_sum.
  cut (forall acc,
          (length (fold_left (fun a r => gb_insert (fst r) (snd r) a) l acc)
           <= length acc + length l)%nat).
  { intros H. apply (H []). }
  induction l as [|r l IH]; intros acc; simpl; [lia |].
  specialize (IH (gb_insert (fst r) (snd r) acc)).
  pose proof (gb_insert_length (fst r) (snd r) acc). lia.
Qed.

Lemma create_features_quantity_defined (df : list SalesRecord) :
  masked_rows (create_features df) = create_features df.
Proof.
  apply masked_rows_all.
  destruct (create_features_columns df) as [Hq _]. cbv zeta in Hq.
  apply (Forall_of_column quantity (fun x => isnan x = false) _ _ Hq).
  rewrite fill_column_all_defined by apply Forall_defined_Fin.
  apply Forall_defined_Fin.
Qed.

Section PipelineProperties.

Variables Scaler Model : Type.
Variable fit_scaler : list (list float) -> Scaler.
Variable scaler_transform : Scaler -> list float -> list float.
Variable fit_gradient_boosting : list (list float) -> list float -> Model.
Variable fit_random_forest : list (list float) -> list float -> Model.
Variable predict : Model -> list float -> float.
Variable feature_importances_ : Model -> list float.
Variables r2_score mean_absolute_error mean_squared_error :
  list float -> list float -> float.

Let stages := forecast_and_recommend scaler_transform predict.
Let store := process_store fit_scaler scaler_transform fit_gradient_boosting
                           fit_random_forest predict feature_importances_
                           r2_score mean_absolute_error mean_squared_error.
Let pipeline :=
  run_forecasting_pipeline fit_scaler scaler_transform fit_gradient_boosting
                           fit_random_forest predict feature_importances_
                           r2_score mean_absolute_error mean_squared_error.

(** Without a date column the stages after training end in an error,
    whatever the forecaster returns. *)
Lemma stages_raise (self : DemandForecaster Scaler Model) (model : Model)
      (store_id : Z) (df : SalesTable) (r : ref) (h : heap) :
  date_column df = None ->
  exists e h', stages self model store_id df r h = (inl e, h').
Proof.
  intros Hd. unfold stages, forecast_and_recommend, hbind at 1.
  destruct (forecast_demand scaler_transform predict self model r 30 h)
    as [[e|forecasts] h'].
  - now exists e, h'.
  - unfold hbind, lift, groupby_date_quantity. rewrite Hd.
    cbn [bind raise]. now exists (KeyError "date"), h'.
Qed.

(** With a trained scaler and a frame of features that is not empty, the
    forecasts are produced and the next stage raises KeyError on 'date'. *)
Lemma stages_raise_on_date (self : DemandForecaster Scaler Model)
      (model : Model) (sc : Scaler) (store_id : Z) (df : SalesTable)
      (f : frame) (h : heap) :
  date_column df = None ->
  dict_get "demand" (scalers self) = ret sc ->
  f <> [] -> ascending (map date f) ->
  exists h',
    stages self model store_id df (length h) (h ++ [f])
    = (inl (KeyError "date"), h').
Proof.
  intros Hd Hsc Hf Hasc.
  unfold stages, forecast_and_recommend, hbind at 1.
  rewrite (forecast_demand_allocated _ _ scaler_transform predict self model
             (h ++ [f]) (length h) f 30 (nth_error_fresh h f)).
  destruct (forecast_loop_points _ _ scaler_transform predict self model sc
              (Z.to_nat 30) Hsc
              ((h ++ [f]) ++ [tail 30 f]) (length (h ++ [f])) (tail 30 f)
              (last_date f) []
              (nth_error_fresh (h ++ [f]) (tail 30 f))
              (tail_nonempty 30 f ltac:(lia) Hf)
              (tail_date_max f Hasc Hf)) as (pts & Hpts & _).
  destruct (forecast_loop scaler_transform predict self model (Z.to_nat 30)
              (length (h ++ [f])) [] ((h ++ [f]) ++ [tail 30 f]))
    as [res h'].
  cbn [fst] in Hpts. subst res.
  unfold hbind, lift, groupby_date_quantity. rewrite Hd.
  cbn [bind raise]. now exists h'.
Qed.

(** For every store the body of the loop ends in one of three ways, and
    none of them is the call of [save_forecasts_to_db]: fewer than 100 sale
    rows are skipped as insufficient; 100 rows or more on fewer than 100
    distinct dates fail in training with the ValueError; and with 100
    distinct dates or more the model is trained, the forecasts are
    produced, and anomaly detection raises KeyError on 'date', the frame of
    the query having no such column. *)
Theorem process_store_outcome (self : DemandForecaster Scaler Model)
        (store_id : Z) (data : list SalesRecord) (h : heap) :
  let outcome := fst (fst (store self store_id (historical_frame data) h)) in
  ((length data < 100)%nat -> outcome = Insufficient) /\
  ((100 <= length data)%nat -> (length (daily_quantity data) < 100)%nat ->
   outcome
   = Errored (ValueError "Insufficient data for model training")) /\
  ((100 <= length (daily_quantity data))%nat ->
   outcome = Errored (KeyError "date")).
Proof.
  cbv zeta. unfold store, process_store. cbn [rows historical_frame].
  split; [| split].
  - intros H. apply Nat.ltb_lt in H. now rewrite H.
  - intros H1 H2.
    assert (E : (length data <? 100)%nat = false) by (apply Nat.ltb_ge; lia).
    rewrite E.
    rewrite (train_model_raises _ _ fit_scaler scaler_transform
               fit_gradient_boosting fit_random_forest predict
               feature_importances_ r2_score mean_absolute_error
               mean_squared_error self (create_features data)
               "gradient_boosting").
    + reflexivity.
    + rewrite create_features_quantity_defined, create_features_length.
      exact H2.
  - intros H.
    pose proof (groupby_sum_length
                  (map (fun r => (saleDate r, sale_quantity r)) data)) as Hl.
    fold (daily_quantity data) in Hl. rewrite length_map in Hl.
    assert (E : (length data <? 100)%nat = false) by (apply Nat.ltb_ge; lia).
    rewrite E.
    destruct (train_model_returns _ _ fit_scaler scaler_transform
                fit_gradient_boosting fit_random_forest predict
                feature_importances_ r2_score mean_absolute_error
                mean_squared_error self (create_features data)
                "gradient_boosting")
      as (model & metrics & self' & Ht & _ & _ & Hsc).
    { rewrite create_features_quantity_defined, create_features_length.
      exact H. }
    rewrite Ht.
    assert (Hne : create_features data <> []).
    { intros Z. apply (f_equal (@length _)) in Z.
      rewrite create_features_length in Z. simpl in Z. lia. }
    destruct (stages_raise_on_date self' model _ store_id
                (historical_frame data) (create_features data) h
                eq_refl Hsc Hne (create_features_ascending data))
      as (h' & Hs).
    unfold stages in Hs. rewrite Hs. reflexivity.
Qed.

Lemma process_store_not_saved (self : DemandForecaster Scaler Model)
      (store_id : Z) (data : list SalesRecord) (h : heap)
      (forecasts : list ForecastPoint) :
  fst (fst (store self store_id (historical_frame data) h))
  <> Saved forecasts.
Proof.
  unfold store, process_store.
  destruct (length (rows (historical_frame data)) <? 100)%nat;
    [discriminate |].
  destruct (train_model _ _ _ _ _ _ _ _ _ _ _ _)
    as [e | [[model metrics] self']]; [discriminate |].
  destruct (stages_raise self' model store_id (historical_frame data)
              (length h)
              (h ++ [create_features (rows (historical_frame data))])
              eq_refl) as (e & h' & Hs).
  unfold stages in Hs. rewrite Hs. discriminate.
Qed.

(** A run of the pipeline processes every store and reaches
    [save_forecasts_to_db] for none of them: no forecast is written to the
    database, whatever the sales history of the stores and whatever the
    learner returns. *)
Theorem pipeline_saves_nothing (self : DemandForecaster Scaler Model)
        (stores : list (Z * list SalesRecord)) (h : heap) :
  let outcomes := fst (fst (pipeline self stores h)) in
  length outcomes = length stores /\
  Forall (fun o => forall forecasts, o <> Saved forecasts) outcomes.
Proof.
  cbv zeta. revert self h.
  induction stores as [|[store_id data] rest IH]; intros self h.
  - split; [reflexivity | constructor].
  - unfold pipeline. cbn [run_forecasting_pipeline].
    pose proof (process_store_not_saved self store_id data h) as Hn.
    unfold store in Hn.
    destruct (process_store _ _ _ _ _ _ _ _ _ self store_id
                (historical_frame data) h) as [[o self'] h'].
    cbn [fst] in Hn.
    specialize (IH self' h'). unfold pipeline in IH.
    destruct (run_forecasting_pipeline _ _ _ _ _ _ _ _ _ self' rest h')
      as [[os self''] h''].
    cbn [fst] in *. destruct IH as [IH1 IH2].
    split; [simpl; now rewrite IH1 | constructor; assumption].
Qed.

End PipelineProperties.

Lemma process_store_outcome_witness :
  (100 <= length (daily_quantity (daily_sales_of 5 100)))%nat /\
  fst (fst (process_store (fun _ => tt) (fun _ x => x) (fun _ _ => tt)
                          (fun _ _ => tt) first_feature (fun _ => [])
                          (fun _ _ => NaN) (fun _ _ => NaN) (fun _ _ => NaN)
                          unit_forecaster 1
                          (historical_frame (daily_sales_of 5 100)) []))
  = Errored (KeyError "date").
Proof.
  assert (H : (100 <= length (daily_quantity (daily_sales_of 5 100)))%nat).
  { rewrite daily_quantity_of_days, length_map, length_seq.
    apply Nat.le_refl. }
  split; [exact H |].
  exact (proj2 (proj2
           (process_store_outcome unit unit (fun _ => tt) (fun _ x => x)
              (fun _ _ => tt) (fun _ _ => tt) first_feature (fun _ => [])
              (fun _ _ => NaN) (fun _ _ => NaN) (fun _ _ => NaN)
              unit_forecaster 1 (daily_sales_of 5 100) [])) H).
Defined.
